(** * The taxonomy engine of typecho-blog-api

    A shallow embedding of [function/category_edit.py],
    [function/tags_edit.py] and [function/post_edit.py]: the tables the
    handlers read and write, the statements they send, the Python control
    flow around them (exceptions, early [return], commit and rollback), and
    the properties of the category/tag bookkeeping that follow.

    Conventions of the model.
    - A table is the list of its rows; a statement is a function on the
      tables.  Column comparison is equality of the stored values.
    - Text is a string of bytes.  The bytes below 128 are the ASCII
      characters, and the character tests of Python ([isspace], [isdigit],
      [lower], the classes of [re]) are modelled on them; a property that
      depends on these tests for the text of a request is stated of ASCII
      text.
    - A request body is a JSON object whose fields, when present, have the
      type the handler expects (a string for [name], [slug], [description],
      [title], [text], [status], an integer for [parent], a list of integers
      for [category]).  The batch list of [delete_tag] and the tag list of
      [create_post] are taken with arbitrary entries, since the handlers
      convert each entry themselves.
    - The schema of Typecho is not under [src/].  Two of its constraints
      are taken from the spec: the count of a node is never negative (the
      column is unsigned), and a link is a pair held once (the pair is the
      key of [typecho_relationships]).  The server refuses a statement that
      breaks one of them, and the handler answers 500 after rolling back.
      The lengths and the upper ends of the columns are not modelled.
    - [get_db_connection] has produced a connection; its statements may
      still fail (the link may be down).
    - The routes that read ([get_categories], [get_category], [get_tags],
      [get_tag], [get_post]) answer with the rows they fetch; [get_posts]
      orders by a column that is not part of the model and is left out.
    - In [function/verify_user.py] the Base64/UTF-8 decoding and the MD5
      digest are library calls; the decorator and the password check are
      modelled for any decoder and any digest function. *)

From Stdlib Require Import ZArith List String Ascii Bool Lia.
From Stdlib Require Import Sorted Permutation.
Import ListNotations.

Local Open Scope string_scope.
Local Open Scope Z_scope.

(* ================================================================== *)
(** ** Python values: text, truth, [int()] *)
(* ================================================================== *)

Module Py.

(** Exceptions the handlers can meet. *)
Inductive exn : Set :=
| OperationalError   (* pymysql: the statement could not be run *)
| ProgrammingError   (* pymysql: the statement was refused (syntax, missing table) *)
| IntegrityError     (* pymysql: a key that is in the table already *)
| ValueError
| TypeError
| OverflowError.

(** [pymysql.Error] is the base of the storage errors. *)
Definition is_pymysql_error (e : exn) : bool :=
  match e with
  | OperationalError | ProgrammingError | IntegrityError => true
  | _ => false
  end.

(** What a call of a Python function yields: a value, or a raised
    exception. *)
Inductive result (A : Type) : Type :=
| Ret (a : A)
| Raise (e : exn).
Arguments Ret {A} a.
Arguments Raise {A} e.

Definition code (a : ascii) : N := N_of_ascii a.

Definition between (lo hi : N) (a : ascii) : bool :=
  ((lo <=? code a) && (code a <=? hi))%N.

(** [str.isspace] on one ASCII character: tab .. carriage return,
    the four separators 28..31, and the blank. *)
Definition is_space (a : ascii) : bool :=
  between 9 13 a || between 28 32 a.

Definition is_digit (a : ascii) : bool := between 48 57 a.
Definition is_upper (a : ascii) : bool := between 65 90 a.
Definition is_lower (a : ascii) : bool := between 97 122 a.
Definition is_hyphen (a : ascii) : bool := (code a =? 45)%N.
Definition is_underscore (a : ascii) : bool := (code a =? 95)%N.
Definition is_newline (a : ascii) : bool := (code a =? 10)%N.

(** The class [\w] of [re]. *)
Definition is_word (a : ascii) : bool :=
  is_upper a || is_lower a || is_digit a || is_underscore a.

Definition is_empty (s : string) : bool :=
  match s with EmptyString => true | String _ _ => false end.

Fixpoint lstrip (s : string) : string :=
  match s with
  | EmptyString => EmptyString
  | String a s' => if is_space a then lstrip s' else s
  end.

Fixpoint rstrip (s : string) : string :=
  match s with
  | EmptyString => EmptyString
  | String a s' =>
      let t := rstrip s' in
      if is_space a && is_empty t then EmptyString else String a t
  end.

(** [s.strip()] *)
Definition strip (s : string) : string := rstrip (lstrip s).

Definition lower_char (a : ascii) : ascii :=
  if is_upper a then ascii_of_N (code a + 32) else a.

(** [s.lower()] *)
Fixpoint lower (s : string) : string :=
  match s with
  | EmptyString => EmptyString
  | String a s' => String (lower_char a) (lower s')
  end.

(** [re.sub(r'[^...]', '', s)]: keep the characters of a class. *)
Fixpoint keep (p : ascii -> bool) (s : string) : string :=
  match s with
  | EmptyString => EmptyString
  | String a s' => if p a then String a (keep p s') else keep p s'
  end.

(** [re.sub(r'[...]+', '-', s)]: every maximal run of the class becomes
    one hyphen; [in_run] says that the previous character was in it. *)
Fixpoint squeeze (p : ascii -> bool) (in_run : bool) (s : string) : string :=
  match s with
  | EmptyString => EmptyString
  | String a s' =>
      if p a
      then (if in_run then squeeze p true s'
            else String "-"%char (squeeze p true s'))
      else String a (squeeze p false s')
  end.

(** Truth value of an integer ([if x:]). *)
Definition truthy (z : Z) : bool := negb (z =? 0).

(** The white space [int(str)] passes over at both ends of ASCII text:
    tab .. carriage return and the blank.  Unlike [str.strip] it keeps
    the separators 28..31. *)
Definition is_c_space (a : ascii) : bool :=
  between 9 13 a || (code a =? 32)%N.

Fixpoint c_lstrip (s : string) : string :=
  match s with
  | EmptyString => EmptyString
  | String a s' => if is_c_space a then c_lstrip s' else s
  end.

Fixpoint c_rstrip (s : string) : string :=
  match s with
  | EmptyString => EmptyString
  | String a s' =>
      let t := c_rstrip s' in
      if is_c_space a && is_empty t then EmptyString else String a t
  end.

(** [sys.get_int_max_str_digits()], as the interpreter starts with. *)
Definition max_str_digits : N := 4300.

(** The decimal literal grammar of [int(str)]: digits, with single
    underscores between digits.  [seen] counts the digits read, which
    [int] bounds by [max_str_digits]. *)
Fixpoint digits (s : string) (acc : Z) (seen : N) (after_digit : bool)
  : option Z :=
  match s with
  | EmptyString =>
      if after_digit && (seen <=? max_str_digits)%N then Some acc else None
  | String a s' =>
      if is_digit a
      then digits s' (10 * acc + (Z.of_N (code a) - 48)) (seen + 1)%N true
      else if is_underscore a && after_digit
           then digits s' acc seen false
           else None
  end.

Definition int_of_str (s : string) : result Z :=
  let t := c_rstrip (c_lstrip s) in
  let signed :=
    match t with
    | String a t' =>
        if (code a =? 45)%N then option_map Z.opp (digits t' 0 0 false)
        else if (code a =? 43)%N then digits t' 0 0 false
        else digits t 0 0 false
    | EmptyString => None
    end in
  match signed with
  | Some z => Ret z
  | None => Raise ValueError
  end.

(** A JSON number with a fraction or an exponent is a Python [float]:
    a finite one is the quotient of two integers; [json.loads] also
    reads [Infinity], [-Infinity], [NaN], and an exponent too large for
    a double gives an infinity. *)
Inductive float : Type :=
| Finite (numerator : Z) (denominator : positive)
| Infinite (negative : bool)
| NaN.

(** An entry of a JSON array, as [int()] tells them apart. *)
Inductive item : Type :=
| Int (z : Z)
| Float (x : float)
| Str (s : string)
| Bool (b : bool)
| Null
| Container.   (* a nested array or object *)

(** [int(x)]: a float is cut toward zero. *)
Definition int (x : item) : result Z :=
  match x with
  | Int z => Ret z
  | Float (Finite n d) => Ret (Z.quot n (Zpos d))
  | Float (Infinite _) => Raise OverflowError
  | Float NaN => Raise ValueError
  | Str s => int_of_str s
  | Bool b => Ret (if b then 1 else 0)
  | Null => Raise TypeError
  | Container => Raise TypeError
  end.

(** [str(x).strip().isdigit()] on ASCII text: the printed form of an
    integer has digits only when it is not negative; the printed form
    of a float has a point, an exponent or letters; [True], [False],
    [None] and the brackets of a container are no digits. *)
Fixpoint all_digits (s : string) : bool :=
  match s with
  | EmptyString => true
  | String a s' => is_digit a && all_digits s'
  end.

Definition str_isdigit (x : item) : bool :=
  match x with
  | Int z => 0 <=? z
  | Str s => negb (is_empty (strip s)) && all_digits (strip s)
  | _ => false
  end.

(** Text of the ASCII fragment. *)
Definition is_ascii (a : ascii) : bool := (code a <? 128)%N.

Fixpoint ascii_text (s : string) : bool :=
  match s with
  | EmptyString => true
  | String a s' => is_ascii a && ascii_text s'
  end.

Definition ascii_item (x : item) : bool :=
  match x with
  | Str s => ascii_text s
  | _ => true
  end.

End Py.

(* ================================================================== *)
(** ** The tables *)
(* ================================================================== *)

(** Modelled from the spec: the reference count of a node is never
    negative; the column [count] is unsigned in the schema of Typecho,
    which is not under [src/], and is a natural number here.  (The upper
    end of the column is not modelled.)

    A row of [typecho_metas]: a category or a tag. *)
Module Meta.
Record t : Type := mk {
  mid : Z;
  name : string;
  slug : string;
  type : string;
  description : string;
  count : N;
  order : Z;
  parent : Z
}.

Definition set_parent (p : Z) (m : t) : t :=
  mk (mid m) (name m) (slug m) (type m) (description m) (count m) (order m) p.

Definition set_count (n : N) (m : t) : t :=
  mk (mid m) (name m) (slug m) (type m) (description m) n (order m) (parent m).

Definition set_mid (i : Z) (m : t) : t :=
  mk i (name m) (slug m) (type m) (description m) (count m) (order m) (parent m).
End Meta.

(** A row of [typecho_relationships]: content [cid] carries node [mid]. *)
Module Rel.
Record t : Type := mk { cid : Z; mid : Z }.
End Rel.

(** A row of [typecho_contents], with the columns some statement of the
    handlers reads; the remaining columns are written once and never
    looked at. *)
Module Content.
Record t : Type := mk {
  cid : Z;
  title : string;
  slug : string;
  text : string;
  type : string;
  status : string;
  parent : Z
}.

Definition set_cid (i : Z) (c : t) : t :=
  mk i (title c) (slug c) (text c) (type c) (status c) (parent c).
End Content.

(** The store.  [typecho_comments] and [typecho_fields] keep the [cid]
    column of their rows; [typecho_fields] may be missing from the schema.
    The two counters are the AUTO_INCREMENT values of [typecho_metas] and
    [typecho_contents]. *)
Record database : Type := mk_database {
  typecho_metas : list Meta.t;
  typecho_relationships : list Rel.t;
  typecho_contents : list Content.t;
  typecho_comments : list Z;
  typecho_fields : option (list Z);
  next_mid : Z;
  next_cid : Z
}.

Definition with_metas (f : list Meta.t -> list Meta.t) (d : database) : database :=
  mk_database (f (typecho_metas d)) (typecho_relationships d) (typecho_contents d)
    (typecho_comments d) (typecho_fields d) (next_mid d) (next_cid d).

Definition with_relationships (f : list Rel.t -> list Rel.t) (d : database) : database :=
  mk_database (typecho_metas d) (f (typecho_relationships d)) (typecho_contents d)
    (typecho_comments d) (typecho_fields d) (next_mid d) (next_cid d).

Definition with_contents (f : list Content.t -> list Content.t) (d : database) : database :=
  mk_database (typecho_metas d) (typecho_relationships d) (f (typecho_contents d))
    (typecho_comments d) (typecho_fields d) (next_mid d) (next_cid d).

Definition with_comments (f : list Z -> list Z) (d : database) : database :=
  mk_database (typecho_metas d) (typecho_relationships d) (typecho_contents d)
    (f (typecho_comments d)) (typecho_fields d) (next_mid d) (next_cid d).

Definition with_fields (f : list Z -> list Z) (d : database) : database :=
  mk_database (typecho_metas d) (typecho_relationships d) (typecho_contents d)
    (typecho_comments d) (option_map f (typecho_fields d)) (next_mid d) (next_cid d).

(** [x is not None] *)
Definition is_not_None {A : Type} (o : option A) : bool :=
  match o with Some _ => true | None => false end.


(* ================================================================== *)
(** ** Statements *)
(* ================================================================== *)

(** What each SQL text of the handlers does to the tables.  The comment
    above a definition quotes the statement. *)
Module Sql.

Definition eqs (a b : string) : bool := String.eqb a b.

(** [WHERE type = ty AND mid = x] *)
Definition is_node (ty : string) (x : Z) (m : Meta.t) : bool :=
  eqs (Meta.type m) ty && (Meta.mid m =? x).

(** SELECT ... FROM typecho_metas WHERE type = ty AND mid = x LIMIT 1 *)
Definition select_meta (ty : string) (x : Z) (d : database) : option Meta.t :=
  find (is_node ty x) (typecho_metas d).

(** SELECT mid FROM typecho_metas WHERE type = ty AND name = n LIMIT 1 *)
Definition select_meta_by_name (ty n : string) (d : database) : option Meta.t :=
  find (fun m => eqs (Meta.type m) ty && eqs (Meta.name m) n) (typecho_metas d).

(** SELECT mid FROM typecho_metas WHERE type = ty AND slug = s LIMIT 1 *)
Definition select_meta_by_slug (ty s : string) (d : database) : option Meta.t :=
  find (fun m => eqs (Meta.type m) ty && eqs (Meta.slug m) s) (typecho_metas d).

(** MAX over a column: NULL on no row. *)
Fixpoint maximum (l : list Z) : option Z :=
  match l with
  | [] => None
  | x :: l' =>
      match maximum l' with
      | None => Some x
      | Some y => Some (Z.max x y)
      end
  end.

(** The rows [WHERE type = ty AND parent = p]. *)
Definition bucket (ty : string) (p : Z) (d : database) : list Meta.t :=
  filter (fun m => eqs (Meta.type m) ty && (Meta.parent m =? p)) (typecho_metas d).

(** SELECT MAX(`order`) AS max_order FROM typecho_metas
    WHERE type = ty AND parent = p *)
Definition select_max_order (ty : string) (p : Z) (d : database) : option Z :=
  maximum (map Meta.order (bucket ty p d)).

(** INSERT INTO typecho_metas (...) VALUES (...): the row takes the next
    id of the table, which is the cursor's [lastrowid]. *)
Definition insert_meta (row : Meta.t) (d : database) : Z * database :=
  let new_mid := next_mid d in
  (new_mid,
   mk_database (typecho_metas d ++ [Meta.set_mid new_mid row])
     (typecho_relationships d) (typecho_contents d) (typecho_comments d)
     (typecho_fields d) (new_mid + 1) (next_cid d)).

(** One [column = %s] of an UPDATE with its parameter. *)
Inductive assignment : Type :=
| SetName (v : string)
| SetSlug (v : string)
| SetDescription (v : string)
| SetParent (v : Z)
| SetOrder (v : Z).

Definition assign (m : Meta.t) (a : assignment) : Meta.t :=
  match a with
  | SetName v =>
      Meta.mk (Meta.mid m) v (Meta.slug m) (Meta.type m) (Meta.description m)
        (Meta.count m) (Meta.order m) (Meta.parent m)
  | SetSlug v =>
      Meta.mk (Meta.mid m) (Meta.name m) v (Meta.type m) (Meta.description m)
        (Meta.count m) (Meta.order m) (Meta.parent m)
  | SetDescription v =>
      Meta.mk (Meta.mid m) (Meta.name m) (Meta.slug m) (Meta.type m) v
        (Meta.count m) (Meta.order m) (Meta.parent m)
  | SetParent v =>
      Meta.mk (Meta.mid m) (Meta.name m) (Meta.slug m) (Meta.type m)
        (Meta.description m) (Meta.count m) (Meta.order m) v
  | SetOrder v =>
      Meta.mk (Meta.mid m) (Meta.name m) (Meta.slug m) (Meta.type m)
        (Meta.description m) (Meta.count m) v (Meta.parent m)
  end.

(** UPDATE typecho_metas SET <update_fields> WHERE mid = x AND type = ty *)
Definition update_meta (ty : string) (x : Z) (update_fields : list assignment)
    (d : database) : database :=
  with_metas
    (map (fun m => if is_node ty x m then fold_left assign update_fields m else m)) d.

(** DELETE FROM typecho_metas WHERE mid = x AND type = ty *)
Definition delete_meta (ty : string) (x : Z) (d : database) : database :=
  with_metas (filter (fun m => negb (is_node ty x m))) d.

(** DELETE FROM typecho_relationships WHERE mid = x *)
Definition delete_relationships_of_meta (x : Z) (d : database) : database :=
  with_relationships (filter (fun r => negb (Rel.mid r =? x))) d.

(** UPDATE typecho_metas SET parent = p WHERE parent = x AND type = ty *)
Definition update_children (ty : string) (p x : Z) (d : database) : database :=
  with_metas
    (map (fun m =>
            if (Meta.parent m =? x) && eqs (Meta.type m) ty
            then Meta.set_parent p m else m)) d.

(** The joined rows counted for node [x]:
    FROM typecho_relationships r JOIN typecho_contents c ON r.cid = c.cid
    WHERE r.mid = x AND c.type = 'post' AND c.status = 'publish' *)
Definition published_links (x : Z) (d : database) : list Content.t :=
  flat_map
    (fun r =>
       filter (fun c => (Rel.cid r =? Content.cid c)
                        && eqs (Content.type c) "post"
                        && eqs (Content.status c) "publish")
         (typecho_contents d))
    (filter (fun r => Rel.mid r =? x) (typecho_relationships d)).

(** UPDATE typecho_metas m SET `count` = (SELECT COUNT( * ) ...)
    WHERE m.type = 'tag' *)
Definition refresh_count (d : database) : database :=
  with_metas
    (map (fun m =>
            if eqs (Meta.type m) "tag"
            then Meta.set_count (N.of_nat (List.length (published_links (Meta.mid m) d))) m
            else m)) d.

Definition is_orphaned (m : Meta.t) : bool :=
  eqs (Meta.type m) "tag" && (Meta.count m =? 0)%N.

(** DELETE FROM typecho_metas WHERE type = 'tag' AND `count` = 0, with the
    cursor's [rowcount]. *)
Definition delete_orphaned (d : database) : Z * database :=
  (Z.of_nat (List.length (filter is_orphaned (typecho_metas d))),
   with_metas (filter (fun m => negb (is_orphaned m))) d).

(** INSERT INTO typecho_contents (...) VALUES (...) *)
Definition insert_content (row : Content.t) (d : database) : Z * database :=
  let new_cid := next_cid d in
  (new_cid,
   mk_database (typecho_metas d) (typecho_relationships d)
     (typecho_contents d ++ [Content.set_cid new_cid row]) (typecho_comments d)
     (typecho_fields d) (next_mid d) (new_cid + 1)).

(** The pair (c, x) is a row of [typecho_relationships]. *)
Definition has_relationship (c x : Z) (d : database) : bool :=
  existsb (fun r => (Rel.cid r =? c) && (Rel.mid r =? x)) (typecho_relationships d).

(** The tables with the row (c, x) behind the links that are there. *)
Definition relationship_added (c x : Z) (d : database) : database :=
  with_relationships (fun l => (l ++ [Rel.mk c x])%list) d.

(** Modelled from the spec: a ContentLink is the pair (contentId,
    nodeId) and has no identity of its own, so that the table holds a
    pair once; in the schema of Typecho, which is not under [src/], the
    pair is the primary key of the table.

    INSERT INTO typecho_relationships (cid, mid) VALUES (c, x): the
    server refuses a pair that is there (error 1062, duplicate entry);
    [None] stands for the refusal. *)
Definition insert_relationship (c x : Z) (d : database) : option database :=
  if has_relationship c x d then None else Some (relationship_added c x d).

(** Some row that the UPDATE below matches would get a count below 0. *)
Definition count_below_zero (ty : string) (x k : Z) (d : database) : bool :=
  existsb (fun m => is_node ty x m && (Z.of_N (Meta.count m) + k <? 0))
    (typecho_metas d).

(** The tables with [count + k] in the rows the UPDATE below matches. *)
Definition count_added (ty : string) (x k : Z) (d : database) : database :=
  with_metas
    (map (fun m => if is_node ty x m
                   then Meta.set_count (Z.to_N (Z.of_N (Meta.count m) + k)) m
                   else m)) d.

(** Modelled from the spec: the reference count is never negative; the
    column is unsigned (see [Meta.t]).

    UPDATE typecho_metas SET count = count + k WHERE mid = x AND type = ty:
    the server refuses the statement when the new value of a row is out
    of the range of the column (error 1690), and then changes no row;
    [None] stands for the refusal. *)
Definition add_count (ty : string) (x k : Z) (d : database) : option database :=
  if count_below_zero ty x k d then None else Some (count_added ty x k d).

(** SELECT cid, status, type FROM typecho_contents
    WHERE cid = c AND (type = 'post' OR type = 'post_draft') *)
Definition select_post (c : Z) (d : database) : option Content.t :=
  find (fun row => (Content.cid row =? c)
                   && (eqs (Content.type row) "post" || eqs (Content.type row) "post_draft"))
    (typecho_contents d).

(** DELETE FROM typecho_contents WHERE cid = c *)
Definition delete_content (c : Z) (d : database) : database :=
  with_contents (filter (fun row => negb (Content.cid row =? c))) d.

(** SELECT mid FROM typecho_relationships WHERE cid = c *)
Definition select_relationships (c : Z) (d : database) : list Z :=
  map Rel.mid (filter (fun r => Rel.cid r =? c) (typecho_relationships d)).

(** DELETE FROM typecho_relationships WHERE cid = c AND mid = x *)
Definition delete_relationship (c x : Z) (d : database) : database :=
  with_relationships (filter (fun r => negb ((Rel.cid r =? c) && (Rel.mid r =? x)))) d.

(** DELETE FROM typecho_relationships WHERE cid = c *)
Definition delete_relationships_of_content (c : Z) (d : database) : database :=
  with_relationships (filter (fun r => negb (Rel.cid r =? c))) d.

(** DELETE FROM typecho_comments WHERE cid = c *)
Definition delete_comments (c : Z) (d : database) : database :=
  with_comments (filter (fun i => negb (i =? c))) d.

(** UPDATE typecho_contents SET parent = 0, status = 'publish'
    WHERE parent = c AND type = 'attachment' *)
Definition unattach (c : Z) (d : database) : database :=
  with_contents
    (map (fun row =>
            if (Content.parent row =? c) && eqs (Content.type row) "attachment"
            then Content.mk (Content.cid row) (Content.title row) (Content.slug row)
                   (Content.text row) (Content.type row) "publish" 0
            else row)) d.

(** DELETE FROM typecho_fields WHERE cid = c *)
Definition delete_fields (c : Z) (d : database) : database :=
  with_fields (filter (fun i => negb (i =? c))) d.

(** SELECT cid AS draft_cid FROM typecho_contents
    WHERE parent = c AND type = 'post_draft' *)
Definition select_draft (c : Z) (d : database) : option Content.t :=
  find (fun row => (Content.parent row =? c) && eqs (Content.type row) "post_draft")
    (typecho_contents d).

End Sql.

(* ================================================================== *)
(** ** Connections, responses and the control flow of a handler *)
(* ================================================================== *)

(** A pymysql connection (autocommit off): the tables as the open
    transaction sees them, the tables as last committed, and whether the
    link to the server works.  On a dead link every statement raises. *)
Record connection : Type := mk_connection {
  pending : database;
  saved : database;
  alive : bool
}.

(** A fresh connection to a server holding [d]. *)
Definition connect (link : bool) (d : database) : connection :=
  mk_connection d d link.

(** A message of the [errors] list of a handler. *)
Inductive complaint : Set :=
| NameRequired     (* the name must not be empty *)
| NameTaken        (* the name already exists *)
| SlugFormat       (* the slug has characters other than letters, digits, _ and - *)
| SlugTaken        (* the slug already exists *)
| ParentInvalid    (* the parent id is negative *)
| ParentMissing.   (* the parent category does not exist *)

(** The node as the creation answer lists it. *)
Record category_view : Type := mk_category_view {
  v_mid : Z;
  v_name : string;
  v_slug : string;
  v_description : string;
  v_parent : Z;
  v_order : Z
}.

Record tag_view : Type := mk_tag_view {
  t_mid : Z;
  t_name : string;
  t_slug : string
}.

(** The JSON body of an answer. *)
Inductive body : Type :=
| InvalidJson                        (* error: Invalid JSON data *)
| MissingMids                        (* error: Missing mids in request body for batch delete *)
| Invalid (errors : list complaint)  (* error: the messages joined by "; " *)
| NotFound                           (* error: the node, or post, does not exist *)
| NoValidTags                        (* error: No valid tags found to delete *)
| MissingText                        (* error: Title and text are required *)
| Failed                             (* error: Failed to ... *)
| NothingToUpdate                    (* message: no field to update *)
| Updated
| CategoryDeleted
| TagsDeleted (delete_count : Z)
| CategoryCreated (category : category_view)
| TagCreated (tag : tag_view)
| PostCreated (post_id : Z)
| PostDeleted
| Refreshed (deleted_orphaned_count : Z).

Record response : Type := mk_response { payload : body; status : Z }.

(** Where the control of a handler stands after a step: it goes on with
    a value, an exception is travelling, or a [return] was executed. *)
Inductive outcome (A : Type) : Type :=
| Next (a : A) (c : connection)
| Raised (e : Py.exn) (c : connection)
| Returned (r : response) (c : connection).
Arguments Next {A} a c.
Arguments Raised {A} e c.
Arguments Returned {A} r c.

Definition M (A : Type) : Type := connection -> outcome A.

Definition ret {A : Type} (a : A) : M A := fun c => Next a c.

Definition bind {A B : Type} (m : M A) (k : A -> M B) : M B :=
  fun c =>
    match m c with
    | Next a c' => k a c'
    | Raised e c' => Raised e c'
    | Returned r c' => Returned r c'
    end.

Notation "x <- m ;; k" := (bind m (fun x => k))
  (at level 61, m at next level, right associativity).
Notation "m ;;; k" := (bind m (fun _ => k))
  (at level 61, right associativity).

(** [return jsonify(...), code] *)
Definition return_ {A : Type} (b : body) (code : Z) : M A :=
  fun c => Returned (mk_response b code) c.

(** [cursor.execute(select); cursor.fetchone()] (or [fetchall]) *)
Definition fetch {A : Type} (q : database -> A) : M A :=
  fun c => if alive c then Next (q (pending c)) c else Raised Py.OperationalError c.

(** [cursor.execute(statement)] for a statement that writes *)
Definition execute (u : database -> database) : M unit :=
  fun c =>
    if alive c
    then Next tt (mk_connection (u (pending c)) (saved c) (alive c))
    else Raised Py.OperationalError c.

(** [cursor.execute(statement)] for a statement that the server may
    refuse on the data it meets: pymysql raises [e], and the transaction
    stays as it was before the statement. *)
Definition execute_checked (e : Py.exn) (u : database -> option database) : M unit :=
  fun c =>
    if alive c
    then match u (pending c) with
         | Some d => Next tt (mk_connection d (saved c) (alive c))
         | None => Raised e c
         end
    else Raised Py.OperationalError c.

(** [cursor.execute(insert); cursor.lastrowid] *)
Definition insert (u : database -> Z * database) : M Z :=
  fun c =>
    if alive c
    then let (i, d) := u (pending c) in Next i (mk_connection d (saved c) (alive c))
    else Raised Py.OperationalError c.

(** [cursor.execute(delete); cursor.rowcount] *)
Definition execute_rowcount (u : database -> Z * database) : M Z :=
  fun c =>
    if alive c
    then let (n, d) := u (pending c) in Next n (mk_connection d (saved c) (alive c))
    else Raised Py.OperationalError c.

(** [cursor.execute(statement)] on [typecho_fields], a table the schema
    may lack. *)
Definition execute_on_fields (u : database -> database) : M unit :=
  fun c =>
    if alive c
    then match typecho_fields (pending c) with
         | Some _ => Next tt (mk_connection (u (pending c)) (saved c) (alive c))
         | None => Raised Py.ProgrammingError c
         end
    else Raised Py.OperationalError c.

(** [raise] *)
Definition raise {A : Type} (e : Py.exn) : M A := fun c => Raised e c.

(** [for x in l: f(x)] *)
Fixpoint for_each {A : Type} (l : list A) (f : A -> M unit) : M unit :=
  match l with
  | [] => ret tt
  | x :: l' => f x ;;; for_each l' f
  end.

(** [cursor.execute(text)] for a text that is not a statement of the
    server's grammar. *)
Definition refused {A : Type} : M A :=
  fun c => Raised (if alive c then Py.ProgrammingError else Py.OperationalError) c.

(** [connection.commit()] *)
Definition commit : M unit :=
  fun c =>
    if alive c
    then Next tt (mk_connection (pending c) (pending c) (alive c))
    else Raised Py.OperationalError c.

(** [connection.rollback()] *)
Definition rollback (c : connection) : connection :=
  mk_connection (saved c) (saved c) (alive c).

(** A call of a helper that takes the connection and reads through it. *)
Definition call {A : Type} (f : connection -> Py.result A) : M A :=
  fun c =>
    match f c with
    | Py.Ret a => Next a c
    | Py.Raise e => Raised e c
    end.

(** [try: m  except Exception: connection.rollback(); return Failed, 500] *)
Definition try_ (m : M response) : M response :=
  fun c =>
    match m c with
    | Raised _ c' => Returned (mk_response Failed 500) (rollback c')
    | o => o
    end.

(** [try: m  except pymysql.Error: logger.warning(...)] *)
Definition try_pymysql (m : M unit) : M unit :=
  fun c =>
    match m c with
    | Raised e c' => if Py.is_pymysql_error e then Next tt c' else Raised e c'
    | o => o
    end.

(** The end of a request: the answer that goes out, and the tables the
    server holds once the connection is closed (what was committed).  An
    exception no handler caught is answered 500 by the framework. *)
Definition respond (o : outcome response) : response * database :=
  match o with
  | Next r c => (r, saved c)
  | Returned r c => (r, saved c)
  | Raised _ c => (mk_response Failed 500, saved c)
  end.

(** [data.get(key, default)] on a field that may be absent. *)
Definition get {A : Type} (field : option A) (default : A) : A :=
  match field with
  | Some v => v
  | None => default
  end.

(** The body of a category or tag request. *)
Module Body.
Record t : Type := mk {
  name : option string;
  slug : option string;
  description : option string;
  parent : option Z
}.

(** [not data]: the object has no key. *)
Definition is_empty (data : t) : bool :=
  negb (is_not_None (name data) || is_not_None (slug data)
        || is_not_None (description data) || is_not_None (parent data)).
End Body.

(** [re.match(r'^[a-zA-Z0-9_-]+$', slug)]: one or more characters of the
    class, up to the end or to a last line feed. *)
Definition is_slug_char (a : ascii) : bool :=
  Py.is_lower a || Py.is_upper a || Py.is_digit a || Py.is_underscore a || Py.is_hyphen a.

Fixpoint slug_rest (s : string) : bool :=
  match s with
  | EmptyString => true
  | String a s' =>
      if is_slug_char a then slug_rest s'
      else Py.is_newline a && Py.is_empty s'
  end.

Definition slug_format (s : string) : bool :=
  match s with
  | EmptyString => false
  | String a s' => is_slug_char a && slug_rest s'
  end.

(** [slugify], the same text in [category_edit.py] and [tags_edit.py]. *)
Definition slugify (name : string) : string :=
  let slug :=
    Py.keep (fun a => Py.is_word a || Py.is_space a || Py.is_hyphen a)
      (Py.lower (Py.strip name)) in
  Py.squeeze (fun a => Py.is_hyphen a || Py.is_space a) false slug.


(* ================================================================== *)
(** ** function/category_edit.py *)
(* ================================================================== *)

Module category_edit.

(** The helpers run their statement inside [try] and answer a default
    from [except Exception], after logging. *)
Definition category_exists (mid : Z) (connection : connection) : Py.result bool :=
  match fetch (Sql.select_meta "category" mid) connection with
  | Next row _ => Py.Ret (is_not_None row)
  | _ => Py.Ret false
  end.

(** With a truthy [ignore_mid] the text sent is
    [... AND name = %s LIMIT 1 AND mid != %s]: the condition comes after
    LIMIT, which is no statement of the server's grammar. *)
Definition name_exists (name : string) (connection : connection)
    (ignore_mid : option Z) : Py.result bool :=
  let statement : M (option Meta.t) :=
    if Py.truthy (get ignore_mid 0)
    then refused
    else fetch (Sql.select_meta_by_name "category" name) in
  match statement connection with
  | Next row _ => Py.Ret (is_not_None row)
  | _ => Py.Ret false
  end.

Definition slug_exists (slug : string) (connection : connection)
    (ignore_mid : option Z) : Py.result bool :=
  let statement : M (option Meta.t) :=
    if Py.truthy (get ignore_mid 0)
    then refused
    else fetch (Sql.select_meta_by_slug "category" slug) in
  match statement connection with
  | Next row _ => Py.Ret (is_not_None row)
  | _ => Py.Ret false
  end.

(** [result['max_order'] if result and result['max_order'] else 0] *)
Definition get_max_order (parent_mid : Z) (connection : connection) : Py.result Z :=
  match fetch (Sql.select_max_order "category" parent_mid) connection with
  | Next (Some max_order) _ => Py.Ret (if Py.truthy max_order then max_order else 0)
  | Next None _ => Py.Ret 0
  | _ => Py.Ret 0
  end.

Definition create_category (data : Body.t) (connection : connection)
    : response * database :=
  respond (try_ (
    if Body.is_empty data then return_ InvalidJson 400 else
    let name := Py.strip (get (Body.name data) "") in
    let slug := Py.strip (get (Body.slug data) "") in
    let description := get (Body.description data) "" in
    let parent := get (Body.parent data) 0 in
    errors_name <-
      (if Py.is_empty name then ret [NameRequired]
       else (taken <- call (fun c => name_exists name c None) ;;
             ret (if taken then [NameTaken] else []))) ;;
    let slug := if Py.is_empty slug then slugify name else slug in
    errors_slug <-
      (if negb (slug_format slug) then ret [SlugFormat]
       else (taken <- call (fun c => slug_exists slug c None) ;;
             ret (if taken then [SlugTaken] else []))) ;;
    errors_parent <-
      (if Py.truthy parent
       then (if parent <? 0 then ret [ParentInvalid]
             else if parent >? 0
                  then (found <- call (category_exists parent) ;;
                        ret (if negb found then [ParentMissing] else []))
                  else ret [])
       else ret []) ;;
    let errors := (errors_name ++ errors_slug ++ errors_parent)%list in
    match errors with
    | _ :: _ => return_ (Invalid errors) 400
    | [] =>
        max_order <- call (get_max_order parent) ;;
        let new_order := max_order + 1 in
        new_mid <- insert (Sql.insert_meta
                     (Meta.mk 0 name slug "category" description 0 new_order parent)) ;;
        if negb (Py.truthy new_mid)
        then (fun c => Returned (mk_response Failed 500) (rollback c))
        else (commit ;;;
              ret (mk_response
                     (CategoryCreated
                        (mk_category_view new_mid name slug description parent new_order))
                     201))
    end) connection).

Definition update_category (mid : Z) (data : Body.t) (connection : connection)
    : response * database :=
  respond ((
    found <- call (category_exists mid) ;;
    if negb found then return_ NotFound 404 else
    try_ (
      if Body.is_empty data then return_ InvalidJson 400 else
      let name := Py.strip (get (Body.name data) "") in
      let slug := Py.strip (get (Body.slug data) "") in
      let description := get (Body.description data) "" in
      let parent := Body.parent data in
      errors_name <-
        (if Py.is_empty name then ret [NameRequired]
         else (taken <- call (fun c => name_exists name c (Some mid)) ;;
               ret (if taken then [NameTaken] else []))) ;;
      errors_slug <-
        (if negb (Py.is_empty slug)
         then (if negb (slug_format slug) then ret [SlugFormat]
               else (taken <- call (fun c => slug_exists slug c (Some mid)) ;;
                     ret (if taken then [SlugTaken] else [])))
         else ret []) ;;
      errors_parent <-
        match parent with
        | Some parent =>
            if parent <? 0 then ret [ParentInvalid]
            else if parent >? 0
                 then (found <- call (category_exists parent) ;;
                       ret (if negb found then [ParentMissing] else []))
                 else ret []
        | None => ret []
        end ;;
      let errors := (errors_name ++ errors_slug ++ errors_parent)%list in
      match errors with
      | _ :: _ => return_ (Invalid errors) 400
      | [] =>
          current_category <- fetch (Sql.select_meta "category" mid) ;;
          match current_category with
          | None => return_ NotFound 404
          | Some current_category =>
              let current_parent := Meta.parent current_category in
              let fields_name :=
                if negb (Py.is_empty name) then [Sql.SetName name] else [] in
              let fields_slug :=
                if negb (Py.is_empty slug) then [Sql.SetSlug slug] else [] in
              (* description is not None: it is a string, the default included *)
              let fields_description := [Sql.SetDescription description] in
              fields_parent <-
                match parent with
                | Some parent =>
                    if negb (parent =? current_parent)
                    then (max_order <- call (get_max_order parent) ;;
                          ret [Sql.SetParent parent; Sql.SetOrder (max_order + 1)])
                    else ret [Sql.SetParent parent]
                | None => ret []
                end ;;
              let update_fields :=
                (fields_name ++ fields_slug ++ fields_description ++ fields_parent)%list in
              match update_fields with
              | [] => return_ NothingToUpdate 200
              | _ :: _ =>
                  execute (Sql.update_meta "category" mid update_fields) ;;;
                  commit ;;;
                  ret (mk_response Updated 200)
              end
          end
      end)) connection).

Definition delete_category (mid : Z) (connection : connection)
    : response * database :=
  respond ((
    found <- call (category_exists mid) ;;
    if negb found then return_ NotFound 404 else
    try_ (
      deleted_category <- fetch (Sql.select_meta "category" mid) ;;
      match deleted_category with
      | None => return_ NotFound 404
      | Some deleted_category =>
          let deleted_parent := Meta.parent deleted_category in
          execute (Sql.delete_meta "category" mid) ;;;
          execute (Sql.delete_relationships_of_meta mid) ;;;
          execute (Sql.update_children "category" deleted_parent mid) ;;;
          commit ;;;
          ret (mk_response CategoryDeleted 200)
      end)) connection).

End category_edit.


(* ================================================================== *)
(** ** function/tags_edit.py *)
(* ================================================================== *)

Module tags_edit.

Definition tag_exists (mid : Z) (connection : connection) : Py.result bool :=
  match fetch (Sql.select_meta "tag" mid) connection with
  | Next row _ => Py.Ret (is_not_None row)
  | _ => Py.Ret false
  end.

(** As in [category_edit]: with a truthy [ignore_mid] the condition on
    [mid] is appended after LIMIT and the server refuses the text. *)
Definition name_exists (name : string) (connection : connection)
    (ignore_mid : option Z) : Py.result bool :=
  let statement : M (option Meta.t) :=
    if Py.truthy (get ignore_mid 0)
    then refused
    else fetch (Sql.select_meta_by_name "tag" name) in
  match statement connection with
  | Next row _ => Py.Ret (is_not_None row)
  | _ => Py.Ret false
  end.

Definition slug_exists (slug : string) (connection : connection)
    (ignore_mid : option Z) : Py.result bool :=
  let statement : M (option Meta.t) :=
    if Py.truthy (get ignore_mid 0)
    then refused
    else fetch (Sql.select_meta_by_slug "tag" slug) in
  match statement connection with
  | Next row _ => Py.Ret (is_not_None row)
  | _ => Py.Ret false
  end.

Definition create_tag (data : Body.t) (connection : connection)
    : response * database :=
  respond (try_ (
    if Body.is_empty data then return_ InvalidJson 400 else
    let name := Py.strip (get (Body.name data) "") in
    let slug := Py.strip (get (Body.slug data) "") in
    errors_name <-
      (if Py.is_empty name then ret [NameRequired]
       else (taken <- call (fun c => name_exists name c None) ;;
             ret (if taken then [NameTaken] else []))) ;;
    let slug := if Py.is_empty slug then slugify name else slug in
    errors_slug <-
      (if negb (slug_format slug) then ret [SlugFormat]
       else (taken <- call (fun c => slug_exists slug c None) ;;
             ret (if taken then [SlugTaken] else []))) ;;
    let errors := (errors_name ++ errors_slug)%list in
    match errors with
    | _ :: _ => return_ (Invalid errors) 400
    | [] =>
        (* values = (name, slug, 'tag', '', 0, 0, 0) for the columns
           name, slug, type, description, count, order, parent *)
        new_mid <- insert (Sql.insert_meta (Meta.mk 0 name slug "tag" "" 0 0 0)) ;;
        if negb (Py.truthy new_mid)
        then (fun c => Returned (mk_response Failed 500) (rollback c))
        else (commit ;;;
              ret (mk_response (TagCreated (mk_tag_view new_mid name slug)) 201))
    end) connection).

Definition update_tag (mid : Z) (data : Body.t) (connection : connection)
    : response * database :=
  respond ((
    found <- call (tag_exists mid) ;;
    if negb found then return_ NotFound 404 else
    try_ (
      if Body.is_empty data then return_ InvalidJson 400 else
      let name := Py.strip (get (Body.name data) "") in
      let slug := Py.strip (get (Body.slug data) "") in
      errors_name <-
        (if Py.is_empty name then ret [NameRequired]
         else (taken <- call (fun c => name_exists name c (Some mid)) ;;
               ret (if taken then [NameTaken] else []))) ;;
      errors_slug <-
        (if negb (Py.is_empty slug)
         then (if negb (slug_format slug) then ret [SlugFormat]
               else (taken <- call (fun c => slug_exists slug c (Some mid)) ;;
                     ret (if taken then [SlugTaken] else [])))
         else ret []) ;;
      let errors := (errors_name ++ errors_slug)%list in
      match errors with
      | _ :: _ => return_ (Invalid errors) 400
      | [] =>
          let fields_name :=
            if negb (Py.is_empty name) then [Sql.SetName name] else [] in
          let fields_slug :=
            if negb (Py.is_empty slug) then [Sql.SetSlug slug] else [] in
          let update_fields := (fields_name ++ fields_slug)%list in
          match update_fields with
          | [] => return_ NothingToUpdate 200
          | _ :: _ =>
              execute (Sql.update_meta "tag" mid update_fields) ;;;
              commit ;;;
              ret (mk_response Updated 200)
          end
      end)) connection).

(** The loop that filters the batch: [int(mid_item)], then [tag_exists];
    [ValueError] and [TypeError] are passed over. *)
Fixpoint valid_mids (mids_input : list Py.item) (mids_to_delete : list Z)
    : M (list Z) :=
  match mids_input with
  | [] => ret mids_to_delete
  | mid_item :: rest =>
      match Py.int mid_item with
      | Py.Ret mid_int =>
          found <- call (tag_exists mid_int) ;;
          valid_mids rest
            (if found then (mids_to_delete ++ [mid_int])%list else mids_to_delete)
      | Py.Raise Py.ValueError => valid_mids rest mids_to_delete
      | Py.Raise Py.TypeError => valid_mids rest mids_to_delete
      | Py.Raise e => raise e
      end
  end.

(** The loop that deletes: the tag, then the links that name it. *)
Fixpoint delete_each (mids_to_delete : list Z) (delete_count : Z) : M Z :=
  match mids_to_delete with
  | [] => ret delete_count
  | tag_mid :: rest =>
      execute (Sql.delete_meta "tag" tag_mid) ;;;
      execute (Sql.delete_relationships_of_meta tag_mid) ;;;
      delete_each rest (delete_count + 1)
  end.

(** [mid] is the id of the route, if the route has one; [mids] is the
    list under the key of that name in the body, if there is one. *)
Definition delete_tag (mid : option Z) (mids : option (list Py.item))
    (connection : connection) : response * database :=
  respond (try_ (
    mids_to_delete <-
      (if Py.truthy (get mid 0)
       then (found <- call (tag_exists (get mid 0)) ;;
             if negb found then return_ NotFound 404 else ret [get mid 0])
       else match mids with
            | None => return_ MissingMids 400
            | Some mids_input =>
                mids_to_delete <- valid_mids mids_input [] ;;
                match mids_to_delete with
                | [] => return_ NoValidTags 404
                | _ :: _ => ret mids_to_delete
                end
            end) ;;
    delete_count <- delete_each mids_to_delete 0 ;;
    commit ;;;
    ret (mk_response (TagsDeleted delete_count) 200)) connection).

Definition refresh_tags (connection : connection) : response * database :=
  respond (try_ (
    execute Sql.refresh_count ;;;
    deleted_orphaned_count <- execute_rowcount Sql.delete_orphaned ;;
    commit ;;;
    ret (mk_response (Refreshed deleted_orphaned_count) 200)) connection).

End tags_edit.

(* ================================================================== *)
(** ** function/post_edit.py *)
(* ================================================================== *)

Module post_edit.

(** The value under the key [tags]: a list, whose entries the handler
    converts itself, or a value that is no list. *)
Inductive tags_value : Type :=
| NoList
| TagList (entries : list Py.item).

(** The body of a post request.  [title], [text], [slug] and [status]
    are strings and [category] is a list of integers, when they are
    there. *)
Record post_data : Type := mk_post_data {
  title : option string;
  text : option string;
  slug : option string;
  category : option (list Z);
  tags : option tags_value;
  status : option string
}.

(** [tags_input] when [tags_input and isinstance(tags_input, list)];
    any other value is passed over with a warning, as if it were the
    empty list. *)
Definition tag_entries (data : post_data) : list Py.item :=
  match tags data with
  | Some (TagList entries) => entries
  | _ => []
  end.

(** [[int(x) for x in l]]: the first [int()] that raises ends it. *)
Fixpoint int_each (l : list Py.item) : Py.result (list Z) :=
  match l with
  | [] => Py.Ret []
  | x :: l' =>
      match Py.int x with
      | Py.Ret z =>
          match int_each l' with
          | Py.Ret zs => Py.Ret (z :: zs)
          | Py.Raise e => Py.Raise e
          end
      | Py.Raise e => Py.Raise e
      end
  end.

Definition is_empty (data : post_data) : bool :=
  negb (is_not_None (title data) || is_not_None (text data)
        || is_not_None (slug data) || is_not_None (category data)
        || is_not_None (tags data) || is_not_None (status data)).

(** The default title of the source ("untitled document"), as the bytes
    of its UTF-8 form. *)
Definition default_title : string := "未命名文档".

Definition is_published_post (post_status post_type : string) : bool :=
  Sql.eqs post_status "publish" && Sql.eqs post_type "post".

Definition create_post (data : post_data) (connection : connection)
    : response * database :=
  respond (try_ (
    if is_empty data then return_ InvalidJson 400 else
    let title := get (title data) default_title in
    let text := get (text data) "" in
    let slug := get (slug data) "" in
    let category_ids := get (category data) [1] in
    let tags_input := tag_entries data in
    let status := get (status data) "publish" in
    if Py.is_empty title || Py.is_empty text then return_ MissingText 400 else
    post_id <- insert (Sql.insert_content
                 (Content.mk 0 title slug text "post" status 0)) ;;
    if negb (Py.truthy post_id)
    then (fun c => Returned (mk_response Failed 500) (rollback c))
    else
      for_each category_ids (fun cat_id =>
        row <- fetch (Sql.select_meta "category" cat_id) ;;
        if is_not_None row
        then (execute_checked Py.IntegrityError
                (Sql.insert_relationship post_id cat_id) ;;;
              execute_checked Py.OperationalError
                (Sql.add_count "category" cat_id 1))
        else ret tt) ;;;
      tag_ids <- call (fun _ => int_each (filter Py.str_isdigit tags_input)) ;;
      for_each tag_ids (fun tag_id =>
        row <- fetch (Sql.select_meta "tag" tag_id) ;;
        if is_not_None row
        then (execute_checked Py.IntegrityError
                (Sql.insert_relationship post_id tag_id) ;;;
              execute_checked Py.OperationalError
                (Sql.add_count "tag" tag_id 1))
        else ret tt) ;;;
      commit ;;;
      ret (mk_response (PostCreated post_id) 201)) connection).

Definition delete_post (post_id : Z) (connection : connection)
    : response * database :=
  respond (try_ (
    post_result <- fetch (Sql.select_post post_id) ;;
    match post_result with
    | None => return_ NotFound 404
    | Some post_result =>
        let post_status := Content.status post_result in
        let post_type := Content.type post_result in
        execute (Sql.delete_content post_id) ;;;
        related_categories <- fetch (Sql.select_relationships post_id) ;;
        for_each related_categories (fun cat_id =>
          execute (Sql.delete_relationship post_id cat_id) ;;;
          if is_published_post post_status post_type
          then execute_checked Py.OperationalError
                 (Sql.add_count "category" cat_id (-1))
          else ret tt) ;;;
        related_tags <- fetch (Sql.select_relationships post_id) ;;
        for_each related_tags (fun tag_id =>
          execute (Sql.delete_relationship post_id tag_id) ;;;
          if is_published_post post_status post_type
          then execute_checked Py.OperationalError
                 (Sql.add_count "tag" tag_id (-1))
          else ret tt) ;;;
        execute (Sql.delete_comments post_id) ;;;
        execute (Sql.unattach post_id) ;;;
        try_pymysql (execute_on_fields (Sql.delete_fields post_id)) ;;;
        draft_result <- fetch (Sql.select_draft post_id) ;;
        match draft_result with
        | Some draft_result =>
            let draft_cid := Content.cid draft_result in
            execute (Sql.delete_content draft_cid) ;;;
            execute (Sql.delete_relationships_of_content draft_cid) ;;;
            try_pymysql (execute_on_fields (Sql.delete_fields draft_cid))
        | None => ret tt
        end ;;;
        commit ;;;
        ret (mk_response PostDeleted 200)
    end) connection).

End post_edit.


(* ================================================================== *)
(** ** Sample stores and requests *)
(* ================================================================== *)

Module Sample.

Definition category (mid : Z) (name : string) (order parent : Z) : Meta.t :=
  Meta.mk mid name name "category" "" 0 order parent.

Definition tag (mid : Z) (name : string) (count : N) : Meta.t :=
  Meta.mk mid name name "tag" "" count 0 0.

Definition empty : database := mk_database [] [] [] [] (Some []) 1 1.

(** Three categories in a chain: a at the root, b under a, c under b. *)
Definition chain : database :=
  mk_database [category 1 "a" 1 0; category 2 "b" 1 1; category 3 "c" 1 2]
    [] [] [] (Some []) 4 1.

(** The request "rename to a, move under 3". *)
Definition move_a_under_c : Body.t := Body.mk (Some "a") None None (Some 3).




(** A published post 7 filed under category 1, whose count says 0. *)
Definition undercounted : database :=
  mk_database [category 1 "a" 1 0]
    [Rel.mk 7 1]
    [Content.mk 7 "hello" "hello" "text" "post" "publish" 0]
    [] (Some []) 2 8.

(** One tag nobody uses yet, and a post that carries it. *)
Definition one_tag : database :=
  mk_database [tag 5 "rocq" 0] [] [] [] (Some []) 6 1.

Definition tagged_post (status : string) : post_edit.post_data :=
  post_edit.mk_post_data (Some "hello") (Some "text") None (Some [])
    (Some (post_edit.TagList [Py.Int 5])) (Some status).

Definition filed_post (status : string) : post_edit.post_data :=
  post_edit.mk_post_data (Some "hello") (Some "text") None (Some [1]) None
    (Some status).

(** A connection whose link is down, to a store where category 1 exists. *)
Definition dead : connection := connect false chain.

(** Requests that create a node. *)
Definition new_under_a : Body.t := Body.mk (Some "News Items") None None (Some 1).

Definition new_tag : Body.t := Body.mk (Some "rocq") None None None.



End Sample.

(* ================================================================== *)
(** ** Vocabulary of the properties *)
(* ================================================================== *)

(** What one run of the sweep commits. *)
Definition swept (d : database) : database :=
  snd (Sql.delete_orphaned (Sql.refresh_count d)).

(** The recomputed count of a row. *)
Definition recount (d : database) (m : Meta.t) : Meta.t :=
  if Sql.eqs (Meta.type m) "tag"
  then Meta.set_count (N.of_nat (List.length (Sql.published_links (Meta.mid m) d))) m
  else m.

(** [result['max_order'] if result and result['max_order'] else 0], on
    the aggregate a MAX query returns. *)
Definition max_order_value (max_order : option Z) : Z :=
  match max_order with
  | Some v => if Py.truthy v then v else 0
  | None => 0
  end.

(** The integer a text spells, said apart from the model of [int()]:
    white space at both ends (blank, tab, line feed, vertical tab, form
    feed, carriage return) does not count; a sign may come first; what
    is left is cut at its underscores into groups, each of which has to
    be a digit or more; there are at most 4300 digits; the digits are
    read in base ten. *)
Definition blank (a : ascii) : bool :=
  existsb (Ascii.eqb a)
    [" "%char; ascii_of_N 9; ascii_of_N 10; ascii_of_N 11; ascii_of_N 12; ascii_of_N 13].

Fixpoint all_blank (s : string) : bool :=
  match s with
  | EmptyString => true
  | String a s' => blank a && all_blank s'
  end.

Fixpoint without_blanks_left (s : string) : string :=
  match s with
  | EmptyString => EmptyString
  | String a s' => if blank a then without_blanks_left s' else s
  end.

Fixpoint without_blanks_right (s : string) : string :=
  match s with
  | EmptyString => EmptyString
  | String a s' => if all_blank s then EmptyString else String a (without_blanks_right s')
  end.

(** The place of a character in a text, counted from [i]. *)
Fixpoint place_in (a : ascii) (s : string) (i : Z) : option Z :=
  match s with
  | EmptyString => None
  | String b s' => if Ascii.eqb a b then Some i else place_in a s' (i + 1)
  end.

(** The value of a digit. *)
Definition digit (a : ascii) : option Z := place_in a "0123456789" 0.

(** The pieces of a text between its underscores. *)
Fixpoint groups (s : string) : list string :=
  match s with
  | EmptyString => [EmptyString]
  | String a s' =>
      if Ascii.eqb a "_"%char then EmptyString :: groups s'
      else match groups s' with
           | g :: gs => String a g :: gs
           | [] => [String a EmptyString]
           end
  end.

Fixpoint digit_run (g : string) : bool :=
  match g with
  | EmptyString => true
  | String a g' => is_not_None (digit a) && digit_run g'
  end.

Definition digit_group (g : string) : bool :=
  match g with
  | EmptyString => false
  | String _ _ => digit_run g
  end.

Fixpoint count_digits (s : string) : N :=
  match s with
  | EmptyString => 0
  | String a s' => ((if is_not_None (digit a) then 1 else 0) + count_digits s')%N
  end.

(** The digits of a text in base ten, after [acc]. *)
Fixpoint number (s : string) (acc : Z) : Z :=
  match s with
  | EmptyString => acc
  | String a s' =>
      match digit a with
      | Some v => number s' (10 * acc + v)
      | None => number s' acc
      end
  end.

Definition decimal (s : string) : option Z :=
  let core := without_blanks_right (without_blanks_left s) in
  let signed :=
    match core with
    | String "-"%char body => (true, body)
    | String "+"%char body => (false, body)
    | _ => (false, core)
    end in
  let body := snd signed in
  if forallb digit_group (groups body) && (count_digits body <=? 4300)%N
  then Some (if fst signed then - number body 0 else number body 0)
  else None.

(** The groups of a text that the parser may go on with: behind a digit
    the first group may be empty. *)
Definition goes_on (after_digit : bool) (s : string) : bool :=
  match groups s with
  | g :: gs => (if after_digit then digit_run g else digit_group g) && forallb digit_group gs
  | [] => false
  end.

(** The id an entry of a batch stands for, kind by kind: an integer is
    its own id; a boolean is 1 or 0; a finite fraction is cut toward
    zero (2.9 is 2, -2.9 is -2); a string is the integer it spells, if
    it spells one; [null], a nested array or object, NaN and the
    infinities stand for no id. *)
Definition entry_id (mid_item : Py.item) : option Z :=
  match mid_item with
  | Py.Int z => Some z
  | Py.Bool true => Some 1
  | Py.Bool false => Some 0
  | Py.Float (Py.Finite n d) => Some (Z.sgn n * (Z.abs n / Z.pos d))
  | Py.Float _ => None
  | Py.Str s => decimal s
  | Py.Null => None
  | Py.Container => None
  end.

(** An entry that is the number [Infinity] or [-Infinity]. *)
Definition is_infinite (mid_item : Py.item) : bool :=
  match mid_item with
  | Py.Float (Py.Infinite _) => true
  | _ => false
  end.


(** The ids the entries of a list stand for. *)
Definition ids_of (items : list Py.item) : list Z :=
  flat_map (fun mid_item =>
              match entry_id mid_item with
              | Some mid_int => [mid_int]
              | None => []
              end) items.


Definition is_target (l : list Z) (x : Z) : bool := existsb (Z.eqb x) l.

(** The tables once the tags of [l], and the links to them, are gone. *)
Definition purged (l : list Z) (d : database) : database :=
  mk_database
    (filter (fun m => negb (Sql.eqs (Meta.type m) "tag" && is_target l (Meta.mid m)))
       (typecho_metas d))
    (filter (fun r => negb (is_target l (Rel.mid r))) (typecho_relationships d))
    (typecho_contents d) (typecho_comments d) (typecho_fields d)
    (next_mid d) (next_cid d).







(** Content [c] is a published post of the store. *)
Definition published (d : database) (c : Z) : bool :=
  existsb (fun row => (Content.cid row =? c)
                      && Sql.eqs (Content.type row) "post"
                      && Sql.eqs (Content.status row) "publish")
    (typecho_contents d).

(** The number of links from published posts to node [x]. *)
Definition visible_links (x : Z) (d : database) : N :=
  N.of_nat (List.length
              (filter (fun r => (Rel.mid r =? x) && published d (Rel.cid r))
                 (typecho_relationships d))).

Definition is_category (m : Meta.t) : bool := Sql.eqs (Meta.type m) "category".

(** The counts cover the visible links: the count of a category is at
    least the number of its links from published posts. *)
Definition counts_cover (d : database) : Prop :=
  forall m, In m (typecho_metas d) ->
            if is_category m then (visible_links (Meta.mid m) d <= Meta.count m)%N
            else True.

(** Links only name content ids the table has already given out. *)
Definition links_issued (d : database) : Prop :=
  forall r, In r (typecho_relationships d) -> Rel.cid r < next_cid d.

(** No id is the id of a category and of a tag. *)
Definition kinds_apart (d : database) : Prop :=
  forall m1 m2, In m1 (typecho_metas d) -> In m2 (typecho_metas d) ->
                Meta.type m1 = "category" -> Meta.type m2 = "tag" ->
                Meta.mid m1 <> Meta.mid m2.

Definition counted (d : database) : Prop :=
  counts_cover d /\ links_issued d /\ kinds_apart d.

(** A content request: a creation or a deletion. *)
Inductive operation : Type :=
| Create (data : post_edit.post_data)
| Delete (post_id : Z).

(** The store after one request, sent over a link that works or not. *)
Definition perform (link : bool) (op : operation) (d : database) : database :=
  match op with
  | Create data => snd (post_edit.create_post data (connect link d))
  | Delete post_id => snd (post_edit.delete_post post_id (connect link d))
  end.

(** The store after a sequence of requests. *)
Fixpoint run (ops : list (bool * operation)) (d : database) : database :=
  match ops with
  | [] => d
  | (link, op) :: rest => run rest (perform link op d)
  end.

(** A loop whose turns may be refused: [refuses x d] says that the turn
    on [x] is refused in the tables [d], and [step x d] are the tables
    after a turn that went through.  The loop is refused when one of its
    turns is. *)
Fixpoint refused_in {A : Type} (refuses : A -> database -> bool)
    (step : A -> database -> database) (l : list A) (d : database) : bool :=
  match l with
  | [] => false
  | x :: l' => refuses x d || refused_in refuses step l' (step x d)
  end.

(** One turn of a linking loop of [create_post]: it is refused when the
    node exists and the post is linked to it already; otherwise it adds
    the link and the credit (adding 1 is never out of range). *)
Definition link_refused (ty : string) (post_id x : Z) (d : database) : bool :=
  is_not_None (Sql.select_meta ty x d) && Sql.has_relationship post_id x d.

Definition link_node (ty : string) (post_id x : Z) (d : database) : database :=
  if is_not_None (Sql.select_meta ty x d)
  then Sql.count_added ty x 1 (Sql.relationship_added post_id x d)
  else d.

(** One turn of an unlinking loop of [delete_post]: it is refused when
    it decrements and a row it matches has count 0. *)
Definition unlink_refused (ty : string) (decrement : bool) (post_id x : Z)
    (d : database) : bool :=
  decrement && Sql.count_below_zero ty x (-1) (Sql.delete_relationship post_id x d).

Definition unlink_node (ty : string) (decrement : bool) (post_id x : Z) (d : database)
    : database :=
  let d' := Sql.delete_relationship post_id x d in
  if decrement then Sql.count_added ty x (-1) d' else d'.

(** The tag ids [create_post] keeps of the list it is given: the ids of
    the entries that pass [str(tag_id).strip().isdigit()]. *)
Definition tag_ids (data : post_edit.post_data) : list Z :=
  ids_of (filter Py.str_isdigit (post_edit.tag_entries data)).

Definition category_ids (data : post_edit.post_data) : list Z :=
  get (post_edit.category data) [1].

(** An entry of the tag list passes the test and [int()] raises on it:
    text of digits between separators that [strip] removes and [int]
    does not, or more digits than [int] takes. *)
Definition tags_unreadable (data : post_edit.post_data) : bool :=
  existsb (fun x => negb (is_not_None (entry_id x)))
    (filter Py.str_isdigit (post_edit.tag_entries data)).

(** The store a creation commits when none of its statements is
    refused. *)
Definition created (data : post_edit.post_data) (d : database) : database :=
  let row := Content.mk 0 (get (post_edit.title data) post_edit.default_title)
               (get (post_edit.slug data) "") (get (post_edit.text data) "")
               "post" (get (post_edit.status data) "publish") 0 in
  let post_id := next_cid d in
  let d1 := snd (Sql.insert_content row d) in
  let d2 := fold_left (fun d x => link_node "category" post_id x d)
              (category_ids data) d1 in
  fold_left (fun d x => link_node "tag" post_id x d) (tag_ids data) d2.

(** A creation that got its id meets a refusal: a link that is there
    already, or a tag entry that [int()] does not take. *)
Definition create_refused (data : post_edit.post_data) (d : database) : bool :=
  let row := Content.mk 0 (get (post_edit.title data) post_edit.default_title)
               (get (post_edit.slug data) "") (get (post_edit.text data) "")
               "post" (get (post_edit.status data) "publish") 0 in
  let post_id := next_cid d in
  let d1 := snd (Sql.insert_content row d) in
  let d2 := fold_left (fun d x => link_node "category" post_id x d)
              (category_ids data) d1 in
  refused_in (link_refused "category" post_id) (link_node "category" post_id)
    (category_ids data) d1
  || tags_unreadable data
  || refused_in (link_refused "tag" post_id) (link_node "tag" post_id)
       (tag_ids data) d2.

(** The deletion of [post] meets a refusal: a decrement of a count that
    is 0. *)
Definition delete_refused (post_id : Z) (post : Content.t) (d : database) : bool :=
  let decrement := post_edit.is_published_post (Content.status post) (Content.type post) in
  let d1 := Sql.delete_content post_id d in
  let d2 := fold_left (fun d x => unlink_node "category" decrement post_id x d)
              (Sql.select_relationships post_id d1) d1 in
  refused_in (unlink_refused "category" decrement post_id)
    (unlink_node "category" decrement post_id) (Sql.select_relationships post_id d1) d1
  || refused_in (unlink_refused "tag" decrement post_id)
       (unlink_node "tag" decrement post_id) (Sql.select_relationships post_id d2) d2.

(** The store a deletion of [post] commits when none of its statements
    is refused. *)
Definition deleted (post_id : Z) (post : Content.t) (d : database) : database :=
  let decrement := post_edit.is_published_post (Content.status post) (Content.type post) in
  let d1 := Sql.delete_content post_id d in
  let d2 := fold_left (fun d x => unlink_node "category" decrement post_id x d)
              (Sql.select_relationships post_id d1) d1 in
  let d3 := fold_left (fun d x => unlink_node "tag" decrement post_id x d)
              (Sql.select_relationships post_id d2) d2 in
  let d4 := Sql.delete_fields post_id (Sql.unattach post_id (Sql.delete_comments post_id d3)) in
  match Sql.select_draft post_id d4 with
  | Some draft =>
      Sql.delete_fields (Content.cid draft)
        (Sql.delete_relationships_of_content (Content.cid draft)
           (Sql.delete_content (Content.cid draft) d4))
  | None => d4
  end.

(** The links to node [x] from published posts other than [p]. *)
Definition other_links (p x : Z) (d : database) : N :=
  N.of_nat (List.length
              (filter (fun r => (Rel.mid r =? x) && negb (Rel.cid r =? p)
                                && published d (Rel.cid r))
                 (typecho_relationships d))).

Definition occurrences (x : Z) (l : list Z) : N :=
  N.of_nat (List.length (filter (fun y => y =? x) l)).

(** The first loop of [delete_post] on post [p], with the ids [rest]
    still to come: a category's count covers its links from the other
    published posts and, when the loop decrements, one more for each turn
    to come on its id; and the links of [p] still there are among the
    turns to come. *)
Definition unlinking (p : Z) (decrement : bool) (rest : list Z) (d : database) : Prop :=
  (forall m, In m (typecho_metas d) ->
             if is_category m
             then (other_links p (Meta.mid m) d
                   + (if decrement then occurrences (Meta.mid m) rest else 0)
                   <= Meta.count m)%N
             else True)
  /\ links_issued d
  /\ kinds_apart d
  /\ (forall r, In r (typecho_relationships d) -> Rel.cid r = p -> In (Rel.mid r) rest).

(** A slug as [slugify] leaves it: word characters that are not upper
    case, and hyphens that do not follow a hyphen. *)
Fixpoint tidy (after_hyphen : bool) (s : string) : bool :=
  match s with
  | EmptyString => true
  | String a s' =>
      if Py.is_hyphen a then negb after_hyphen && tidy true s'
      else Py.is_word a && negb (Py.is_upper a) && tidy false s'
  end.

(** Every character of a text is in a class. *)
Fixpoint every (p : ascii -> bool) (s : string) : bool :=
  match s with
  | EmptyString => true
  | String a s' => p a && every p s'
  end.

(** The rows of one kind, and what it means that no two of them share a
    name, or a slug. *)
Definition rows_of (ty : string) (d : database) : list Meta.t :=
  filter (fun m => Sql.eqs (Meta.type m) ty) (typecho_metas d).

Definition names_unique (ty : string) (d : database) : Prop :=
  NoDup (map Meta.name (rows_of ty d)).

Definition slugs_unique (ty : string) (d : database) : Prop :=
  NoDup (map Meta.slug (rows_of ty d)).

(* ================================================================== *)
(** ** The routes that read *)
(* ================================================================== *)

(** The statements of the reading routes. *)
Module Select.

(** ORDER BY: [precedes x y] says that the keys put [x] strictly before
    [y]; a row is placed behind the rows that precede it.  Rows with equal
    keys stay in table order (the server promises no order among them). *)
Fixpoint place {A : Type} (precedes : A -> A -> bool) (x : A) (l : list A) : list A :=
  match l with
  | [] => [x]
  | y :: l' => if precedes y x then y :: place precedes x l' else x :: l
  end.

Definition order_by {A : Type} (precedes : A -> A -> bool) (l : list A) : list A :=
  fold_right (place precedes) [] l.

(** LIMIT n OFFSET m.  Both are written into the text as decimal
    literals; the grammar of the server has no negative literal there and
    none beyond 64 bits. *)
Definition limit_offset {A : Type} (n m : Z) (rows : list A) : option (list A) :=
  if (n <? 0) || (m <? 0) || (2 ^ 64 <=? n) || (2 ^ 64 <=? m)
  then None
  else Some (firstn (Z.to_nat n) (skipn (Z.to_nat m) rows)).

(** ORDER BY parent ASC, `order` ASC *)
Definition by_parent_then_order (x y : Meta.t) : bool :=
  (Meta.parent x <? Meta.parent y)
  || ((Meta.parent x =? Meta.parent y) && (Meta.order x <? Meta.order y)).

(** SELECT mid, name, slug, type, description, `order`, parent, count
    FROM typecho_metas WHERE type = 'category'
    ORDER BY parent ASC, `order` ASC *)
Definition categories (d : database) : list Meta.t :=
  order_by by_parent_then_order
    (filter (fun m => Sql.eqs (Meta.type m) "category") (typecho_metas d)).

(** ORDER BY mid DESC *)
Definition by_mid_desc (x y : Meta.t) : bool := Meta.mid x >? Meta.mid y.

(** The columns mid, name, slug, `count` of a tag. *)
Record tag_entry : Type := mk_tag_entry {
  e_mid : Z;
  e_name : string;
  e_slug : string;
  e_count : N
}.

Definition entry (m : Meta.t) : tag_entry :=
  mk_tag_entry (Meta.mid m) (Meta.name m) (Meta.slug m) (Meta.count m).

(** SELECT mid, name, slug, `count` FROM typecho_metas WHERE type = 'tag'
    ORDER BY mid DESC *)
Definition tags (d : database) : list tag_entry :=
  map entry
    (order_by by_mid_desc (filter (fun m => Sql.eqs (Meta.type m) "tag") (typecho_metas d))).

(** SELECT COUNT( * ) as total FROM typecho_metas WHERE type = 'tag' *)
Definition count_tags (d : database) : Z :=
  Z.of_nat (List.length (filter (fun m => Sql.eqs (Meta.type m) "tag") (typecho_metas d))).

(** The columns mid, name, slug, description, `count`, `order`, parent
    of a tag. *)
Record tag_details : Type := mk_tag_details {
  d_mid : Z;
  d_name : string;
  d_slug : string;
  d_description : string;
  d_count : N;
  d_order : Z;
  d_parent : Z
}.

Definition details (m : Meta.t) : tag_details :=
  mk_tag_details (Meta.mid m) (Meta.name m) (Meta.slug m) (Meta.description m)
    (Meta.count m) (Meta.order m) (Meta.parent m).

(** SELECT ... FROM typecho_contents WHERE cid = c AND type = 'post' *)
Definition post (c : Z) (d : database) : option Content.t :=
  find (fun row => (Content.cid row =? c) && Sql.eqs (Content.type row) "post")
    (typecho_contents d).

(** SELECT m.* FROM typecho_metas m
    JOIN typecho_relationships r ON m.mid = r.mid
    WHERE r.cid = c AND m.type = ty *)
Definition nodes_of (ty : string) (c : Z) (d : database) : list Meta.t :=
  flat_map
    (fun m =>
       map (fun _ => m)
         (filter (fun r => (Meta.mid m =? Rel.mid r) && (Rel.cid r =? c))
            (typecho_relationships d)))
    (filter (fun m => Sql.eqs (Meta.type m) ty) (typecho_metas d)).

End Select.

(** The answer of a reading route: the rows with 200, "does not exist"
    with 404, or the 500 of [except Exception].  These routes send no
    statement that writes, and neither commit nor roll back. *)
Inductive reading (A : Type) : Type :=
| Fetched (a : A)
| Missing
| Broken.
Arguments Fetched {A} a.
Arguments Missing {A}.
Arguments Broken {A}.

Definition reading_status {A : Type} (r : reading A) : Z :=
  match r with
  | Fetched _ => 200
  | Missing => 404
  | Broken => 500
  end.

(** [function/category_edit.py] *)
Definition get_categories (connection : connection) : reading (list Meta.t) :=
  match fetch Select.categories connection with
  | Next categories _ => Fetched categories
  | _ => Broken
  end.

Definition get_category (mid : Z) (connection : connection) : reading Meta.t :=
  match fetch (Sql.select_meta "category" mid) connection with
  | Next (Some category) _ => Fetched category
  | Next None _ => Missing
  | _ => Broken
  end.

(** [request.args.get(key, default, type=int)]: the default when the
    key is absent, or when [int()] refuses its value. *)
Definition arg_int (value : option string) (default : Z) : Z :=
  match value with
  | Some s =>
      match Py.int_of_str s with
      | Py.Ret z => z
      | Py.Raise _ => default
      end
  | None => default
  end.

Record pagination : Type := mk_pagination {
  page : Z;
  per_page : Z;
  total : Z;
  pages : Z
}.

Record tags_page : Type := mk_tags_page {
  tags : list Select.tag_entry;
  paging : pagination
}.

(** [function/tags_edit.py].  [page_arg] and [per_page_arg] are the
    values of the query string, if given.  [//] by 0 raises
    [ZeroDivisionError], which [except Exception] answers. *)
Definition get_tags (page_arg per_page_arg : option string) (connection : connection)
    : reading tags_page :=
  let page := arg_int page_arg 1 in
  let per_page := Z.min (arg_int per_page_arg 50) 100 in
  let offset := (page - 1) * per_page in
  match fetch (fun d => Select.limit_offset per_page offset (Select.tags d)) connection with
  | Next (Some tags) c =>
      match fetch Select.count_tags c with
      | Next total _ =>
          if per_page =? 0 then Broken
          else Fetched
                 (mk_tags_page tags
                    (mk_pagination page per_page total ((total + per_page - 1) / per_page)))
      | _ => Broken
      end
  | _ => Broken
  end.

Definition get_tag (mid : Z) (connection : connection) : reading Select.tag_details :=
  match fetch (Sql.select_meta "tag" mid) connection with
  | Next (Some tag) _ => Fetched (Select.details tag)
  | Next None _ => Missing
  | _ => Broken
  end.

(** [function/post_edit.py]: the post with its categories and tags. *)
Record post_view : Type := mk_post_view {
  p_post : Content.t;
  p_categories : list Meta.t;
  p_tags : list Meta.t
}.

Definition get_post (post_id : Z) (connection : connection) : reading post_view :=
  match fetch (Select.post post_id) connection with
  | Next (Some post) c =>
      match fetch (Select.nodes_of "category" post_id) c with
      | Next categories c' =>
          match fetch (Select.nodes_of "tag" post_id) c' with
          | Next tags _ => Fetched (mk_post_view post categories tags)
          | _ => Broken
          end
      | _ => Broken
      end
  | Next None _ => Missing
  | _ => Broken
  end.
(** The rows an answer of [get_tags] lists. *)
Definition listed (answer : reading tags_page) : list Select.tag_entry :=
  match answer with
  | Fetched tp => tags tp
  | _ => []
  end.

(** More sample stores. *)
Module Demo.

(** Three tags, two of them carried by the published post 1. *)
Definition three_tags : database :=
  mk_database [Sample.tag 1 "coq" 1; Sample.tag 2 "rocq" 1; Sample.tag 3 "lean" 0]
    [Rel.mk 1 1; Rel.mk 1 2]
    [Content.mk 1 "hello" "hello" "text" "post" "publish" 0]
    [] (Some []) 4 2.

End Demo.

(** The row of [typecho_metas] that a creation answer describes. *)
Definition category_row (node : category_view) : Meta.t :=
  Meta.mk (v_mid node) (v_name node) (v_slug node) "category" (v_description node)
    0 (v_order node) (v_parent node).

Definition tag_row (node : tag_view) : Meta.t :=
  Meta.mk (t_mid node) (t_name node) (t_slug node) "tag" "" 0 0 0.

(** The store with another next id for [typecho_metas]. *)
Definition with_next_mid (i : Z) (d : database) : database :=
  mk_database (typecho_metas d) (typecho_relationships d) (typecho_contents d)
    (typecho_comments d) (typecho_fields d) i (next_cid d).

(** The ids of a list that are ids of nodes of kind [ty]. *)
Definition existing (ty : string) (d : database) (l : list Z) : list Z :=
  filter (fun x => is_not_None (Sql.select_meta ty x d)) l.

(** What the linking loop over [l] adds to the count of a row: one for
    each entry of [l] that is the id of the row, when the row is of kind
    [ty]. *)
Definition credit (ty : string) (l : list Z) (m : Meta.t) : N :=
  if Sql.eqs (Meta.type m) ty then occurrences (Meta.mid m) l else 0%N.

Definition credited (ty : string) (l : list Z) (m : Meta.t) : Meta.t :=
  Meta.set_count (Meta.count m + credit ty l m)%N m.

(** The id that [typecho_contents] hands out next is not in use: no
    content row has it as its id or as its parent, and no link, comment or
    custom field belongs to it. *)
Definition fresh_cid (d : database) : Prop :=
  (forall row, In row (typecho_contents d) ->
               Content.cid row <> next_cid d /\ Content.parent row <> next_cid d)
  /\ (forall r, In r (typecho_relationships d) -> Rel.cid r <> next_cid d)
  /\ (forall i, In i (typecho_comments d) -> i <> next_cid d)
  /\ (forall l, typecho_fields d = Some l -> forall i, In i l -> i <> next_cid d).

(* ================================================================== *)
(** ** function/verify_user.py *)
(* ================================================================== *)

Module verify_user.

(** A row of [typecho_users], with the columns the query selects;
    [python_api_pwd] may be NULL. *)
Record user : Type := mk_user {
  uid : Z;
  name : string;
  python_api_pwd : option string
}.

(** What [get_db_connection()] gives when a request is checked: nothing,
    a connection whose statement fails, or one to a server with these
    users. *)
Inductive users_link : Type :=
| NoConnection
| LinkDown
| Linked (typecho_users : list user).

(** The outcome of the decorator: the 401 answer, an [IndexError] that
    nothing catches, or the answer of the decorated function. *)
Inductive guarded (A : Type) : Type :=
| Unauthorized
| Crashed
| Passed (a : A).
Arguments Unauthorized {A}.
Arguments Crashed {A}.
Arguments Passed {A} a.

(** [s.startswith(prefix)] *)
Fixpoint startswith (s prefix : string) {struct prefix} : bool :=
  match prefix, s with
  | EmptyString, _ => true
  | String a prefix', String b s' => Ascii.eqb a b && startswith s' prefix'
  | String _ _, EmptyString => false
  end.

(** The first word of a text without leading blanks, and what follows
    it. *)
Fixpoint word (s : string) : string * string :=
  match s with
  | EmptyString => (EmptyString, EmptyString)
  | String a s' =>
      if Py.is_space a then (EmptyString, s)
      else let (w, rest) := word s' in (String a w, rest)
  end.

(** [s.split(None, 1)]: at most two pieces, cut at the first run of
    blanks; the second piece keeps the blanks at its end. *)
Definition split_blank_once (s : string) : list string :=
  match Py.lstrip s with
  | EmptyString => []
  | t =>
      let (w, rest) := word t in
      match Py.lstrip rest with
      | EmptyString => [w]
      | rest' => [w; rest']
      end
  end.

Definition is_colon (a : ascii) : bool := (Py.code a =? 58)%N.

(** [':' in s] *)
Fixpoint has_colon (s : string) : bool :=
  match s with
  | EmptyString => false
  | String a s' => is_colon a || has_colon s'
  end.

(** [s.split(':', 1)] on a text that has a colon: what is before the
    first colon, and what is behind it. *)
Fixpoint split_colon_once (s : string) : string * string :=
  match s with
  | EmptyString => (EmptyString, EmptyString)
  | String a s' =>
      if is_colon a then (EmptyString, s')
      else let (u, p) := split_colon_once s' in (String a u, p)
  end.

Section Library.

(** [base64.b64decode(s).decode('utf-8')]: the text, or nothing when one
    of the two calls raises. *)
Variable decode : string -> option string.

(** [hashlib.md5(s.encode('utf-8')).hexdigest()] *)
Variable md5_hexdigest : string -> string.

(** SELECT uid, name, python_api_pwd FROM typecho_users WHERE name = u
    LIMIT 1, and the comparison of the hashes. *)
Definition authenticate_user (link : users_link) (username password : string) : bool :=
  match link with
  | NoConnection => false
  | LinkDown => false
  | Linked typecho_users =>
      match find (fun row => Sql.eqs (name row) username) typecho_users with
      | None => false
      | Some user =>
          match python_api_pwd user with
          | None => false
          | Some stored_hashed_password =>
              if Py.is_empty stored_hashed_password then false
              else Sql.eqs (md5_hexdigest password) stored_hashed_password
          end
      end
  end.

(** The text of the credentials that the headers give, if any: from the
    standard header when it starts with "Basic ", else from the custom
    header.  The outer [None] is the [IndexError] of [split(None, 1)[1]]
    on a standard header with nothing behind "Basic", which no [try]
    covers. *)
Definition credentials (authorization x_api_auth : option string)
    : option (option string) :=
  let auth_header := get authorization "" in
  let custom_auth_header := get x_api_auth "" in
  if negb (Py.is_empty auth_header) && startswith auth_header "Basic "
  then match split_blank_once auth_header with
       | _ :: encoded_credentials :: _ => Some (decode encoded_credentials)
       | _ => None
       end
  else if negb (Py.is_empty custom_auth_header)
       then Some (decode custom_auth_header)
       else Some None.

(** [require_api_auth(f)], called with the two headers of the request;
    [f] stands for the answer of the decorated function. *)
Definition require_api_auth {A : Type} (f : A) (link : users_link)
    (authorization x_api_auth : option string) : guarded A :=
  match credentials authorization x_api_auth with
  | None => Crashed
  | Some auth_string =>
      let auth_string := get auth_string "" in
      if Py.is_empty auth_string || negb (has_colon auth_string) then Unauthorized
      else let (username, password) := split_colon_once auth_string in
           if negb (authenticate_user link username password) then Unauthorized
           else Passed f
  end.

End Library.

End verify_user.

(** The complaints of a creation on a working link: about the name,
    about the slug (the one given, or the one made from the name), and,
    for a category, about the parent. *)
Definition create_errors (ty : string) (d : database) (data : Body.t) : list complaint :=
  let name := Py.strip (get (Body.name data) "") in
  let slug := Py.strip (get (Body.slug data) "") in
  let slug := if Py.is_empty slug then slugify name else slug in
  let parent := get (Body.parent data) 0 in
  ((if Py.is_empty name then [NameRequired]
    else if is_not_None (Sql.select_meta_by_name ty name d) then [NameTaken] else [])
   ++ (if negb (slug_format slug) then [SlugFormat]
       else if is_not_None (Sql.select_meta_by_slug ty slug d) then [SlugTaken] else [])
   ++ (if Sql.eqs ty "category" && Py.truthy parent
       then (if parent <? 0 then [ParentInvalid]
             else if (parent >? 0)
                     && negb (is_not_None (Sql.select_meta "category" parent d))
                  then [ParentMissing]
                  else [])
       else []))%list.

(** An exception is travelling while [s] is what was last committed. *)
Definition aborts {A : Type} (o : outcome A) (s : database) : Prop :=
  exists e c, o = Raised e c /\ saved c = s.

(** * Properties *)

(* ================================================================== *)
(** ** Facts about lists and rows *)
(* ================================================================== *)

Section ListFacts.
Context {A : Type}.

Lemma find_none_intro (f : A -> bool) (l : list A) :
  (forall x, In x l -> f x = false) -> find f l = None.
Proof.
  induction l as [|a l IH]; intros H; simpl; [reflexivity|].
  rewrite (H a (or_introl eq_refl)). apply IH. intros x Hx. apply H. now right.
Qed.

Lemma filter_idem (f : A -> bool) (l : list A) :
  filter f (filter f l) = filter f l.
Proof.
  induction l as [|a l IH]; simpl; [reflexivity|].
  destruct (f a) eqn:E; simpl; [rewrite E, IH|]; auto.
Qed.

Lemma filter_none (f : A -> bool) (l : list A) :
  (forall x, In x l -> f x = false) -> filter f l = [].
Proof.
  induction l as [|a l IH]; intros H; simpl; [reflexivity|].
  rewrite (H a (or_introl eq_refl)). apply IH. intros x Hx. apply H. now right.
Qed.

Lemma filter_all (f : A -> bool) (l : list A) :
  (forall x, In x l -> f x = true) -> filter f l = l.
Proof.
  induction l as [|a l IH]; intros H; simpl; [reflexivity|].
  rewrite (H a (or_introl eq_refl)). f_equal. apply IH. intros x Hx. apply H. now right.
Qed.

Lemma map_id_on (f : A -> A) (l : list A) :
  (forall x, In x l -> f x = x) -> map f l = l.
Proof.
  induction l as [|a l IH]; intros H; simpl; [reflexivity|].
  rewrite (H a (or_introl eq_refl)). f_equal. apply IH. intros x Hx. apply H. now right.
Qed.

End ListFacts.

Lemma eqs_true (a b : string) : Sql.eqs a b = true <-> a = b.
Proof. apply String.eqb_eq. Qed.

Lemma eqs_refl (a : string) : Sql.eqs a a = true.
Proof. apply String.eqb_refl. Qed.

(** Two databases with the same components are the same. *)
Lemma database_ext (d1 d2 : database) :
  typecho_metas d1 = typecho_metas d2 ->
  typecho_relationships d1 = typecho_relationships d2 ->
  typecho_contents d1 = typecho_contents d2 ->
  typecho_comments d1 = typecho_comments d2 ->
  typecho_fields d1 = typecho_fields d2 ->
  next_mid d1 = next_mid d2 ->
  next_cid d1 = next_cid d2 ->
  d1 = d2.
Proof. destruct d1, d2; simpl; intros; subst; reflexivity. Qed.

(* ================================================================== *)
(** ** Storage failures in the helper queries *)
(* ================================================================== *)





(** C4, as the code has it.  When the link is down, so that the statement
    of a helper query fails, the helper does not raise: the existence and
    uniqueness queries of categories and tags answer [False] and the
    max-order query answers 0. *)
Theorem helper_queries_default_on_failure
    (c : connection) (mid parent_mid : Z) (name slug : string) (ignore_mid : option Z) :
  alive c = false ->
  category_edit.category_exists mid c = Py.Ret false
  /\ category_edit.name_exists name c ignore_mid = Py.Ret false
  /\ category_edit.slug_exists slug c ignore_mid = Py.Ret false
  /\ category_edit.get_max_order parent_mid c = Py.Ret 0
  /\ tags_edit.tag_exists mid c = Py.Ret false
  /\ tags_edit.name_exists name c ignore_mid = Py.Ret false
  /\ tags_edit.slug_exists slug c ignore_mid = Py.Ret false.
Proof.
  intros Hdown.
  unfold category_edit.category_exists, category_edit.name_exists,
    category_edit.slug_exists, category_edit.get_max_order,
    tags_edit.tag_exists, tags_edit.name_exists, tags_edit.slug_exists.
  destruct (Py.truthy (get ignore_mid 0)); unfold fetch, refused;
    rewrite Hdown; repeat split; reflexivity.
Qed.

Lemma helper_queries_default_on_failure_witness :
  alive Sample.dead = false
  /\ category_edit.category_exists 1 Sample.dead = Py.Ret false
  /\ category_edit.get_max_order 0 Sample.dead = Py.Ret 0.
Proof.
  split; [reflexivity|].
  destruct (helper_queries_default_on_failure Sample.dead 1 0 "a" "a" None eq_refl)
    as (H1 & _ & _ & H4 & _).
  split; [exact H1 | exact H4].
Defined.

(** C4, as the claim has it, fails: category 1 is in the tables and has
    order 1, the statement cannot run, and the caller is told "does not
    exist" and "0" instead of seeing an error. *)
Lemma helper_query_failure_not_surfaced :
  Sql.select_meta "category" 1 (pending Sample.dead) <> None
  /\ fetch (Sql.select_meta "category" 1) Sample.dead
     = Raised Py.OperationalError Sample.dead
  /\ category_edit.category_exists 1 Sample.dead = Py.Ret false
  /\ category_edit.name_exists "a" Sample.dead None = Py.Ret false
  /\ category_edit.get_max_order 0 Sample.dead = Py.Ret 0
  /\ (forall e, category_edit.category_exists 1 Sample.dead <> Py.Raise e).
Proof.
  repeat split; try reflexivity; intros; discriminate.
Qed.

(* ================================================================== *)
(** ** Moving a category under one of its descendants *)
(* ================================================================== *)

(** C1 on the chain a <- b <- c: the request that moves a under c is
    answered 200 and stored, so that the parent links 1 -> 3 -> 2 -> 1
    close a cycle.  No walk up the ancestors of the proposed parent takes
    place. *)
Theorem update_category_accepts_descendant_parent :
  let answer := category_edit.update_category 1 Sample.move_a_under_c
                  (connect true Sample.chain) in
  fst answer = mk_response Updated 200
  /\ option_map Meta.parent (Sql.select_meta "category" 1 (snd answer)) = Some 3
  /\ option_map Meta.parent (Sql.select_meta "category" 3 (snd answer)) = Some 2
  /\ option_map Meta.parent (Sql.select_meta "category" 2 (snd answer)) = Some 1.
Proof. vm_compute. repeat split. Qed.

(* ================================================================== *)
(** ** Deleting a category *)
(* ================================================================== *)

Lemma is_node_set_parent (ty : string) (x p : Z) (m : Meta.t) :
  Sql.is_node ty x (Meta.set_parent p m) = Sql.is_node ty x m.
Proof. reflexivity. Qed.

(** What [delete_category] leaves behind, as one equation. *)
Lemma delete_category_run (d : database) (X : Z) (deleted : Meta.t) :
  Sql.select_meta "category" X d = Some deleted ->
  category_edit.delete_category X (connect true d) =
    (mk_response CategoryDeleted 200,
     Sql.update_children "category" (Meta.parent deleted) X
       (Sql.delete_relationships_of_meta X (Sql.delete_meta "category" X d))).
Proof.
  intros H.
  unfold category_edit.delete_category, category_edit.category_exists,
    call, bind, fetch, try_, respond, connect.
  simpl. rewrite H. simpl. rewrite H. reflexivity.
Qed.

Lemma Forall2_map_same {A : Type} (R : A -> A -> Prop) (f : A -> A) (l : list A) :
  (forall a, In a l -> R a (f a)) -> Forall2 R l (map f l).
Proof.
  induction l as [|a l IH]; intros H; simpl; constructor.
  - apply H. now left.
  - apply IH. intros b Hb. apply H. now right.
Qed.

(** C5.  Deleting an existing category X whose parent is P answers 200.
    Afterwards no category X exists, and the links are those of before
    that do not reference X.  The rows that are left are, in their order,
    the rows of before other than X, each with its id, name, slug, type,
    description, count and [order] as they were; the parent of such a row
    is P if the row is a category whose parent was X, and is what it was
    otherwise.  So every category whose parent was X is found afterwards
    under its id with parent P and its [order] as it was. *)
Theorem delete_category_reparents (d : database) (X P : Z) (deleted : Meta.t) :
  Sql.select_meta "category" X d = Some deleted ->
  Meta.parent deleted = P ->
  let answer := category_edit.delete_category X (connect true d) in
  let after := snd answer in
  fst answer = mk_response CategoryDeleted 200
  /\ category_edit.category_exists X (connect true after) = Py.Ret false
  /\ (forall m, In m (typecho_metas after) -> Sql.is_node "category" X m = false)
  /\ (forall l, In l (typecho_relationships after) <->
                In l (typecho_relationships d) /\ Rel.mid l <> X)
  /\ Forall2
       (fun m m' =>
          Meta.mid m' = Meta.mid m /\ Meta.name m' = Meta.name m
          /\ Meta.slug m' = Meta.slug m /\ Meta.type m' = Meta.type m
          /\ Meta.description m' = Meta.description m
          /\ Meta.count m' = Meta.count m /\ Meta.order m' = Meta.order m
          /\ (Meta.type m = "category" /\ Meta.parent m = X -> Meta.parent m' = P)
          /\ (~ (Meta.type m = "category" /\ Meta.parent m = X) ->
              Meta.parent m' = Meta.parent m))
       (filter (fun m => negb (Sql.is_node "category" X m)) (typecho_metas d))
       (typecho_metas after)
  /\ (forall m, In m (typecho_metas d) ->
                Meta.type m = "category" -> Meta.parent m = X -> Meta.mid m <> X ->
                exists m', In m' (typecho_metas after)
                           /\ Meta.mid m' = Meta.mid m
                           /\ Meta.type m' = "category"
                           /\ Meta.parent m' = P
                           /\ Meta.order m' = Meta.order m)
  /\ (forall m', In m' (typecho_metas after) ->
                 Meta.type m' = "category" -> Meta.parent m' = X -> P = X).
Proof.
  intros Hrow HP answer after. subst answer after.
  rewrite (delete_category_run d X deleted Hrow). rewrite HP.
  cbn [fst snd]. unfold Sql.update_children, Sql.delete_relationships_of_meta,
    Sql.delete_meta, with_metas, with_relationships.
  cbn [typecho_metas typecho_relationships].
  set (rest := filter (fun m => negb (Sql.is_node "category" X m)) (typecho_metas d)).
  set (move := fun m => if (Meta.parent m =? X) && Sql.eqs (Meta.type m) "category"
                        then Meta.set_parent P m else m).
  assert (Hmove : forall m,
            Meta.mid (move m) = Meta.mid m /\ Meta.name (move m) = Meta.name m
            /\ Meta.slug (move m) = Meta.slug m /\ Meta.type (move m) = Meta.type m
            /\ Meta.description (move m) = Meta.description m
            /\ Meta.count (move m) = Meta.count m /\ Meta.order (move m) = Meta.order m
            /\ (Meta.type m = "category" /\ Meta.parent m = X -> Meta.parent (move m) = P)
            /\ (~ (Meta.type m = "category" /\ Meta.parent m = X) ->
                Meta.parent (move m) = Meta.parent m)).
  { intros m. unfold move.
    destruct ((Meta.parent m =? X) && Sql.eqs (Meta.type m) "category") eqn:E.
    - repeat split; try reflexivity. intros H. exfalso. apply H.
      apply andb_true_iff in E. destruct E as [E1 E2].
      apply Z.eqb_eq in E1. apply eqs_true in E2. now split.
    - repeat split; try reflexivity. intros [Hty Hpar].
      rewrite Hpar, Z.eqb_refl, Hty in E. discriminate. }
  assert (Hgone : forall m, In m (map move rest) -> Sql.is_node "category" X m = false).
  { intros m Hm. apply in_map_iff in Hm. destruct Hm as (m0 & Hm0 & Hin).
    apply filter_In in Hin. destruct Hin as [_ Hin].
    apply negb_true_iff in Hin. subst m. unfold Sql.is_node in *.
    destruct (Hmove m0) as (-> & _ & _ & -> & _). exact Hin. }
  split; [reflexivity|]. split.
  { unfold category_edit.category_exists, fetch, connect. simpl.
    unfold Sql.select_meta. simpl.
    rewrite (find_none_intro _ _ Hgone). reflexivity. }
  split; [exact Hgone|]. split.
  { intros l. rewrite filter_In. rewrite negb_true_iff, Z.eqb_neq. reflexivity. }
  split; [apply Forall2_map_same; intros m _; apply Hmove|]. split.
  - intros m Hin Hty Hpar Hmid. exists (move m).
    destruct (Hmove m) as (H1 & _ & _ & H4 & _ & _ & H7 & H8 & _).
    split; [|repeat split;
              [exact H1 | rewrite H4; exact Hty | apply H8; now split | exact H7]].
    apply in_map. apply filter_In. split; [exact Hin|].
    apply negb_true_iff. unfold Sql.is_node.
    apply andb_false_iff. right. apply Z.eqb_neq. exact Hmid.
  - intros m' Hin Hty Hpar. apply in_map_iff in Hin. destruct Hin as (m & <- & _).
    destruct (Hmove m) as (_ & _ & _ & H4 & _ & _ & _ & H8 & H9).
    rewrite H4 in Hty.
    destruct (Z.eq_dec (Meta.parent m) X) as [Hx|Hx].
    + rewrite <- (H8 (conj Hty Hx)). exact Hpar.
    + exfalso. apply Hx. rewrite <- H9; [exact Hpar|]. intros [_ H]. contradiction.
Qed.

(** In the chain a > b > c, deleting b puts c under a, its [order] kept. *)
Lemma delete_category_reparents_witness :
  let answer := category_edit.delete_category 2 (connect true Sample.chain) in
  fst answer = mk_response CategoryDeleted 200
  /\ exists m', In m' (typecho_metas (snd answer))
                /\ Meta.mid m' = 3 /\ Meta.type m' = "category"
                /\ Meta.parent m' = 1 /\ Meta.order m' = 1.
Proof.
  destruct (delete_category_reparents Sample.chain 2 1 (Sample.category 2 "b" 1 1)
              eq_refl eq_refl) as (H1 & _ & _ & _ & _ & H5 & _).
  split; [exact H1|].
  apply (H5 (Sample.category 3 "c" 1 2)).
  - simpl. right. right. left. reflexivity.
  - reflexivity.
  - reflexivity.
  - discriminate.
Defined.

(* ================================================================== *)
(** ** The tag sweep *)
(* ================================================================== *)


Lemma refresh_tags_run (d : database) :
  tags_edit.refresh_tags (connect true d) =
    (mk_response (Refreshed (fst (Sql.delete_orphaned (Sql.refresh_count d)))) 200,
     swept d).
Proof. reflexivity. Qed.

Lemma refresh_tags_down (d : database) :
  tags_edit.refresh_tags (connect false d) = (mk_response Failed 500, d).
Proof. reflexivity. Qed.


Lemma recount_recount (d : database) (m : Meta.t) :
  recount d (recount d m) = recount d m.
Proof.
  unfold recount. destruct (Sql.eqs (Meta.type m) "tag") eqn:E; simpl; rewrite E; reflexivity.
Qed.

(** The sweep reads the links and the contents, and writes neither. *)
Lemma published_links_swept (x : Z) (d : database) :
  Sql.published_links x (swept d) = Sql.published_links x d.
Proof. reflexivity. Qed.

Lemma swept_metas (d : database) :
  typecho_metas (swept d) =
    filter (fun m => negb (Sql.is_orphaned m)) (map (recount d) (typecho_metas d)).
Proof. reflexivity. Qed.

Lemma recount_kept (d : database) (l : list Meta.t) :
  map (recount d) (filter (fun m => negb (Sql.is_orphaned m)) (map (recount d) l))
  = filter (fun m => negb (Sql.is_orphaned m)) (map (recount d) l).
Proof.
  apply map_id_on. intros m Hm. apply filter_In in Hm. destruct Hm as [Hm _].
  apply in_map_iff in Hm. destruct Hm as (m0 & <- & _). apply recount_recount.
Qed.

Lemma recount_swept (d : database) (m : Meta.t) :
  recount (swept d) m = recount d m.
Proof. reflexivity. Qed.

Lemma swept_swept_metas (d : database) :
  typecho_metas (swept (swept d)) = typecho_metas (swept d).
Proof.
  rewrite (swept_metas (swept d)).
  rewrite (map_ext _ _ (recount_swept d)).
  rewrite (swept_metas d), recount_kept. apply filter_idem.
Qed.

Lemma swept_swept (d : database) : swept (swept d) = swept d.
Proof.
  apply database_ext; try reflexivity. apply swept_swept_metas.
Qed.

Lemma swept_no_orphan (d : database) :
  fst (Sql.delete_orphaned (Sql.refresh_count (swept d))) = 0.
Proof.
  change (Z.of_nat (List.length (filter Sql.is_orphaned
            (map (recount (swept d)) (typecho_metas (swept d))))) = 0).
  rewrite (map_ext _ _ (recount_swept d)).
  rewrite (swept_metas d), recount_kept.
  rewrite filter_none; [reflexivity|].
  intros m Hm. apply filter_In in Hm. destruct Hm as [_ Hm].
  apply negb_true_iff in Hm. exact Hm.
Qed.

(** C7.  Running the tag sweep a second time right after the first leaves
    the store as the first run left it, and the second run reports zero
    deleted tags (on a working link; on a dead link both runs fail and
    write nothing). *)
Theorem refresh_tags_idempotent (link : bool) (d : database) :
  let first := tags_edit.refresh_tags (connect link d) in
  let second := tags_edit.refresh_tags (connect link (snd first)) in
  snd second = snd first
  /\ fst second = (if link then mk_response (Refreshed 0) 200
                   else mk_response Failed 500).
Proof.
  destruct link; cbv zeta.
  - rewrite (refresh_tags_run d). cbn [snd]. rewrite (refresh_tags_run (swept d)).
    cbn [fst snd]. rewrite swept_swept, swept_no_orphan. split; reflexivity.
  - rewrite (refresh_tags_down d). cbn [snd]. rewrite (refresh_tags_down d).
    split; reflexivity.
Qed.

(* ================================================================== *)
(** ** The helper queries on a working link *)
(* ================================================================== *)

Lemma category_exists_alive (mid : Z) (d s : database) :
  category_edit.category_exists mid (mk_connection d s true)
  = Py.Ret (is_not_None (Sql.select_meta "category" mid d)).
Proof. reflexivity. Qed.

Lemma category_name_exists_alive (name : string) (d s : database) :
  category_edit.name_exists name (mk_connection d s true) None
  = Py.Ret (is_not_None (Sql.select_meta_by_name "category" name d)).
Proof. reflexivity. Qed.

Lemma category_slug_exists_alive (slug : string) (d s : database) :
  category_edit.slug_exists slug (mk_connection d s true) None
  = Py.Ret (is_not_None (Sql.select_meta_by_slug "category" slug d)).
Proof. reflexivity. Qed.

Lemma get_max_order_alive (p : Z) (d s : database) :
  category_edit.get_max_order p (mk_connection d s true)
  = Py.Ret (max_order_value (Sql.select_max_order "category" p d)).
Proof.
  unfold category_edit.get_max_order, fetch, max_order_value. simpl.
  destruct (Sql.select_max_order "category" p d); reflexivity.
Qed.

Lemma tag_exists_alive (mid : Z) (d s : database) :
  tags_edit.tag_exists mid (mk_connection d s true)
  = Py.Ret (is_not_None (Sql.select_meta "tag" mid d)).
Proof. reflexivity. Qed.

Lemma tag_name_exists_alive (name : string) (d s : database) :
  tags_edit.name_exists name (mk_connection d s true) None
  = Py.Ret (is_not_None (Sql.select_meta_by_name "tag" name d)).
Proof. reflexivity. Qed.

Lemma tag_slug_exists_alive (slug : string) (d s : database) :
  tags_edit.slug_exists slug (mk_connection d s true) None
  = Py.Ret (is_not_None (Sql.select_meta_by_slug "tag" slug d)).
Proof. reflexivity. Qed.

(** On a dead link every helper gives its default. *)
Lemma helpers_dead (d s : database) :
  (forall mid, category_edit.category_exists mid (mk_connection d s false) = Py.Ret false)
  /\ (forall n i, category_edit.name_exists n (mk_connection d s false) i = Py.Ret false)
  /\ (forall n i, category_edit.slug_exists n (mk_connection d s false) i = Py.Ret false)
  /\ (forall p, category_edit.get_max_order p (mk_connection d s false) = Py.Ret 0)
  /\ (forall mid, tags_edit.tag_exists mid (mk_connection d s false) = Py.Ret false)
  /\ (forall n i, tags_edit.name_exists n (mk_connection d s false) i = Py.Ret false)
  /\ (forall n i, tags_edit.slug_exists n (mk_connection d s false) i = Py.Ret false).
Proof.
  repeat split; intros; try reflexivity;
    unfold category_edit.name_exists, category_edit.slug_exists,
      tags_edit.name_exists, tags_edit.slug_exists;
    destruct (Py.truthy (get i 0)); reflexivity.
Qed.

Create Rewrite HintDb helpers.

#[local] Hint Rewrite category_exists_alive category_name_exists_alive
  category_slug_exists_alive get_max_order_alive tag_exists_alive
  tag_name_exists_alive tag_slug_exists_alive : helpers.

#[local] Arguments category_edit.category_exists : simpl never.
#[local] Arguments category_edit.name_exists : simpl never.
#[local] Arguments category_edit.slug_exists : simpl never.
#[local] Arguments category_edit.get_max_order : simpl never.
#[local] Arguments tags_edit.tag_exists : simpl never.
#[local] Arguments tags_edit.name_exists : simpl never.
#[local] Arguments tags_edit.slug_exists : simpl never.
#[local] Arguments max_order_value : simpl never.

(** Run a handler body: helper calls by their equations, the rest by
    computation, branching on each test met. *)
Ltac run_helpers := repeat (progress (autorewrite with helpers; simpl)).

Ltac branch :=
  repeat match goal with
         | |- context [if ?b then _ else _] => destruct b eqn:?; run_helpers
         end.

(* ================================================================== *)
(** ** The order of a new node *)
(* ================================================================== *)

Lemma maximum_none (l : list Z) : Sql.maximum l = None -> l = [].
Proof.
  destruct l as [|x l]; [reflexivity|]. simpl.
  destruct (Sql.maximum l); discriminate.
Qed.

Lemma maximum_some (l : list Z) (m : Z) :
  Sql.maximum l = Some m -> In m l /\ (forall x, In x l -> x <= m).
Proof.
  revert m. induction l as [|a l IH]; intros m H; simpl in H; [discriminate|].
  destruct (Sql.maximum l) as [y|] eqn:E.
  - injection H as <-. destruct (IH y eq_refl) as [Hin Hle]. split.
    + destruct (Z.max_spec a y) as [[_ ->]|[_ ->]]; [right; exact Hin | left; reflexivity].
    + intros x [<-|Hx]; [apply Z.le_max_l|].
      specialize (Hle x Hx). lia.
  - injection H as <-. apply maximum_none in E. subst l. split; [left; reflexivity|].
    intros x [<-|[]]. lia.
Qed.

(** The answer of the max-order helper is the greatest order of the
    bucket, or 0 when the bucket is empty. *)
Lemma max_order_value_spec (ty : string) (p : Z) (d : database) :
  let bucket := Sql.bucket ty p d in
  let v := max_order_value (Sql.select_max_order ty p d) in
  (bucket = [] /\ v = 0)
  \/ (exists s, In s bucket /\ v = Meta.order s
                /\ forall s', In s' bucket -> Meta.order s' <= Meta.order s).
Proof.
  cbv zeta. unfold Sql.select_max_order, max_order_value.
  destruct (Sql.maximum (map Meta.order (Sql.bucket ty p d))) as [m|] eqn:E.
  - right. apply maximum_some in E. destruct E as [Hin Hle].
    apply in_map_iff in Hin. destruct Hin as (s & Hs & Hin).
    exists s. split; [exact Hin|]. split.
    + unfold Py.truthy. destruct (m =? 0) eqn:E0; simpl; [|congruence].
      apply Z.eqb_eq in E0. congruence.
    + intros s' Hs'. rewrite Hs. apply Hle. apply in_map. exact Hs'.
  - left. apply maximum_none in E. split; [|reflexivity].
    destruct (Sql.bucket ty p d); [reflexivity|discriminate].
Qed.

(** A creation either is refused, with a status other than 201, or
    stores the row computed from the request and the max-order helper. *)
Lemma create_category_cases (link : bool) (data : Body.t) (d : database) :
  let answer := category_edit.create_category data (connect link d) in
  let name := Py.strip (get (Body.name data) "") in
  let slug := Py.strip (get (Body.slug data) "") in
  let slug := if Py.is_empty slug then slugify name else slug in
  let description := get (Body.description data) "" in
  let parent := get (Body.parent data) 0 in
  let new_order := max_order_value (Sql.select_max_order "category" parent d) + 1 in
  status (fst answer) <> 201
  \/ answer =
       (mk_response
          (CategoryCreated
             (mk_category_view (next_mid d) name slug description parent new_order)) 201,
        snd (Sql.insert_meta
               (Meta.mk 0 name slug "category" description 0 new_order parent) d)).
Proof.
  cbv zeta. unfold category_edit.create_category.
  unfold respond, try_, bind, call, return_, ret, connect, insert, commit.
  destruct link.
  - set (name := Py.strip (get (Body.name data) "")).
    set (slug0 := Py.strip (get (Body.slug data) "")).
    set (slug := if Py.is_empty slug0 then slugify name else slug0).
    set (parent := get (Body.parent data) 0).
    run_helpers. branch; first [left; discriminate | right; reflexivity].
  - left. destruct (helpers_dead d d) as (H1 & H2 & H3 & H4 & _).
    simpl. rewrite ?H1, ?H2, ?H3, ?H4.
    branch; rewrite ?H1, ?H2, ?H3, ?H4; simpl; discriminate.
Qed.

Lemma create_tag_cases (link : bool) (data : Body.t) (d : database) :
  let answer := tags_edit.create_tag data (connect link d) in
  let name := Py.strip (get (Body.name data) "") in
  let slug := Py.strip (get (Body.slug data) "") in
  let slug := if Py.is_empty slug then slugify name else slug in
  status (fst answer) <> 201
  \/ answer =
       (mk_response (TagCreated (mk_tag_view (next_mid d) name slug)) 201,
        snd (Sql.insert_meta (Meta.mk 0 name slug "tag" "" 0 0 0) d)).
Proof.
  cbv zeta. unfold tags_edit.create_tag.
  unfold respond, try_, bind, call, return_, ret, connect, insert, commit.
  destruct link.
  - set (name := Py.strip (get (Body.name data) "")).
    set (slug0 := Py.strip (get (Body.slug data) "")).
    set (slug := if Py.is_empty slug0 then slugify name else slug0).
    run_helpers. branch; first [left; discriminate | right; reflexivity].
  - left. destruct (helpers_dead d d) as (_ & _ & _ & _ & H1 & H2 & H3).
    simpl. rewrite ?H1, ?H2, ?H3.
    branch; rewrite ?H1, ?H2, ?H3; simpl; discriminate.
Qed.

(** C6, as the code has it.  A category creation answered 201 returns a
    node whose parent is the one asked for (0 by default) and whose order
    is 1 when no category has that parent, and otherwise 1 plus the
    greatest order among the categories that had that parent before the
    call; the row stored carries the same values.  A tag creation answered
    201 stores the tag with order 0 and parent 0, and its answer carries no
    order. *)
Theorem create_order (link : bool) (data : Body.t) (d : database) :
  (let answer := category_edit.create_category data (connect link d) in
   status (fst answer) = 201 ->
   exists node,
     payload (fst answer) = CategoryCreated node
     /\ v_parent node = get (Body.parent data) 0
     /\ In (Meta.mk (v_mid node) (v_name node) (v_slug node) "category"
              (v_description node) 0 (v_order node) (v_parent node))
          (typecho_metas (snd answer))
     /\ let bucket := Sql.bucket "category" (v_parent node) d in
        (bucket = [] /\ v_order node = 1)
        \/ (exists s, In s bucket /\ v_order node = 1 + Meta.order s
                      /\ forall s', In s' bucket -> Meta.order s' <= Meta.order s))
  /\
  (let answer := tags_edit.create_tag data (connect link d) in
   status (fst answer) = 201 ->
   exists node,
     payload (fst answer) = TagCreated node
     /\ In (Meta.mk (t_mid node) (t_name node) (t_slug node) "tag" "" 0 0 0)
          (typecho_metas (snd answer))).
Proof.
  split; cbv zeta; intros H201.
  - destruct (create_category_cases link data d) as [Hno|Hyes]; [contradiction|].
    cbv zeta in Hyes. rewrite Hyes. cbn [fst snd payload].
    eexists. split; [reflexivity|]. cbn [v_parent v_order v_mid v_name v_slug v_description].
    split; [reflexivity|]. split.
    + unfold Sql.insert_meta. cbn [snd typecho_metas]. apply in_or_app. right.
      left. reflexivity.
    + destruct (max_order_value_spec "category" (get (Body.parent data) 0) d)
        as [[Hb Hv]|(s & Hin & Hv & Hle)]; cbv zeta.
      * left. split; [exact Hb|]. rewrite Hv. reflexivity.
      * right. exists s. split; [exact Hin|]. split; [rewrite Hv; lia|exact Hle].
  - destruct (create_tag_cases link data d) as [Hno|Hyes]; [contradiction|].
    cbv zeta in Hyes. rewrite Hyes. cbn [fst snd payload].
    eexists. split; [reflexivity|].
    unfold Sql.insert_meta. cbn [snd typecho_metas]. apply in_or_app. right.
    left. reflexivity.
Qed.

Lemma create_order_witness :
  exists node,
    payload (fst (category_edit.create_category Sample.new_under_a
                    (connect true Sample.chain))) = CategoryCreated node
    /\ v_parent node = 1
    /\ v_order node = 2.
Proof.
  destruct (proj1 (create_order true Sample.new_under_a Sample.chain) eq_refl)
    as (node & Hp & Hpar & _ & Hord).
  exists node. split; [exact Hp|]. split; [exact Hpar|].
  cbv zeta in Hord. rewrite Hpar in Hord. simpl in Hord.
  destruct Hord as [[Hb _]|(s & Hin & Hv & _)]; [discriminate|].
  destruct Hin as [<-|[]]. exact Hv.
Defined.

(** C6, as the claim has it, fails for tags: the first tag of a store
    finds its bucket empty, and is stored with order 0, not 1. *)
Lemma create_tag_order_is_zero :
  let answer := tags_edit.create_tag Sample.new_tag (connect true Sample.empty) in
  Sql.bucket "tag" 0 Sample.empty = []
  /\ status (fst answer) = 201
  /\ option_map Meta.order (Sql.select_meta "tag" 1 (snd answer)) = Some 0
  /\ option_map Meta.order (Sql.select_meta "tag" 1 (snd answer)) <> Some 1.
Proof. vm_compute. repeat split; discriminate. Qed.

(* ================================================================== *)
(** ** Deleting a batch of tags *)
(* ================================================================== *)

Lemma blank_c_space (a : ascii) : blank a = Py.is_c_space a.
Proof. destruct a as [[] [] [] [] [] [] [] []]; reflexivity. Qed.

Lemma digit_is_digit (a : ascii) : is_not_None (digit a) = Py.is_digit a.
Proof. destruct a as [[] [] [] [] [] [] [] []]; reflexivity. Qed.

Lemma digit_value (a : ascii) (v : Z) :
  digit a = Some v -> v = Z.of_N (Py.code a) - 48.
Proof. destruct a as [[] [] [] [] [] [] [] []]; vm_compute; intros; congruence. Qed.

Lemma underscore_eqb (a : ascii) : Ascii.eqb a "_"%char = Py.is_underscore a.
Proof. destruct a as [[] [] [] [] [] [] [] []]; reflexivity. Qed.

Lemma digit_not_underscore (a : ascii) :
  Py.is_digit a = true -> Py.is_underscore a = false.
Proof. destruct a as [[] [] [] [] [] [] [] []]; vm_compute; intros; congruence. Qed.

Lemma left_c_lstrip (s : string) : without_blanks_left s = Py.c_lstrip s.
Proof.
  induction s as [|a s IH]; [reflexivity|]. cbn [without_blanks_left Py.c_lstrip].
  rewrite blank_c_space, IH. reflexivity.
Qed.

Lemma c_rstrip_empty (s : string) : Py.is_empty (Py.c_rstrip s) = all_blank s.
Proof.
  induction s as [|a s IH]; [reflexivity|]. cbn [Py.c_rstrip all_blank].
  rewrite blank_c_space, <- IH.
  destruct (Py.is_c_space a); destruct (Py.is_empty (Py.c_rstrip s)); reflexivity.
Qed.

Lemma right_c_rstrip (s : string) : without_blanks_right s = Py.c_rstrip s.
Proof.
  induction s as [|a s IH]; [reflexivity|].
  cbn [without_blanks_right Py.c_rstrip all_blank].
  rewrite blank_c_space, <- c_rstrip_empty, IH. reflexivity.
Qed.

Lemma groups_cons (s : string) : exists g gs, groups s = g :: gs.
Proof.
  induction s as [|a s (g & gs & IH)]; [eexists _, _; reflexivity|].
  cbn [groups]. destruct (Ascii.eqb a "_"%char); [eexists _, _; reflexivity|].
  rewrite IH. eexists _, _; reflexivity.
Qed.

Lemma digits_decimal (s : string) (acc : Z) (seen : N) (after_digit : bool) :
  Py.digits s acc seen after_digit
  = if goes_on after_digit s && (seen + count_digits s <=? Py.max_str_digits)%N
    then Some (number s acc) else None.
Proof.
  revert acc seen after_digit. induction s as [|a s IH]; intros acc seen b.
  - cbn. rewrite N.add_0_r. destruct b; reflexivity.
  - cbn [Py.digits count_digits number]. unfold goes_on. cbn [groups].
    rewrite underscore_eqb. rewrite digit_is_digit.
    destruct (Py.is_digit a) eqn:Ed.
    + rewrite (digit_not_underscore a Ed). rewrite IH. unfold goes_on.
      destruct (groups_cons s) as (g & gs & ->).
      destruct (digit a) as [v|] eqn:Ev;
        [|rewrite <- digit_is_digit, Ev in Ed; discriminate].
      rewrite (digit_value a v Ev).
      replace (digit_group (String a g)) with (digit_run g)
        by (cbn [digit_group digit_run]; rewrite Ev; reflexivity).
      replace (digit_run (String a g)) with (digit_run g)
        by (cbn [digit_run]; rewrite Ev; reflexivity).
      replace (seen + 1 + count_digits s)%N with (seen + (1 + count_digits s))%N by lia.
      destruct b; reflexivity.
    + destruct (digit a) as [v|] eqn:Ev;
        [rewrite <- digit_is_digit, Ev in Ed; discriminate|].
      rewrite N.add_0_l.
      destruct (Py.is_underscore a) eqn:Eu; cbn [andb].
      * destruct b; cbn [andb digit_run digit_group].
        -- rewrite IH. unfold goes_on.
           destruct (groups_cons s) as (g & gs & ->). reflexivity.
        -- reflexivity.
      * destruct (groups_cons s) as (g & gs & ->).
        cbn [digit_run digit_group]. rewrite Ev. cbn.
        destruct b; reflexivity.
Qed.

Lemma goes_on_start (s : string) : goes_on false s = forallb digit_group (groups s).
Proof. unfold goes_on. destruct (groups_cons s) as (g & gs & ->). reflexivity. Qed.

Lemma sign_code (a : ascii) :
  ((Py.code a =? 45)%N = Ascii.eqb a "-"%char)
  /\ ((Py.code a =? 43)%N = Ascii.eqb a "+"%char).
Proof. destruct a as [[] [] [] [] [] [] [] []]; split; reflexivity. Qed.

(** The model of [int()] on text reads the integer the text spells. *)
Lemma int_of_str_decimal (s : string) :
  Py.int_of_str s
  = match decimal s with
    | Some z => Py.Ret z
    | None => Py.Raise Py.ValueError
    end.
Proof.
  unfold Py.int_of_str, decimal. rewrite left_c_lstrip, right_c_rstrip.
  destruct (Py.c_rstrip (Py.c_lstrip s)) as [|a t] eqn:E.
  - reflexivity.
  - destruct (sign_code a) as [Hm Hp].
    destruct (Ascii.eqb a "-"%char) eqn:Em.
    + apply Ascii.eqb_eq in Em. subst a. cbn [Py.code N_of_ascii N.eqb fst snd].
      change ((Py.code "-" =? 45)%N) with true. cbn iota.
      rewrite digits_decimal, goes_on_start, N.add_0_l.
      destruct (_ && _); reflexivity.
    + rewrite Hm. destruct (Ascii.eqb a "+"%char) eqn:Ep.
      * apply Ascii.eqb_eq in Ep. subst a.
        change ((Py.code "+" =? 43)%N) with true. cbn iota. cbn [fst snd].
        rewrite digits_decimal, goes_on_start, N.add_0_l.
        destruct (_ && _); reflexivity.
      * rewrite Hp.
        assert (Hsigned :
                  match String a t with
                  | String "-"%char body => (true, body)
                  | String "+"%char body => (false, body)
                  | _ => (false, String a t)
                  end = (false, String a t)).
        { destruct a as [[] [] [] [] [] [] [] []]; try reflexivity;
            cbn in Em, Ep; discriminate. }
        rewrite Hsigned. cbn [fst snd].
        rewrite digits_decimal, goes_on_start, N.add_0_l.
        destruct (_ && _); reflexivity.
Qed.

(** [int()] on an entry: the id the entry stands for; [ValueError] or
    [TypeError] when it stands for none, [OverflowError] for an
    infinity. *)
Lemma int_entry (x : Py.item) :
  match Py.int x with
  | Py.Ret z => entry_id x = Some z
  | Py.Raise e =>
      entry_id x = None
      /\ (if is_infinite x then e = Py.OverflowError
          else e = Py.ValueError \/ e = Py.TypeError)
  end.
Proof.
  destruct x as [z|[n p|b|]|s|[|]| |]; simpl; auto.
  - rewrite Z.quot_div by discriminate. f_equal.
    change (Z.sgn (Z.pos p)) with 1. rewrite Z.mul_1_r. reflexivity.
  - rewrite int_of_str_decimal. destruct (decimal s); auto.
Qed.



Lemma is_target_cons (x y : Z) (l : list Z) :
  is_target (x :: l) y = (y =? x) || is_target l y.
Proof. reflexivity. Qed.

Lemma purged_nil (d : database) : purged [] d = d.
Proof.
  apply database_ext; try reflexivity; unfold purged; simpl.
  - apply filter_all. intros m _. rewrite andb_false_r. reflexivity.
  - apply filter_all. intros m _. reflexivity.
Qed.

Lemma filter_filter {A : Type} (f g : A -> bool) (l : list A) :
  filter f (filter g l) = filter (fun x => g x && f x) l.
Proof.
  induction l as [|a l IH]; simpl; [reflexivity|].
  destruct (g a); simpl; [destruct (f a); rewrite IH; reflexivity | exact IH].
Qed.

Lemma purged_cons (x : Z) (l : list Z) (d : database) :
  purged l (Sql.delete_relationships_of_meta x (Sql.delete_meta "tag" x d))
  = purged (x :: l) d.
Proof.
  apply database_ext; try reflexivity;
    unfold purged, Sql.delete_relationships_of_meta, Sql.delete_meta,
      with_metas, with_relationships;
    cbn [typecho_metas typecho_relationships].
  - rewrite filter_filter. apply filter_ext. intros m.
    unfold Sql.is_node. rewrite is_target_cons.
    destruct (Sql.eqs (Meta.type m) "tag"); simpl; [|reflexivity].
    destruct (Meta.mid m =? x); reflexivity.
  - rewrite filter_filter. apply filter_ext. intros r.
    rewrite is_target_cons. destruct (Rel.mid r =? x); reflexivity.
Qed.

(** The deleting loop leaves the tables purged of its list, and counts
    its entries. *)
Lemma delete_each_run (l : list Z) (n : Z) (d s : database) :
  tags_edit.delete_each l n (mk_connection d s true)
  = Next (n + Z.of_nat (List.length l)) (mk_connection (purged l d) s true).
Proof.
  revert n d. induction l as [|x l IH]; intros n d.
  - simpl. unfold ret. rewrite purged_nil, Z.add_0_r. reflexivity.
  - cbn [tags_edit.delete_each]. unfold bind at 1. unfold execute at 1.
    cbn [alive pending saved]. unfold bind at 1. unfold execute at 1.
    cbn [alive pending saved]. rewrite IH. rewrite purged_cons.
    f_equal. cbn [List.length]. lia.
Qed.









(* ================================================================== *)
(** ** Updating a node *)
(* ================================================================== *)


Lemma update_category_missing (link : bool) (mid : Z) (data : Body.t) (d : database) :
  (link = false \/ Sql.select_meta "category" mid d = None) ->
  category_edit.update_category mid data (connect link d) = (mk_response NotFound 404, d).
Proof.
  intros H. unfold category_edit.update_category.
  unfold respond, bind at 1, call, connect.
  destruct link.
  - destruct H as [H|H]; [discriminate|]. rewrite category_exists_alive, H. reflexivity.
  - destruct (helpers_dead d d) as (H1 & _). rewrite H1. reflexivity.
Qed.



Lemma update_tag_missing (link : bool) (mid : Z) (data : Body.t) (d : database) :
  (link = false \/ Sql.select_meta "tag" mid d = None) ->
  tags_edit.update_tag mid data (connect link d) = (mk_response NotFound 404, d).
Proof.
  intros H. unfold tags_edit.update_tag.
  unfold respond, bind at 1, call, connect.
  destruct link.
  - destruct H as [H|H]; [discriminate|]. rewrite tag_exists_alive, H. reflexivity.
  - destruct (helpers_dead d d) as (_ & _ & _ & _ & H1 & _). rewrite H1. reflexivity.
Qed.












(* ================================================================== *)
(** ** Reference counts under content creation and deletion *)
(* ================================================================== *)

(** C3 on a store with one tag, mid 5, count 0: a published post that
    carries the tag is created (the count becomes 1) and deleted again (the
    link goes, the count stays 1).  The first loop of [delete_post] fetches
    every link of the post and decrements under [type = 'category'] only;
    the second loop, meant for the tags, fetches again and finds nothing.
    A category in the place of the tag gets its count back. *)
Theorem published_tag_count_not_restored :
  let created := post_edit.create_post (Sample.tagged_post "publish")
                   (connect true Sample.one_tag) in
  let deleted := post_edit.delete_post 1 (connect true (snd created)) in
  let count_of := fun d => option_map Meta.count (Sql.select_meta "tag" 5 d) in
  count_of Sample.one_tag = Some 0%N
  /\ fst created = mk_response (PostCreated 1) 201
  /\ typecho_relationships (snd created) = [Rel.mk 1 5]
  /\ count_of (snd created) = Some 1%N
  /\ fst deleted = mk_response PostDeleted 200
  /\ typecho_relationships (snd deleted) = []
  /\ count_of (snd deleted) = Some 1%N
  /\ (let created := post_edit.create_post (Sample.filed_post "publish")
                       (connect true Sample.chain) in
      let deleted := post_edit.delete_post 1 (connect true (snd created)) in
      let count_of := fun d => option_map Meta.count (Sql.select_meta "category" 1 d) in
      count_of Sample.chain = Some 0%N
      /\ count_of (snd created) = Some 1%N
      /\ count_of (snd deleted) = Some 0%N).
Proof. vm_compute. repeat split. Qed.

(** C2, as the claim has it, fails: category 1 says count 0 while the
    published post 7 is filed under it.  The decrement that the deletion
    of the post asks for is not clamped at 0: the server refuses it, the
    deletion is answered 500, and the post and its link are still
    there. *)
Lemma delete_post_refused_at_zero :
  let deleted := post_edit.delete_post 7 (connect true Sample.undercounted) in
  option_map Meta.count (Sql.select_meta "category" 1 Sample.undercounted) = Some 0%N
  /\ fst deleted = mk_response Failed 500
  /\ snd deleted = Sample.undercounted
  /\ is_not_None (Sql.select_post 7 (snd deleted)) = true
  /\ typecho_relationships (snd deleted) = [Rel.mk 7 1].
Proof. vm_compute. repeat split. Qed.

(* ================================================================== *)
(** ** What the content handlers commit *)
(* ================================================================== *)

Lemma for_each_pure {A : Type} (l : list A) (f : A -> M unit)
    (g : A -> database -> database) :
  (forall x d s, f x (mk_connection d s true) = Next tt (mk_connection (g x d) s true)) ->
  forall d s,
    for_each l f (mk_connection d s true)
    = Next tt (mk_connection (fold_left (fun d x => g x d) l d) s true).
Proof.
  intros Hf. induction l as [|x l IH]; intros d s; simpl; [reflexivity|].
  unfold bind. rewrite Hf. apply IH.
Qed.

(** Deleting from [typecho_fields] goes through whether the table is
    there or not. *)
Lemma delete_fields_pure (c : Z) (d s : database) :
  try_pymysql (execute_on_fields (Sql.delete_fields c)) (mk_connection d s true)
  = Next tt (mk_connection (Sql.delete_fields c d) s true).
Proof.
  unfold try_pymysql, execute_on_fields. cbn [alive pending saved].
  destruct (typecho_fields d) eqn:E; [reflexivity|].
  cbn [Py.is_pymysql_error]. do 2 f_equal.
  destruct d. simpl in E. subst. reflexivity.
Qed.

(** Stepping through a handler on a working link. *)
Lemma bind_fetch {A B : Type} (q : database -> A) (k : A -> M B) (d s : database) :
  bind (fetch q) k (mk_connection d s true) = k (q d) (mk_connection d s true).
Proof. reflexivity. Qed.

Lemma bind_execute {B : Type} (u : database -> database) (k : unit -> M B)
    (d s : database) :
  bind (execute u) k (mk_connection d s true) = k tt (mk_connection (u d) s true).
Proof. reflexivity. Qed.

Lemma bind_insert {B : Type} (u : database -> Z * database) (k : Z -> M B)
    (d s : database) :
  bind (insert u) k (mk_connection d s true)
  = k (fst (u d)) (mk_connection (snd (u d)) s true).
Proof. unfold bind, insert. cbn [alive pending saved]. destruct (u d). reflexivity. Qed.

Lemma bind_for_each {A B : Type} (l : list A) (f : A -> M unit)
    (g : A -> database -> database) (k : unit -> M B) (d s : database) :
  (forall x d s, f x (mk_connection d s true) = Next tt (mk_connection (g x d) s true)) ->
  bind (for_each l f) k (mk_connection d s true)
  = k tt (mk_connection (fold_left (fun d x => g x d) l d) s true).
Proof. intros Hf. unfold bind. rewrite (for_each_pure l f g Hf). reflexivity. Qed.

Lemma bind_delete_fields {B : Type} (c : Z) (k : unit -> M B) (d s : database) :
  bind (try_pymysql (execute_on_fields (Sql.delete_fields c))) k (mk_connection d s true)
  = k tt (mk_connection (Sql.delete_fields c d) s true).
Proof. unfold bind. rewrite delete_fields_pure. reflexivity. Qed.

Lemma commit_alive (d s : database) :
  commit (mk_connection d s true) = Next tt (mk_connection d d true).
Proof. reflexivity. Qed.

Lemma bind_commit {B : Type} (k : unit -> M B) (d s : database) :
  bind commit k (mk_connection d s true) = k tt (mk_connection d d true).
Proof. reflexivity. Qed.

Lemma bind_checked {B : Type} (e : Py.exn) (u : database -> option database)
    (k : unit -> M B) (d s : database) :
  bind (execute_checked e u) k (mk_connection d s true)
  = match u d with
    | Some d' => k tt (mk_connection d' s true)
    | None => Raised e (mk_connection d s true)
    end.
Proof.
  unfold bind, execute_checked. cbn [alive pending saved]. destruct (u d); reflexivity.
Qed.

(** An exception passes through what follows, and [try] answers it
    with 500 after rolling back. *)
Lemma bind_aborts {A B : Type} (m : M A) (k : A -> M B) (c : connection) (s : database) :
  aborts (m c) s -> aborts (bind m k c) s.
Proof. intros (e & c' & H & Hs). unfold bind. rewrite H. exists e, c'. auto. Qed.

Lemma respond_aborts (o : outcome response) (s : database) :
  aborts o s ->
  respond (match o with
           | Next r c' => Next r c'
           | Raised _ c' => Returned (mk_response Failed 500) (rollback c')
           | Returned r c' => Returned r c'
           end) = (mk_response Failed 500, s).
Proof. intros (e & c' & -> & Hs). cbn. rewrite Hs. reflexivity. Qed.

(** A loop whose turns may be refused. *)
Lemma for_each_checked {A : Type} (l : list A) (f : A -> M unit)
    (refuses : A -> database -> bool) (step : A -> database -> database) :
  (forall x d s,
     if refuses x d then aborts (f x (mk_connection d s true)) s
     else f x (mk_connection d s true) = Next tt (mk_connection (step x d) s true)) ->
  forall d s,
    if refused_in refuses step l d
    then aborts (for_each l f (mk_connection d s true)) s
    else for_each l f (mk_connection d s true)
         = Next tt (mk_connection (fold_left (fun d x => step x d) l d) s true).
Proof.
  intros Hf. induction l as [|x l IH]; intros d s; cbn [refused_in for_each fold_left].
  - reflexivity.
  - specialize (Hf x d s). destruct (refuses x d); cbn [orb].
    + apply bind_aborts. exact Hf.
    + unfold bind. rewrite Hf. apply IH.
Qed.

Lemma count_below_zero_up (ty : string) (x k : Z) (d : database) :
  0 <= k -> Sql.count_below_zero ty x k d = false.
Proof.
  intros Hk. unfold Sql.count_below_zero.
  induction (typecho_metas d) as [|m l IH]; [reflexivity|]. cbn [existsb].
  rewrite IH, orb_false_r. apply andb_false_iff. right. apply Z.ltb_ge. lia.
Qed.

Lemma link_turn (ty : string) (post_id x : Z) (d s : database) :
  let turn :=
    (row <- fetch (Sql.select_meta ty x) ;;
     (if is_not_None row
      then (execute_checked Py.IntegrityError (Sql.insert_relationship post_id x) ;;;
            execute_checked Py.OperationalError (Sql.add_count ty x 1))
      else ret tt)) in
  if link_refused ty post_id x d
  then aborts (turn (mk_connection d s true)) s
  else turn (mk_connection d s true)
       = Next tt (mk_connection (link_node ty post_id x d) s true).
Proof.
  cbv zeta. rewrite bind_fetch. unfold link_refused, link_node.
  destruct (is_not_None (Sql.select_meta ty x d)); cbn [andb]; [|reflexivity].
  rewrite bind_checked. unfold Sql.insert_relationship.
  destruct (Sql.has_relationship post_id x d).
  - eexists _, _. split; reflexivity.
  - unfold execute_checked, Sql.add_count. cbn [alive pending saved].
    rewrite count_below_zero_up by lia. reflexivity.
Qed.

Lemma unlink_turn (ty : string) (dec : bool) (post_id x : Z) (d s : database) :
  let turn :=
    (execute (Sql.delete_relationship post_id x) ;;;
     (if dec then execute_checked Py.OperationalError (Sql.add_count ty x (-1))
      else ret tt)) in
  if unlink_refused ty dec post_id x d
  then aborts (turn (mk_connection d s true)) s
  else turn (mk_connection d s true)
       = Next tt (mk_connection (unlink_node ty dec post_id x d) s true).
Proof.
  cbv zeta. rewrite bind_execute. unfold unlink_refused, unlink_node.
  destruct dec; cbn [andb]; [|reflexivity].
  unfold execute_checked, Sql.add_count. cbn [alive pending saved].
  destruct (Sql.count_below_zero ty x (-1) (Sql.delete_relationship post_id x d)).
  - eexists _, _. split; reflexivity.
  - reflexivity.
Qed.

(** [int()] over a list: the ids of the entries, unless one of them
    stands for none. *)
Lemma int_each_run (l : list Py.item) :
  match post_edit.int_each l with
  | Py.Ret zs =>
      zs = ids_of l /\ existsb (fun x => negb (is_not_None (entry_id x))) l = false
  | Py.Raise _ => existsb (fun x => negb (is_not_None (entry_id x))) l = true
  end.
Proof.
  induction l as [|x l IH]; [split; reflexivity|].
  cbn [post_edit.int_each existsb ids_of flat_map].
  pose proof (int_entry x) as Hx. destruct (Py.int x) as [z|e].
  - rewrite Hx. cbn [is_not_None negb orb].
    destruct (post_edit.int_each l) as [zs|e'].
    + destruct IH as [-> IH]. split; [reflexivity|exact IH].
    + exact IH.
  - destruct Hx as [-> _]. reflexivity.
Qed.

Lemma create_post_dead (data : post_edit.post_data) (d : database) :
  snd (post_edit.create_post data (connect false d)) = d.
Proof.
  unfold post_edit.create_post, respond, try_, connect, return_, bind, insert.
  destruct (post_edit.is_empty data); [reflexivity|].
  destruct (Py.is_empty _ || Py.is_empty _); reflexivity.
Qed.

Lemma delete_post_dead (post_id : Z) (d : database) :
  snd (post_edit.delete_post post_id (connect false d)) = d.
Proof. reflexivity. Qed.

(** [create_post] on a working link, as one equation. *)
Lemma create_post_run (data : post_edit.post_data) (d : database) :
  post_edit.create_post data (connect true d) =
    if post_edit.is_empty data then (mk_response InvalidJson 400, d)
    else if Py.is_empty (get (post_edit.title data) post_edit.default_title)
            || Py.is_empty (get (post_edit.text data) "")
         then (mk_response MissingText 400, d)
         else if negb (Py.truthy (next_cid d)) then (mk_response Failed 500, d)
              else if create_refused data d then (mk_response Failed 500, d)
                   else (mk_response (PostCreated (next_cid d)) 201, created data d).
Proof.
  unfold post_edit.create_post, try_, connect, return_.
  destruct (post_edit.is_empty data); [reflexivity|].
  destruct (Py.is_empty _ || Py.is_empty _); [reflexivity|].
  rewrite bind_insert. cbn [Sql.insert_content fst snd].
  destruct (Py.truthy (next_cid d)); cbn [negb]; [|reflexivity].
  unfold create_refused, created. cbv zeta. cbn [Sql.insert_content snd].
  fold (category_ids data).
  match goal with |- context [for_each (category_ids data) ?f] =>
    pose proof (for_each_checked (category_ids data) f
                  (link_refused "category" (next_cid d))
                  (link_node "category" (next_cid d))
                  (fun x d' s' => link_turn "category" (next_cid d) x d' s')) as Hcat
  end.
  match goal with |- context [mk_connection ?d1 d true] =>
    specialize (Hcat d1 d); set (start := d1) in *
  end.
  destruct (refused_in (link_refused "category" (next_cid d)) _ (category_ids data) start).
  { cbn [orb]. apply respond_aborts. apply bind_aborts. exact Hcat. }
  cbn [orb]. unfold bind at 1. rewrite Hcat.
  set (d2 := fold_left _ (category_ids data) start).
  unfold bind at 1, call.
  pose proof (int_each_run (filter Py.str_isdigit (post_edit.tag_entries data))) as Hint.
  fold (tags_unreadable data) in Hint.
  destruct (post_edit.int_each _) as [zs|e].
  2:{ rewrite Hint. reflexivity. }
  destruct Hint as [-> ->]. fold (tag_ids data). cbn [orb].
  match goal with |- context [for_each (tag_ids data) ?f] =>
    pose proof (for_each_checked (tag_ids data) f
                  (link_refused "tag" (next_cid d))
                  (link_node "tag" (next_cid d))
                  (fun x d' s' => link_turn "tag" (next_cid d) x d' s') d2 d) as Htag
  end.
  destruct (refused_in (link_refused "tag" (next_cid d)) _ (tag_ids data) d2).
  { apply respond_aborts. apply bind_aborts. exact Htag. }
  unfold bind at 1. rewrite Htag. rewrite bind_commit. reflexivity.
Qed.

(** [delete_post] on a working link, as one equation. *)
Lemma delete_post_run (post_id : Z) (d : database) :
  post_edit.delete_post post_id (connect true d) =
    match Sql.select_post post_id d with
    | Some post =>
        if delete_refused post_id post d then (mk_response Failed 500, d)
        else (mk_response PostDeleted 200, deleted post_id post d)
    | None => (mk_response NotFound 404, d)
    end.
Proof.
  unfold post_edit.delete_post, try_, connect, return_.
  rewrite bind_fetch.
  destruct (Sql.select_post post_id d) as [post|]; [|reflexivity].
  unfold deleted, delete_refused. cbv zeta.
  set (dec := post_edit.is_published_post (Content.status post) (Content.type post)).
  rewrite bind_execute, bind_fetch.
  set (d1 := Sql.delete_content post_id d).
  match goal with |- context [for_each (Sql.select_relationships post_id d1) ?f] =>
    pose proof (for_each_checked (Sql.select_relationships post_id d1) f
                  (unlink_refused "category" dec post_id)
                  (unlink_node "category" dec post_id)
                  (fun x d' s' => unlink_turn "category" dec post_id x d' s') d1 d) as Hcat
  end.
  destruct (refused_in (unlink_refused "category" dec post_id) _
              (Sql.select_relationships post_id d1) d1).
  { cbn [orb]. apply respond_aborts. apply bind_aborts. exact Hcat. }
  cbn [orb]. unfold bind at 1. rewrite Hcat.
  set (d2 := fold_left _ (Sql.select_relationships post_id d1) d1).
  rewrite bind_fetch.
  match goal with |- context [for_each (Sql.select_relationships post_id d2) ?f] =>
    pose proof (for_each_checked (Sql.select_relationships post_id d2) f
                  (unlink_refused "tag" dec post_id)
                  (unlink_node "tag" dec post_id)
                  (fun x d' s' => unlink_turn "tag" dec post_id x d' s') d2 d) as Htag
  end.
  destruct (refused_in (unlink_refused "tag" dec post_id) _
              (Sql.select_relationships post_id d2) d2).
  { apply respond_aborts. apply bind_aborts. exact Htag. }
  unfold bind at 1. rewrite Htag.
  rewrite !bind_execute, bind_delete_fields, bind_fetch.
  match goal with |- context [Sql.select_draft post_id ?x] =>
    destruct (Sql.select_draft post_id x) as [draft|] end.
  - unfold bind at 1. rewrite !bind_execute. rewrite delete_fields_pure.
    rewrite bind_commit. reflexivity.
  - unfold bind at 1. unfold ret at 1. rewrite bind_commit. reflexivity.
Qed.

Lemma create_post_alive (data : post_edit.post_data) (d : database) :
  snd (post_edit.create_post data (connect true d)) = d
  \/ snd (post_edit.create_post data (connect true d)) = created data d.
Proof.
  rewrite create_post_run.
  destruct (post_edit.is_empty data); [left; reflexivity|].
  destruct (Py.is_empty _ || Py.is_empty _); [left; reflexivity|].
  destruct (negb (Py.truthy (next_cid d))); [left; reflexivity|].
  destruct (create_refused data d); [left|right]; reflexivity.
Qed.

(* ================================================================== *)
(** ** Counts stay at or above the visible links *)
(* ================================================================== *)

Lemma length_filter_le {A : Type} (f g : A -> bool) (h : A -> bool) (l : list A) :
  (forall x, In x l -> f x = true -> g x = true) ->
  (List.length (filter f (filter h l)) <= List.length (filter g l))%nat.
Proof.
  induction l as [|a l IH]; intros H; simpl; [lia|].
  assert (IH' := IH (fun x Hx => H x (or_intror Hx))).
  destruct (h a); simpl.
  - destruct (f a) eqn:Ef.
    + rewrite (H a (or_introl eq_refl) Ef). simpl. lia.
    + destruct (g a); simpl; lia.
  - destruct (g a); simpl; lia.
Qed.

Lemma filter_true {A : Type} (l : list A) : filter (fun _ => true) l = l.
Proof. apply filter_all. reflexivity. Qed.

(** A store with the same nodes, some of the links and some of the
    published posts of a counted store is counted. *)
Lemma counted_shrink (d d' : database) (f : Rel.t -> bool) :
  typecho_metas d' = typecho_metas d ->
  next_cid d' = next_cid d ->
  typecho_relationships d' = filter f (typecho_relationships d) ->
  (forall c, published d' c = true -> published d c = true) ->
  counted d -> counted d'.
Proof.
  intros Hm Hn Hr Hp (Hcover & Hissued & Hapart).
  split; [|split].
  - intros m Hin. rewrite Hm in Hin. specialize (Hcover m Hin).
    destruct (is_category m); [|exact Hcover].
    assert (visible_links (Meta.mid m) d' <= visible_links (Meta.mid m) d)%N; [|lia].
    unfold visible_links. rewrite Hr.
    match goal with |- (N.of_nat ?a <= N.of_nat ?b)%N => assert (a <= b)%nat; [|lia] end.
    apply length_filter_le.
    intros r _ H. apply andb_true_iff in H. destruct H as [H1 H2].
    rewrite H1. simpl. apply Hp. exact H2.
  - intros r Hin. rewrite Hr in Hin. apply filter_In in Hin. rewrite Hn.
    apply Hissued. apply Hin.
  - unfold kinds_apart. rewrite Hm. exact Hapart.
Qed.

(** *** Creation *)

Lemma published_insert (row : Content.t) (d : database) (c : Z) :
  c <> next_cid d ->
  published (snd (Sql.insert_content row d)) c = published d c.
Proof.
  intros Hc. unfold published, Sql.insert_content. cbn [snd typecho_contents].
  rewrite existsb_app. simpl.
  destruct (next_cid d =? c) eqn:E; [apply Z.eqb_eq in E; congruence|].
  simpl. rewrite !orb_false_r. reflexivity.
Qed.

Lemma insert_content_counted (row : Content.t) (d : database) :
  counted d -> counted (snd (Sql.insert_content row d)).
Proof.
  intros (Hcover & Hissued & Hapart). split; [|split].
  - intros m Hin. specialize (Hcover m Hin).
    destruct (is_category m); [|exact Hcover].
    assert (visible_links (Meta.mid m) (snd (Sql.insert_content row d))
            = visible_links (Meta.mid m) d) as ->; [|exact Hcover].
    unfold visible_links. do 2 f_equal.
    change (typecho_relationships (snd (Sql.insert_content row d)))
      with (typecho_relationships d).
    apply filter_ext_in. intros r Hr. rewrite published_insert; [reflexivity|].
    specialize (Hissued r Hr). lia.
  - intros r Hr. specialize (Hissued r Hr). cbn. cbn in Hr. specialize (Hissued). lia.
  - exact Hapart.
Qed.

Lemma find_is_node (ty : string) (x : Z) (d : database) (row : Meta.t) :
  Sql.select_meta ty x d = Some row ->
  In row (typecho_metas d) /\ Meta.type row = ty /\ Meta.mid row = x.
Proof.
  intros H. apply find_some in H. destruct H as [Hin H].
  unfold Sql.is_node in H. apply andb_true_iff in H. destruct H as [H1 H2].
  apply eqs_true in H1. apply Z.eqb_eq in H2. auto.
Qed.

Lemma is_category_iff (m : Meta.t) : is_category m = true <-> Meta.type m = "category".
Proof. apply eqs_true. Qed.

Lemma link_node_next_cid (ty : string) (c x : Z) (d : database) :
  next_cid (link_node ty c x d) = next_cid d.
Proof. unfold link_node. destruct (is_not_None _); reflexivity. Qed.

Lemma link_node_counted (ty : string) (c x : Z) (d : database) :
  ty = "category" \/ ty = "tag" ->
  c < next_cid d ->
  counted d -> counted (link_node ty c x d).
Proof.
  intros Hty Hc Hd. unfold link_node.
  destruct (Sql.select_meta ty x d) as [row|] eqn:Erow; [|exact Hd].
  cbn [is_not_None].
  destruct (find_is_node _ _ _ _ Erow) as (Hrow & Hrty & Hrmid).
  destruct Hd as (Hcover & Hissued & Hapart).
  assert (Hvis : forall y,
             (visible_links y (Sql.count_added ty x 1 (Sql.relationship_added c x d))
              <= visible_links y d + (if (x =? y)%Z then 1 else 0))%N).
  { intros y. unfold visible_links.
    change (typecho_relationships (Sql.count_added ty x 1 (Sql.relationship_added c x d)))
      with (typecho_relationships d ++ [Rel.mk c x])%list.
    change (published (Sql.count_added ty x 1 (Sql.relationship_added c x d)))
      with (published d).
    rewrite filter_app, length_app. cbn [filter Rel.mid Rel.cid].
    destruct (x =? y); cbn [andb]; [destruct (published d c)|]; cbn [List.length]; lia. }
  split; [|split].
  - intros m' Hin'.
    change (typecho_metas (Sql.count_added ty x 1 (Sql.relationship_added c x d)))
      with (map (fun m => if Sql.is_node ty x m
                          then Meta.set_count (Z.to_N (Z.of_N (Meta.count m) + 1)) m else m)
              (typecho_metas d)) in Hin'.
    apply in_map_iff in Hin'. destruct Hin' as (m & <- & Hin).
    specialize (Hcover m Hin). specialize (Hvis (Meta.mid m)).
    destruct (Sql.is_node ty x m) eqn:Enode.
    + change (is_category (Meta.set_count (Z.to_N (Z.of_N (Meta.count m) + 1)) m))
        with (is_category m).
      cbn [Meta.set_count Meta.mid Meta.count].
      destruct (is_category m); [|exact I].
      destruct (x =? Meta.mid m); lia.
    + destruct (is_category m) eqn:Ecat; [|exact Hcover].
      destruct (x =? Meta.mid m) eqn:Ex; [|lia].
      exfalso. apply Z.eqb_eq in Ex. apply is_category_iff in Ecat.
      unfold Sql.is_node in Enode. rewrite Ex, Z.eqb_refl, andb_true_r in Enode.
      destruct Hty as [-> | ->].
      * rewrite Ecat in Enode. discriminate.
      * apply (Hapart m row Hin Hrow Ecat Hrty). congruence.
  - intros r Hr.
    change (typecho_relationships (Sql.count_added ty x 1 (Sql.relationship_added c x d)))
      with (typecho_relationships d ++ [Rel.mk c x])%list in Hr.
    apply in_app_or in Hr. destruct Hr as [Hr|[<-|[]]]; [apply Hissued; exact Hr|exact Hc].
  - intros m1 m2 H1 H2.
    change (typecho_metas (Sql.count_added ty x 1 (Sql.relationship_added c x d)))
      with (map (fun m => if Sql.is_node ty x m
                          then Meta.set_count (Z.to_N (Z.of_N (Meta.count m) + 1)) m else m)
              (typecho_metas d)) in H1, H2.
    apply in_map_iff in H1, H2.
    destruct H1 as (n1 & <- & Hn1). destruct H2 as (n2 & <- & Hn2).
    destruct (Sql.is_node ty x n1); destruct (Sql.is_node ty x n2);
      apply (Hapart n1 n2 Hn1 Hn2).
Qed.

Lemma link_nodes_counted (ty : string) (c : Z) (l : list Z) (d : database) :
  ty = "category" \/ ty = "tag" ->
  c < next_cid d ->
  counted d ->
  counted (fold_left (fun d x => link_node ty c x d) l d)
  /\ next_cid (fold_left (fun d x => link_node ty c x d) l d) = next_cid d.
Proof.
  intros Hty. revert d. induction l as [|x l IH]; intros d Hc Hd; simpl; [auto|].
  destruct (IH (link_node ty c x d)) as [H1 H2].
  - rewrite link_node_next_cid. exact Hc.
  - apply link_node_counted; assumption.
  - split; [exact H1|]. rewrite H2. apply link_node_next_cid.
Qed.

Lemma created_counted (data : post_edit.post_data) (d : database) :
  counted d -> counted (created data d).
Proof.
  intros Hd. unfold created. cbv zeta.
  set (row := Content.mk _ _ _ _ _ _ _).
  pose proof (insert_content_counted row d Hd) as H1.
  assert (Hn : next_cid d < next_cid (snd (Sql.insert_content row d))) by (cbn; lia).
  destruct (link_nodes_counted "category" (next_cid d)
              (category_ids data) _ (or_introl eq_refl) Hn H1)
    as [H2 Hn2].
  apply link_nodes_counted; [right; reflexivity| |exact H2].
  rewrite Hn2. exact Hn.
Qed.

(** *** Deletion *)

Lemma published_delete_content (p c : Z) (d : database) :
  published (Sql.delete_content p d) c
  = negb (c =? p) && published d c.
Proof.
  unfold published, Sql.delete_content, with_contents. cbn [typecho_contents].
  induction (typecho_contents d) as [|row l IH]; simpl.
  - rewrite andb_false_r. reflexivity.
  - destruct (Content.cid row =? p) eqn:Ep; simpl.
    + rewrite IH. apply Z.eqb_eq in Ep.
      destruct (Content.cid row =? c) eqn:Ec; simpl.
      * apply Z.eqb_eq in Ec. assert ((c =? p) = true) as -> by (apply Z.eqb_eq; lia).
        reflexivity.
      * reflexivity.
    + rewrite IH. destruct (c =? p) eqn:Ecp; simpl; [|reflexivity].
      apply Z.eqb_eq in Ecp. subst c. rewrite Ep. reflexivity.
Qed.

Lemma published_found (p : Z) (post : Content.t) (d : database) :
  Sql.select_post p d = Some post ->
  post_edit.is_published_post (Content.status post) (Content.type post) = true ->
  published d p = true.
Proof.
  intros Hsel Hpub. apply find_some in Hsel. destruct Hsel as [Hin Hsel].
  apply andb_true_iff in Hsel. destruct Hsel as [Hcid _].
  unfold post_edit.is_published_post in Hpub. apply andb_true_iff in Hpub.
  destruct Hpub as [Hs Ht].
  unfold published. apply existsb_exists. exists post. split; [exact Hin|].
  rewrite Hcid, Hs, Ht. reflexivity.
Qed.

(** Before the first loop: the visible links of a node are those from
    the other posts plus, if the post is published, one for each link of
    the post to the node. *)
Lemma visible_links_split (p x : Z) (dec : bool) (d : database) :
  (dec = true -> published d p = true) ->
  (other_links p x (Sql.delete_content p d)
   + (if dec then occurrences x (Sql.select_relationships p (Sql.delete_content p d)) else 0)
   <= visible_links x d)%N.
Proof.
  intros Hdec. unfold other_links, occurrences, visible_links, Sql.select_relationships.
  change (typecho_relationships (Sql.delete_content p d)) with (typecho_relationships d).
  induction (typecho_relationships d) as [|r l IH]; [simpl; destruct dec; lia|].
  cbn [filter map]. rewrite published_delete_content.
  destruct (Rel.cid r =? p) eqn:Ep; cbn [negb andb filter map].
  - apply Z.eqb_eq in Ep. rewrite andb_false_r. cbn [andb]. rewrite Ep.
    destruct (Rel.mid r =? x); cbn [andb List.length].
    + destruct dec.
      * rewrite (Hdec eq_refl). cbn [List.length]. lia.
      * destruct (published d p); cbn [List.length]; lia.
    + exact IH.
  - destruct (Rel.mid r =? x); cbn [andb]; [|exact IH].
    destruct (published d (Rel.cid r)); cbn [List.length]; [|exact IH].
    destruct dec; lia.
Qed.

Lemma unlinking_start (p : Z) (dec : bool) (d : database) :
  (dec = true -> published d p = true) ->
  counted d ->
  unlinking p dec (Sql.select_relationships p (Sql.delete_content p d))
    (Sql.delete_content p d).
Proof.
  intros Hdec (Hcover & Hissued & Hapart). split; [|split; [|split]].
  - intros m Hin. specialize (Hcover m Hin).
    destruct (is_category m); [|exact Hcover].
    pose proof (visible_links_split p (Meta.mid m) dec d Hdec). lia.
  - exact Hissued.
  - exact Hapart.
  - intros r Hin Hcid. unfold Sql.select_relationships. apply in_map.
    apply filter_In. split; [exact Hin|]. apply Z.eqb_eq. exact Hcid.
Qed.

Lemma other_links_unlink (ty : string) (p x y : Z) (dec : bool) (d : database) :
  other_links p y (unlink_node ty dec p x d) = other_links p y d.
Proof.
  unfold other_links.
  assert (Hr : typecho_relationships (unlink_node ty dec p x d)
               = filter (fun r => negb ((Rel.cid r =? p) && (Rel.mid r =? x)))
                   (typecho_relationships d))
    by (unfold unlink_node; destruct dec; reflexivity).
  assert (Hp : published (unlink_node ty dec p x d) = published d)
    by (unfold unlink_node; destruct dec; reflexivity).
  rewrite Hr, Hp, filter_filter. do 2 f_equal. apply filter_ext. intros r.
  destruct (Rel.cid r =? p); simpl; [|reflexivity].
  rewrite andb_false_r. simpl. rewrite andb_false_r. reflexivity.
Qed.

Lemma occurrences_cons (x y : Z) (l : list Z) :
  occurrences y (x :: l) = ((if (x =? y)%Z then 1 else 0) + occurrences y l)%N.
Proof.
  unfold occurrences. simpl. destruct (x =? y); cbn [List.length]; lia.
Qed.

Lemma unlinking_step (p x : Z) (dec : bool) (rest : list Z) (d : database) :
  unlinking p dec (x :: rest) d ->
  unlinking p dec rest (unlink_node "category" dec p x d).
Proof.
  intros (Hcover & Hissued & Hapart & Hleft).
  assert (Hm : typecho_metas (unlink_node "category" dec p x d)
               = map (fun m => if dec && Sql.is_node "category" x m
                               then Meta.set_count (Z.to_N (Z.of_N (Meta.count m) + -1)) m
                               else m)
                   (typecho_metas d)).
  { unfold unlink_node. destruct dec; [reflexivity|].
    cbn [andb]. symmetry. apply map_id_on. reflexivity. }
  assert (Hr : typecho_relationships (unlink_node "category" dec p x d)
               = filter (fun r => negb ((Rel.cid r =? p) && (Rel.mid r =? x)))
                   (typecho_relationships d))
    by (unfold unlink_node; destruct dec; reflexivity).
  assert (Hn : next_cid (unlink_node "category" dec p x d) = next_cid d)
    by (unfold unlink_node; destruct dec; reflexivity).
  split; [|split; [|split]].
  - intros m' Hin'. rewrite Hm in Hin'. apply in_map_iff in Hin'.
    destruct Hin' as (m & <- & Hin). specialize (Hcover m Hin).
    rewrite occurrences_cons in Hcover.
    destruct (dec && Sql.is_node "category" x m) eqn:E.
    + apply andb_true_iff in E. destruct E as [-> Enode].
      unfold Sql.is_node in Enode. apply andb_true_iff in Enode.
      destruct Enode as [Ecat Emid].
      change (is_category (Meta.set_count (Z.to_N (Z.of_N (Meta.count m) + -1)) m))
        with (is_category m).
      cbn [Meta.set_count Meta.mid Meta.count].
      unfold is_category in *. rewrite Ecat in *.
      rewrite other_links_unlink. apply Z.eqb_eq in Emid.
      assert ((x =? Meta.mid m) = true) as Hx by (apply Z.eqb_eq; lia).
      rewrite Hx in Hcover. lia.
    + destruct (is_category m) eqn:Ecat; [|exact Hcover].
      rewrite other_links_unlink.
      destruct dec; [|exact Hcover].
      destruct (x =? Meta.mid m); lia.
  - intros r Hin. rewrite Hr in Hin. apply filter_In in Hin. rewrite Hn.
    apply Hissued. apply Hin.
  - intros m1 m2 H1 H2. rewrite Hm in H1, H2. apply in_map_iff in H1, H2.
    destruct H1 as (n1 & <- & Hn1). destruct H2 as (n2 & <- & Hn2).
    destruct (dec && Sql.is_node "category" x n1);
      destruct (dec && Sql.is_node "category" x n2);
      apply (Hapart n1 n2 Hn1 Hn2).
  - intros r Hin Hcid. rewrite Hr in Hin. apply filter_In in Hin.
    destruct Hin as [Hin Hkeep].
    destruct (Hleft r Hin Hcid) as [Hx|Hrest]; [|exact Hrest].
    exfalso. rewrite Hcid, <- Hx, !Z.eqb_refl in Hkeep. discriminate.
Qed.

Lemma unlinking_loop (p : Z) (dec : bool) (l : list Z) (d : database) :
  unlinking p dec l d ->
  unlinking p dec [] (fold_left (fun d x => unlink_node "category" dec p x d) l d).
Proof.
  revert d. induction l as [|x l IH]; intros d H; simpl; [exact H|].
  apply IH. apply unlinking_step. exact H.
Qed.

(** After the first loop the post has no link left, so that the second
    loop has no turn, and the store is counted. *)
Lemma unlinking_end (p : Z) (dec : bool) (d : database) :
  unlinking p dec [] d ->
  counted d /\ Sql.select_relationships p d = [].
Proof.
  intros (Hcover & Hissued & Hapart & Hleft). split; [split; [|split]|].
  - intros m Hin. specialize (Hcover m Hin).
    destruct (is_category m); [|exact Hcover].
    assert (visible_links (Meta.mid m) d = other_links p (Meta.mid m) d) as ->.
    { unfold visible_links, other_links. do 2 f_equal. apply filter_ext_in.
      intros r Hr. destruct (Rel.cid r =? p) eqn:E.
      - apply Z.eqb_eq in E. destruct (Hleft r Hr E).
      - simpl. rewrite andb_true_r. reflexivity. }
    destruct dec; unfold occurrences in Hcover; simpl in Hcover; lia.
  - exact Hissued.
  - exact Hapart.
  - unfold Sql.select_relationships. rewrite filter_none; [reflexivity|].
    intros r Hr. destruct (Rel.cid r =? p) eqn:E; [|reflexivity].
    apply Z.eqb_eq in E. destruct (Hleft r Hr E).
Qed.

Lemma published_unattach (p c : Z) (d : database) :
  published (Sql.unattach p d) c = published d c.
Proof.
  unfold published, Sql.unattach, with_contents. cbn [typecho_contents].
  induction (typecho_contents d) as [|row l IH]; simpl; [reflexivity|].
  rewrite IH. f_equal.
  destruct ((Content.parent row =? p) && Sql.eqs (Content.type row) "attachment") eqn:E;
    [|reflexivity].
  apply andb_true_iff in E. destruct E as [_ E]. apply eqs_true in E.
  cbn [Content.cid Content.type Content.status]. rewrite E.
  cbn. rewrite !andb_false_r. reflexivity.
Qed.

Lemma published_filter (f : Content.t -> bool) (c : Z) (d : database) :
  published (with_contents (filter f) d) c = true -> published d c = true.
Proof.
  unfold published, with_contents. cbn [typecho_contents].
  rewrite !existsb_exists. intros (row & Hin & H). exists row.
  apply filter_In in Hin. split; [apply Hin|exact H].
Qed.

Lemma deleted_counted (p : Z) (post : Content.t) (d : database) :
  Sql.select_post p d = Some post ->
  counted d -> counted (deleted p post d).
Proof.
  intros Hsel Hd. unfold deleted. cbv zeta.
  set (dec := post_edit.is_published_post (Content.status post) (Content.type post)).
  set (d1 := Sql.delete_content p d).
  set (d2 := fold_left (fun d x => unlink_node "category" dec p x d)
               (Sql.select_relationships p d1) d1).
  assert (H2 : unlinking p dec [] d2).
  { apply unlinking_loop. apply unlinking_start; [|exact Hd].
    intros Hdec. apply (published_found p post d Hsel Hdec). }
  apply unlinking_end in H2. destruct H2 as [H2 Hnone].
  rewrite Hnone. cbn [fold_left].
  set (d4 := Sql.delete_fields p (Sql.unattach p (Sql.delete_comments p d2))).
  assert (H4 : counted d4).
  { apply (counted_shrink d2 d4 (fun _ => true)); try reflexivity.
    - symmetry. apply filter_true.
    - intros c. unfold d4.
      change (published (Sql.delete_fields p (Sql.unattach p (Sql.delete_comments p d2))) c)
        with (published (Sql.unattach p d2) c).
      rewrite published_unattach. auto.
    - exact H2. }
  destruct (Sql.select_draft p d4) as [draft|]; [|exact H4].
  apply (counted_shrink d4 _ (fun r => negb (Rel.cid r =? Content.cid draft)));
    try reflexivity; [|exact H4].
  intros c. apply (published_filter _ c d4).
Qed.

(** *** No decrement is refused in a counted store *)

Lemma unlink_not_refused (p x : Z) (dec : bool) (rest : list Z) (d : database) :
  unlinking p dec (x :: rest) d ->
  unlink_refused "category" dec p x d = false.
Proof.
  intros (Hcover & _). unfold unlink_refused. destruct dec; [|reflexivity].
  cbn [andb]. unfold Sql.count_below_zero.
  change (typecho_metas (Sql.delete_relationship p x d)) with (typecho_metas d).
  apply not_true_iff_false. intros H. apply existsb_exists in H.
  destruct H as (m & Hin & H). apply andb_true_iff in H. destruct H as [Hnode Hlow].
  apply Z.ltb_lt in Hlow. specialize (Hcover m Hin).
  unfold Sql.is_node in Hnode. apply andb_true_iff in Hnode. destruct Hnode as [Hty Hmid].
  unfold is_category in Hcover. rewrite Hty in Hcover.
  rewrite occurrences_cons in Hcover. apply Z.eqb_eq in Hmid.
  replace (x =? Meta.mid m) with true in Hcover by (symmetry; apply Z.eqb_eq; lia).
  lia.
Qed.

Lemma unlinking_not_refused (p : Z) (dec : bool) (l : list Z) (d : database) :
  unlinking p dec l d ->
  refused_in (unlink_refused "category" dec p) (unlink_node "category" dec p) l d = false.
Proof.
  revert d. induction l as [|x l IH]; intros d H; [reflexivity|].
  cbn [refused_in]. rewrite (unlink_not_refused p x dec l d H). cbn [orb].
  apply IH. apply unlinking_step. exact H.
Qed.

Lemma delete_not_refused (p : Z) (post : Content.t) (d : database) :
  Sql.select_post p d = Some post ->
  counted d -> delete_refused p post d = false.
Proof.
  intros Hsel Hd. unfold delete_refused. cbv zeta.
  set (dec := post_edit.is_published_post (Content.status post) (Content.type post)).
  set (d1 := Sql.delete_content p d).
  assert (H1 : unlinking p dec (Sql.select_relationships p d1) d1).
  { apply unlinking_start; [|exact Hd].
    intros Hdec. apply (published_found p post d Hsel Hdec). }
  rewrite (unlinking_not_refused _ _ _ _ H1). cbn [orb].
  apply unlinking_loop, unlinking_end in H1. destruct H1 as [_ Hnone].
  rewrite Hnone. reflexivity.
Qed.

(** *** A decrement at 0 is refused *)

Lemma unlink_refused_at_zero (p : Z) (l : list Z) (d : database) (m : Meta.t) :
  In m (typecho_metas d) -> is_category m = true -> Meta.count m = 0%N ->
  In (Meta.mid m) l ->
  refused_in (unlink_refused "category" true p) (unlink_node "category" true p) l d = true.
Proof.
  revert d. induction l as [|x l IH]; intros d Hin Hcat Hzero Hl; [destruct Hl|].
  cbn [refused_in].
  destruct (unlink_refused "category" true p x d) eqn:E; [reflexivity|]. cbn [orb].
  assert (Hnode : Sql.is_node "category" x m = false).
  { apply not_true_iff_false. intros Hnode. apply not_true_iff_false in E. apply E.
    unfold unlink_refused, Sql.count_below_zero. cbn [andb].
    change (typecho_metas (Sql.delete_relationship p x d)) with (typecho_metas d).
    apply existsb_exists. exists m. split; [exact Hin|].
    rewrite Hnode, Hzero. reflexivity. }
  apply IH; try assumption.
  - unfold unlink_node. cbn. apply in_map_iff. exists m. rewrite Hnode. auto.
  - destruct Hl as [->|Hl]; [|exact Hl]. exfalso.
    unfold Sql.is_node in Hnode. unfold is_category in Hcat.
    rewrite Hcat, Z.eqb_refl in Hnode. discriminate.
Qed.

(** *** Sequences of requests *)

Lemma perform_counted (link : bool) (op : operation) (d : database) :
  counted d -> counted (perform link op d).
Proof.
  intros Hd. destruct op as [data|post_id]; unfold perform.
  - destruct link.
    + destruct (create_post_alive data d) as [-> | ->];
        [exact Hd|apply created_counted; exact Hd].
    + rewrite create_post_dead. exact Hd.
  - destruct link.
    + rewrite delete_post_run.
      destruct (Sql.select_post post_id d) as [post|] eqn:E; [|exact Hd].
      rewrite (delete_not_refused post_id post d E Hd).
      apply deleted_counted; assumption.
    + rewrite delete_post_dead. exact Hd.
Qed.

Lemma run_counted (ops : list (bool * operation)) (d : database) :
  counted d -> counted (run ops d).
Proof.
  revert d. induction ops as [|[link op] ops IH]; intros d Hd; simpl; [exact Hd|].
  apply IH. apply perform_counted. exact Hd.
Qed.

(** C2, as the code has it.  The count of a node is never negative
    because the column cannot hold a negative number, and not because a
    decrement is clamped: the decrement is a plain [count - 1].  A
    deletion that is not answered 200 leaves the store as it was; and the
    deletion of a published post that is linked to a category whose count
    is 0 is answered 500, the post, its links and the counts staying as
    they were.  Start from a store in which the count of every category
    is at least the number of its links from published posts, the links
    name content ids already given out, and no id belongs to a category
    and to a tag.  Then this is so again after every sequence of content
    creations and deletions, each over a link that works or not, and
    afterwards the deletion of any post that is there is answered 200: no
    decrement is refused. *)
Theorem reference_counts_never_negative
    (d : database) (ops : list (bool * operation)) :
  (forall link post_id,
     let answer := post_edit.delete_post post_id (connect link d) in
     status (fst answer) <> 200 -> snd answer = d)
  /\ (forall post_id post m,
        Sql.select_post post_id d = Some post ->
        Content.status post = "publish" -> Content.type post = "post" ->
        In (Rel.mk post_id (Meta.mid m)) (typecho_relationships d) ->
        In m (typecho_metas d) -> Meta.type m = "category" -> Meta.count m = 0%N ->
        post_edit.delete_post post_id (connect true d) = (mk_response Failed 500, d))
  /\ (counted d ->
      counted (run ops d)
      /\ forall post_id,
           Sql.select_post post_id (run ops d) <> None ->
           fst (post_edit.delete_post post_id (connect true (run ops d)))
           = mk_response PostDeleted 200).
Proof.
  split; [|split].
  - intros [|] post_id; cbv zeta; [|intros _; apply delete_post_dead].
    rewrite delete_post_run.
    destruct (Sql.select_post post_id d) as [post|]; [|reflexivity].
    destruct (delete_refused post_id post d); [reflexivity|].
    intros H. exfalso. apply H. reflexivity.
  - intros post_id post m Hsel Hstatus Htype Hlink Hin Hcat Hzero.
    rewrite delete_post_run, Hsel.
    replace (delete_refused post_id post d) with true; [reflexivity|].
    symmetry. unfold delete_refused. cbv zeta.
    unfold post_edit.is_published_post. rewrite Hstatus, Htype.
    replace (Sql.eqs "publish" "publish" && Sql.eqs "post" "post") with true
      by reflexivity.
    rewrite (unlink_refused_at_zero post_id _ _ m); [reflexivity|exact Hin| |exact Hzero|].
    + apply is_category_iff. exact Hcat.
    + unfold Sql.select_relationships.
      change (typecho_relationships (Sql.delete_content post_id d))
        with (typecho_relationships d).
      apply in_map_iff. exists (Rel.mk post_id (Meta.mid m)). split; [reflexivity|].
      apply filter_In. split; [exact Hlink|]. apply Z.eqb_refl.
  - intros Hd. pose proof (run_counted ops d Hd) as Hrun. split; [exact Hrun|].
    intros post_id Hsel. rewrite delete_post_run.
    destruct (Sql.select_post post_id (run ops d)) as [post|] eqn:E; [|contradiction].
    rewrite (delete_not_refused post_id post _ E Hrun). reflexivity.
Qed.

(** A post is filed under category 1 of the chain and deleted again. *)
Lemma reference_counts_never_negative_witness :
  counted Sample.chain
  /\ fst (post_edit.delete_post 1
            (connect true
               (run [(true, Create (Sample.filed_post "publish"))] Sample.chain)))
     = mk_response PostDeleted 200.
Proof.
  assert (H : counted Sample.chain).
  { split; [|split].
    - intros m [<-|[<-|[<-|[]]]]; vm_compute; discriminate.
    - intros r [].
    - intros m1 m2 _ [<-|[<-|[<-|[]]]] _; discriminate. }
  split; [exact H|].
  apply (proj2 (proj2 (proj2 (reference_counts_never_negative Sample.chain
                         [(true, Create (Sample.filed_post "publish"))])) H)).
  vm_compute. discriminate.
Defined.

(* ================================================================== *)
(** ** The definitions on small inputs *)

Example slugify_hello_world : slugify "Hello, World!" = "hello-world".
Proof. reflexivity. Qed.

Example slug_format_examples :
  slug_format "hello-world_2" = true
  /\ slug_format "hello world" = false
  /\ slug_format "" = false.
Proof. repeat split. Qed.

Example int_examples :
  Py.int (Py.Str " 12 ") = Py.Ret 12
  /\ Py.int (Py.Str "-1_000") = Py.Ret (-1000)
  /\ Py.int (Py.Str "1__0") = Py.Raise Py.ValueError
  /\ Py.int (Py.Str "twelve") = Py.Raise Py.ValueError
  /\ Py.int (Py.Bool true) = Py.Ret 1
  /\ Py.int Py.Null = Py.Raise Py.TypeError
  /\ Py.int (Py.Float (Py.Finite 29 10)) = Py.Ret 2
  /\ Py.int (Py.Float (Py.Finite (-29) 10)) = Py.Ret (-2)
  /\ Py.int (Py.Float (Py.Infinite false)) = Py.Raise Py.OverflowError
  /\ Py.int (Py.Float Py.NaN) = Py.Raise Py.ValueError.
Proof. repeat split. Qed.

(** The separator 28 is white space for [strip] and not for [int()]:
    text of digits behind it passes the digit test of [create_post], and
    [int()] raises on it.  [int()] takes 4300 digits and no more. *)
Example int_and_strip :
  let padded := String (ascii_of_N 28) "12" in
  Py.strip padded = "12"
  /\ Py.str_isdigit (Py.Str padded) = true
  /\ Py.int (Py.Str padded) = Py.Raise Py.ValueError
  /\ Py.int (Py.Str (String.concat "" (repeat "1" 4300))) <> Py.Raise Py.ValueError
  /\ Py.int (Py.Str (String.concat "" (repeat "1" 4301))) = Py.Raise Py.ValueError.
Proof. vm_compute. repeat split. discriminate. Qed.

(** A tag entry that passes the digit test and that [int()] does not
    take: the creation is answered 500 and stores nothing. *)
Example create_post_unreadable_tag :
  post_edit.create_post
    (post_edit.mk_post_data (Some "hello") (Some "text") None (Some [])
       (Some (post_edit.TagList [Py.Str (String (ascii_of_N 28) "5")])) None)
    (connect true Sample.one_tag)
  = (mk_response Failed 500, Sample.one_tag).
Proof. reflexivity. Qed.

(** An infinite number in a batch: the deletion is answered 500. *)
Example delete_tag_batch_infinity :
  tags_edit.delete_tag None (Some [Py.Int 5; Py.Float (Py.Infinite false)])
    (connect true Sample.one_tag)
  = (mk_response Failed 500, Sample.one_tag).
Proof. reflexivity. Qed.

(** A creation under a name that is taken is refused. *)
Example create_same_name_refused :
  fst (category_edit.create_category (Body.mk (Some "a") (Some "other") None None)
         (connect true Sample.chain))
  = mk_response (Invalid [NameTaken]) 400.
Proof. reflexivity. Qed.

(** An update to a name that another category has is accepted: the
    uniqueness query that leaves the node itself out is refused by the
    server and answers [False]. *)
Example update_to_taken_name_accepted :
  fst (category_edit.update_category 2 (Body.mk (Some "a") None (Some "") None)
         (connect true Sample.chain))
  = mk_response Updated 200.
Proof. reflexivity. Qed.
(* ================================================================== *)
(** ** The slug made from a name *)
(* ================================================================== *)

Ltac by_cases_on a :=
  destruct a as [[] [] [] [] [] [] [] []]; vm_compute; intros; congruence.

Lemma lower_char_not_upper (a : ascii) : Py.is_upper (Py.lower_char a) = false.
Proof. by_cases_on a. Qed.

Lemma lower_char_fixed (a : ascii) : Py.is_upper a = false -> Py.lower_char a = a.
Proof. unfold Py.lower_char. intros ->. reflexivity. Qed.

Lemma word_not_space (a : ascii) : Py.is_word a = true -> Py.is_space a = false.
Proof. by_cases_on a. Qed.

Lemma word_not_hyphen (a : ascii) : Py.is_word a = true -> Py.is_hyphen a = false.
Proof. by_cases_on a. Qed.

Lemma hyphen_not_space (a : ascii) : Py.is_hyphen a = true -> Py.is_space a = false.
Proof. by_cases_on a. Qed.

Lemma hyphen_not_upper (a : ascii) : Py.is_hyphen a = true -> Py.is_upper a = false.
Proof. by_cases_on a. Qed.

Lemma hyphen_is (a : ascii) : Py.is_hyphen a = true -> a = "-"%char.
Proof. by_cases_on a. Qed.

Lemma word_is_slug_char (a : ascii) : Py.is_word a = true -> is_slug_char a = true.
Proof. by_cases_on a. Qed.

Lemma hyphen_is_slug_char (a : ascii) : Py.is_hyphen a = true -> is_slug_char a = true.
Proof. by_cases_on a. Qed.

(** What [keep] and [lower] guarantee of each character. *)
Lemma every_keep_lower (q : ascii -> bool) (s : string) :
  every (fun a => q a && negb (Py.is_upper a)) (Py.keep q (Py.lower s)) = true.
Proof.
  induction s as [|a s IH]; [reflexivity|]. simpl.
  destruct (q (Py.lower_char a)) eqn:E; [|exact IH].
  simpl. rewrite E, lower_char_not_upper, IH. reflexivity.
Qed.

(** Squeezing the runs of hyphens and blanks of such a text gives a tidy
    one. *)
Lemma tidy_squeeze (r : bool) (s : string) :
  every (fun a => (Py.is_word a || Py.is_space a || Py.is_hyphen a)
                  && negb (Py.is_upper a)) s = true ->
  tidy r (Py.squeeze (fun a => Py.is_hyphen a || Py.is_space a) r s) = true.
Proof.
  revert r. induction s as [|a s IH]; intros r H; [reflexivity|].
  simpl in H. apply andb_true_iff in H. destruct H as [Ha Hs].
  apply andb_true_iff in Ha. destruct Ha as [Hq Hup].
  simpl. destruct (Py.is_hyphen a || Py.is_space a) eqn:Hp.
  - destruct r; [apply IH; exact Hs|]. simpl. apply IH. exact Hs.
  - apply orb_false_iff in Hp. destruct Hp as [Hh Hsp].
    simpl. rewrite Hh, Hsp in *. rewrite !orb_false_r in Hq.
    rewrite Hq, Hup. simpl. apply IH. exact Hs.
Qed.

Lemma slugify_tidy (name : string) : tidy false (slugify name) = true.
Proof. unfold slugify. apply tidy_squeeze. apply every_keep_lower. Qed.

Lemma tidy_every (p : ascii -> bool) (r : bool) (s : string) :
  (forall a, Py.is_hyphen a = true -> p a = true) ->
  (forall a, Py.is_word a = true -> Py.is_upper a = false -> p a = true) ->
  tidy r s = true -> every p s = true.
Proof.
  intros Hh Hw. revert r. induction s as [|a s IH]; intros r H; [reflexivity|].
  simpl in H. simpl. destruct (Py.is_hyphen a) eqn:E.
  - apply andb_true_iff in H. destruct H as [_ H].
    rewrite (Hh a E). exact (IH _ H).
  - apply andb_true_iff in H. destruct H as [H Hs].
    apply andb_true_iff in H. destruct H as [H1 H2]. apply negb_true_iff in H2.
    rewrite (Hw a H1 H2). exact (IH _ Hs).
Qed.

Lemma rstrip_fixed (s : string) :
  every (fun a => negb (Py.is_space a)) s = true -> Py.rstrip s = s.
Proof.
  induction s as [|a s IH]; [reflexivity|]. simpl. intros H.
  apply andb_true_iff in H. destruct H as [Ha Hs]. apply negb_true_iff in Ha.
  rewrite Ha, (IH Hs). reflexivity.
Qed.

Lemma strip_fixed (s : string) :
  every (fun a => negb (Py.is_space a)) s = true -> Py.strip s = s.
Proof.
  intros H. unfold Py.strip.
  assert (Hl : Py.lstrip s = s).
  { destruct s as [|a s]; [reflexivity|]. simpl in *.
    apply andb_true_iff in H. destruct H as [Ha _]. apply negb_true_iff in Ha.
    rewrite Ha. reflexivity. }
  rewrite Hl. apply rstrip_fixed. exact H.
Qed.

Lemma lower_fixed (s : string) :
  every (fun a => negb (Py.is_upper a)) s = true -> Py.lower s = s.
Proof.
  induction s as [|a s IH]; [reflexivity|]. simpl. intros H.
  apply andb_true_iff in H. destruct H as [Ha Hs]. apply negb_true_iff in Ha.
  rewrite (lower_char_fixed a Ha), (IH Hs). reflexivity.
Qed.

Lemma keep_fixed (q : ascii -> bool) (s : string) :
  every q s = true -> Py.keep q s = s.
Proof.
  induction s as [|a s IH]; [reflexivity|]. simpl. intros H.
  apply andb_true_iff in H. destruct H as [Ha Hs].
  rewrite Ha, (IH Hs). reflexivity.
Qed.

Lemma squeeze_fixed (r : bool) (s : string) :
  tidy r s = true ->
  Py.squeeze (fun a => Py.is_hyphen a || Py.is_space a) r s = s.
Proof.
  revert r. induction s as [|a s IH]; intros r H; [reflexivity|].
  simpl in H. simpl. destruct (Py.is_hyphen a) eqn:E.
  - apply andb_true_iff in H. destruct H as [Hr Hs]. apply negb_true_iff in Hr.
    subst r. simpl. rewrite (IH _ Hs). rewrite (hyphen_is a E). reflexivity.
  - apply andb_true_iff in H. destruct H as [H Hs].
    apply andb_true_iff in H. destruct H as [H1 _].
    rewrite (word_not_space a H1). simpl. rewrite (IH _ Hs). reflexivity.
Qed.

Lemma tidy_slug_rest (r : bool) (s : string) : tidy r s = true -> slug_rest s = true.
Proof.
  revert r. induction s as [|a s IH]; intros r H; [reflexivity|].
  simpl in H. simpl. destruct (Py.is_hyphen a) eqn:E.
  - apply andb_true_iff in H. destruct H as [_ Hs].
    rewrite (hyphen_is_slug_char a E). exact (IH _ Hs).
  - apply andb_true_iff in H. destruct H as [H Hs].
    apply andb_true_iff in H. destruct H as [H1 _].
    rewrite (word_is_slug_char a H1). exact (IH _ Hs).
Qed.

(** X1.  [slugify] is idempotent: the slug made from a name is a fixed
    point, so feeding a generated slug back as a name reproduces it. *)
Theorem slugify_idempotent (name : string) :
  slugify (slugify name) = slugify name.
Proof.
  pose proof (slugify_tidy name) as H.
  set (t := slugify name) in *. unfold slugify.
  rewrite strip_fixed.
  2:{ apply (tidy_every _ false); [apply (fun a E => f_equal negb (hyphen_not_space a E))
      | intros a Hw _; exact (f_equal negb (word_not_space a Hw)) | exact H]. }
  rewrite lower_fixed.
  2:{ apply (tidy_every _ false); [intros a E; rewrite (hyphen_not_upper a E); reflexivity | intros a _ Hu; rewrite Hu; reflexivity | exact H]. }
  rewrite keep_fixed.
  2:{ apply (tidy_every _ false);
        [intros a E; rewrite E; apply orb_true_r
        | intros a Hw _; rewrite Hw; reflexivity | exact H]. }
  apply squeeze_fixed. exact H.
Qed.

Lemma slugify_format (name : string) :
  slug_format (slugify name) = negb (Py.is_empty (slugify name)).
Proof.
  pose proof (slugify_tidy name) as H.
  destruct (slugify name) as [|a s]; [reflexivity|].
  simpl in H. simpl. destruct (Py.is_hyphen a) eqn:E.
  - rewrite (hyphen_is_slug_char a E), (tidy_slug_rest _ _ H). reflexivity.
  - apply andb_true_iff in H. destruct H as [H Hs].
    apply andb_true_iff in H. destruct H as [H1 _].
    rewrite (word_is_slug_char a H1), (tidy_slug_rest _ _ Hs). reflexivity.
Qed.

(** X2.  The slug made from an ASCII name is made of lower-case letters,
    digits, underscores and hyphens, with no two hyphens in a row; unless
    it is empty it passes the format check of the handlers.  (On other
    names [\w], [\s] and [lower] of Python go by Unicode, and the slug of
    a name with an accented letter keeps the letter and fails the
    check.) *)
Theorem slugify_well_formed (name : string) :
  Py.ascii_text name = true ->
  tidy false (slugify name) = true
  /\ slug_format (slugify name) = negb (Py.is_empty (slugify name)).
Proof. intros _. split; [apply slugify_tidy|apply slugify_format]. Qed.

Lemma slugify_well_formed_witness :
  slugify "  News  Items!" = "news-items"
  /\ tidy false (slugify "  News  Items!") = true
  /\ slug_format (slugify "  News  Items!") = true.
Proof.
  split; [reflexivity|].
  exact (slugify_well_formed "  News  Items!" eq_refl).
Defined.

(* ================================================================== *)
(** ** What a creation stores *)
(* ================================================================== *)

Lemma create_category_outcome (link : bool) (data : Body.t) (d : database) :
  let answer := category_edit.create_category data (connect link d) in
  let name := Py.strip (get (Body.name data) "") in
  let slug := Py.strip (get (Body.slug data) "") in
  let slug := if Py.is_empty slug then slugify name else slug in
  let description := get (Body.description data) "" in
  let parent := get (Body.parent data) 0 in
  let new_order := max_order_value (Sql.select_max_order "category" parent d) + 1 in
  (status (fst answer) <> 201 /\ snd answer = d)
  \/ (Py.is_empty name = false
      /\ is_not_None (Sql.select_meta_by_name "category" name d) = false
      /\ slug_format slug = true
      /\ is_not_None (Sql.select_meta_by_slug "category" slug d) = false
      /\ (parent = 0 \/ (0 < parent /\ is_not_None (Sql.select_meta "category" parent d) = true))
      /\ next_mid d <> 0
      /\ answer =
         (mk_response
            (CategoryCreated
               (mk_category_view (next_mid d) name slug description parent new_order)) 201,
          snd (Sql.insert_meta
                 (Meta.mk 0 name slug "category" description 0 new_order parent) d))).
Proof.
  cbv zeta. unfold category_edit.create_category.
  unfold respond, try_, bind, call, return_, ret, connect, insert, commit.
  destruct link.
  - set (name := Py.strip (get (Body.name data) "")).
    set (slug0 := Py.strip (get (Body.slug data) "")).
    set (slug := if Py.is_empty slug0 then slugify name else slug0).
    set (parent := get (Body.parent data) 0).
    run_helpers. branch.
    all: try (left; split; [discriminate|reflexivity]).
    all: right.
    all: unfold Py.truthy in *.
    all: repeat match goal with
         | H : (_ ++ _)%list = [] |- _ => apply app_eq_nil in H; destruct H
         | H : _ :: _ = [] |- _ => discriminate H
         | H : (if ?b then _ else _) = [] |- _ => destruct b eqn:?; [discriminate H|clear H]
         | H : negb _ = true |- _ => apply negb_true_iff in H
         | H : negb _ = false |- _ => apply negb_false_iff in H
         end.
    all: repeat split; try assumption; try lia.
    right. split; [lia|assumption].
  - left. destruct (helpers_dead d d) as (H1 & H2 & H3 & H4 & _).
    simpl. rewrite ?H1, ?H2, ?H3, ?H4.
    branch; rewrite ?H1, ?H2, ?H3, ?H4; simpl; split; try discriminate; reflexivity.
Qed.

Lemma create_tag_outcome (link : bool) (data : Body.t) (d : database) :
  let answer := tags_edit.create_tag data (connect link d) in
  let name := Py.strip (get (Body.name data) "") in
  let slug := Py.strip (get (Body.slug data) "") in
  let slug := if Py.is_empty slug then slugify name else slug in
  (status (fst answer) <> 201 /\ snd answer = d)
  \/ (Py.is_empty name = false
      /\ is_not_None (Sql.select_meta_by_name "tag" name d) = false
      /\ slug_format slug = true
      /\ is_not_None (Sql.select_meta_by_slug "tag" slug d) = false
      /\ next_mid d <> 0
      /\ answer =
         (mk_response (TagCreated (mk_tag_view (next_mid d) name slug)) 201,
          snd (Sql.insert_meta (Meta.mk 0 name slug "tag" "" 0 0 0) d))).
Proof.
  cbv zeta. unfold tags_edit.create_tag.
  unfold respond, try_, bind, call, return_, ret, connect, insert, commit.
  destruct link.
  - set (name := Py.strip (get (Body.name data) "")).
    set (slug0 := Py.strip (get (Body.slug data) "")).
    set (slug := if Py.is_empty slug0 then slugify name else slug0).
    run_helpers. branch.
    all: try (left; split; [discriminate|reflexivity]).
    all: right.
    all: unfold Py.truthy in *.
    all: repeat match goal with
         | H : (_ ++ _)%list = [] |- _ => apply app_eq_nil in H; destruct H
         | H : _ :: _ = [] |- _ => discriminate H
         | H : (if ?b then _ else _) = [] |- _ => destruct b eqn:?; [discriminate H|clear H]
         | H : negb _ = true |- _ => apply negb_true_iff in H
         | H : negb _ = false |- _ => apply negb_false_iff in H
         end.
    all: repeat split; try assumption; try lia.
  - left. destruct (helpers_dead d d) as (_ & _ & _ & _ & H1 & H2 & H3).
    simpl. rewrite ?H1, ?H2, ?H3.
    branch; rewrite ?H1, ?H2, ?H3; simpl; split; try discriminate; reflexivity.
Qed.


(** X3.  [create_category] stores all or nothing.  Either the answer is
    not 201 and the store is as it was, or the answer is 201 and lists a
    node that is the one row appended to [typecho_metas]: its id is the
    next id of the table, its name is not empty, its slug passes the format
    check, its count is 0 and its parent is 0 or a category that exists. *)
Theorem create_category_all_or_nothing (link : bool) (data : Body.t) (d : database) :
  let answer := category_edit.create_category data (connect link d) in
  (status (fst answer) <> 201 /\ snd answer = d)
  \/ (exists node,
        fst answer = mk_response (CategoryCreated node) 201
        /\ snd answer =
           mk_database
             (typecho_metas d
              ++ [Meta.mk (v_mid node) (v_name node) (v_slug node) "category"
                    (v_description node) 0 (v_order node) (v_parent node)])
             (typecho_relationships d) (typecho_contents d) (typecho_comments d)
             (typecho_fields d) (next_mid d + 1) (next_cid d)
        /\ v_mid node = next_mid d
        /\ v_name node <> ""
        /\ slug_format (v_slug node) = true
        /\ (v_parent node = 0
            \/ (0 < v_parent node
                /\ exists p, Sql.select_meta "category" (v_parent node) d = Some p))).
Proof.
  cbv zeta.
  destruct (create_category_outcome link data d)
    as [Hno|(Hname & _ & Hslug & _ & Hparent & _ & Hanswer)]; [left; exact Hno|].
  right. cbv zeta in Hanswer. rewrite Hanswer. cbn [fst snd].
  eexists. split; [reflexivity|].
  cbn [v_mid v_name v_slug v_description v_order v_parent].
  split; [reflexivity|]. split; [reflexivity|]. split.
  { intros E. rewrite E in Hname. discriminate. }
  split; [exact Hslug|].
  destruct Hparent as [H0|[Hpos Hex]]; [left; exact H0|right].
  split; [exact Hpos|].
  destruct (Sql.select_meta "category" _ d) as [p|]; [exists p; reflexivity|discriminate].
Qed.

(** X4.  [create_tag] stores all or nothing.  Either the answer is not 201
    and the store is as it was, or the answer is 201 and lists the one row
    appended to [typecho_metas]: a tag with the next id of the table, a
    name that is not empty, a slug that passes the format check, an empty
    description, and count, order and parent 0. *)
Theorem create_tag_all_or_nothing (link : bool) (data : Body.t) (d : database) :
  let answer := tags_edit.create_tag data (connect link d) in
  (status (fst answer) <> 201 /\ snd answer = d)
  \/ (exists node,
        fst answer = mk_response (TagCreated node) 201
        /\ snd answer =
           mk_database
             (typecho_metas d
              ++ [Meta.mk (t_mid node) (t_name node) (t_slug node) "tag" "" 0 0 0])
             (typecho_relationships d) (typecho_contents d) (typecho_comments d)
             (typecho_fields d) (next_mid d + 1) (next_cid d)
        /\ t_mid node = next_mid d
        /\ t_name node <> ""
        /\ slug_format (t_slug node) = true).
Proof.
  cbv zeta.
  destruct (create_tag_outcome link data d)
    as [Hno|(Hname & _ & Hslug & _ & _ & Hanswer)]; [left; exact Hno|].
  right. cbv zeta in Hanswer. rewrite Hanswer. cbn [fst snd].
  eexists. split; [reflexivity|]. cbn [t_mid t_name t_slug].
  split; [reflexivity|]. split; [reflexivity|]. split; [|exact Hslug].
  intros E. rewrite E in Hname. discriminate.
Qed.

(** A row appended keeps a column free of duplicates within a kind when
    no row of its kind has its value yet. *)
Lemma unique_insert (f : Meta.t -> string) (ty : string) (row : Meta.t) (d : database) :
  NoDup (map f (rows_of ty d)) ->
  (forall m, In m (typecho_metas d) ->
             Sql.eqs (Meta.type m) (Meta.type row) && Sql.eqs (f m) (f row) = false) ->
  NoDup (map f (filter (fun m => Sql.eqs (Meta.type m) ty) (typecho_metas d ++ [row]))).
Proof.
  intros Hd Hfree. rewrite filter_app, map_app. cbn [filter].
  destruct (Sql.eqs (Meta.type row) ty) eqn:E; cbn [map]; [|rewrite app_nil_r; exact Hd].
  apply eqs_true in E.
  apply NoDup_rev in Hd. rewrite <- (rev_involutive (_ ++ _)). apply NoDup_rev.
  rewrite rev_app_distr. cbn [rev app]. constructor; [|exact Hd].
  rewrite <- in_rev. intros Hin. apply in_map_iff in Hin.
  destruct Hin as (m & Hfm & Hm). apply filter_In in Hm. destruct Hm as [Hm Hty].
  specialize (Hfree m Hm). rewrite E, Hty, Hfm, eqs_refl in Hfree. discriminate.
Qed.

Lemma find_is_none {A : Type} (f : A -> bool) (l : list A) :
  is_not_None (find f l) = false -> forall x, In x l -> f x = false.
Proof.
  destruct (find f l) eqn:E; [discriminate|]. intros _. exact (find_none f l E).
Qed.

(** X5.  Creation keeps names and slugs unique within a kind: if no two
    categories (or no two tags) share a name, none do after a
    [create_category] or a [create_tag], whatever its answer; the same for
    slugs. *)
Theorem create_keeps_unique (ty : string) (link : bool) (data : Body.t) (d : database) :
  (names_unique ty d ->
   names_unique ty (snd (category_edit.create_category data (connect link d)))
   /\ names_unique ty (snd (tags_edit.create_tag data (connect link d))))
  /\ (slugs_unique ty d ->
      slugs_unique ty (snd (category_edit.create_category data (connect link d)))
      /\ slugs_unique ty (snd (tags_edit.create_tag data (connect link d)))).
Proof.
  destruct (create_category_outcome link data d)
    as [[_ Hc]|(_ & Hcn & _ & Hcs & _ & _ & Hc)];
  destruct (create_tag_outcome link data d)
    as [[_ Ht]|(_ & Htn & _ & Hts & _ & Ht)];
  cbv zeta in *; rewrite ?Hc, ?Ht; cbn [snd Sql.insert_meta];
  unfold names_unique, slugs_unique, rows_of; cbn [typecho_metas];
  (split; intros Hd; split; try exact Hd);
  apply unique_insert; try exact Hd; cbn [Meta.set_mid Meta.type Meta.name Meta.slug];
  intros m Hm.
  all: first [ exact (find_is_none _ _ Hcn m Hm) | exact (find_is_none _ _ Hcs m Hm)
             | exact (find_is_none _ _ Htn m Hm) | exact (find_is_none _ _ Hts m Hm) ].
Qed.

Lemma create_keeps_unique_witness :
  names_unique "category" Sample.chain
  /\ names_unique "category"
       (snd (category_edit.create_category Sample.new_under_a (connect true Sample.chain))).
Proof.
  assert (H : names_unique "category" Sample.chain).
  { unfold names_unique. cbn. repeat constructor; cbn; intuition discriminate. }
  split; [exact H|].
  exact (proj1 (proj1 (create_keeps_unique "category" true Sample.new_under_a Sample.chain) H)).
Defined.
(* ================================================================== *)
(** ** Listing the tags page by page *)
(* ================================================================== *)

Section OrderBy.
Context {A : Type} (precedes : A -> A -> bool).

Lemma place_perm (x : A) (l : list A) : Permutation (Select.place precedes x l) (x :: l).
Proof.
  induction l as [|y l IH]; simpl; [apply Permutation_refl|].
  destruct (precedes y x); [|apply Permutation_refl].
  apply perm_trans with (y :: x :: l); [apply perm_skip; exact IH|apply perm_swap].
Qed.

Lemma order_by_perm (l : list A) : Permutation (Select.order_by precedes l) l.
Proof.
  induction l as [|x l IH]; simpl; [apply perm_nil|].
  apply perm_trans with (x :: Select.order_by precedes l);
    [apply place_perm|apply perm_skip; exact IH].
Qed.

Lemma order_by_length (l : list A) :
  List.length (Select.order_by precedes l) = List.length l.
Proof. apply Permutation_length, order_by_perm. Qed.

Hypothesis asym : forall x y, precedes x y = true -> precedes y x = false.
Hypothesis trans : forall x y z,
  precedes y x = false -> precedes z y = false -> precedes z x = false.

Lemma place_sorted (x : A) (l : list A) :
  StronglySorted (fun a b => precedes b a = false) l ->
  StronglySorted (fun a b => precedes b a = false) (Select.place precedes x l).
Proof.
  induction 1 as [|y l Hl IH Hy]; simpl; [repeat constructor|].
  destruct (precedes y x) eqn:E.
  - constructor; [exact IH|].
    apply Forall_forall. intros z Hz.
    apply (Permutation_in _ (place_perm x l)) in Hz. destruct Hz as [<-|Hz].
    + apply asym. exact E.
    + rewrite Forall_forall in Hy. apply Hy. exact Hz.
  - constructor; [constructor; assumption|].
    constructor; [exact E|].
    rewrite Forall_forall in *. intros z Hz. apply (trans _ y); [exact E|apply Hy; exact Hz].
Qed.

Lemma order_by_sorted (l : list A) :
  StronglySorted (fun a b => precedes b a = false) (Select.order_by precedes l).
Proof.
  induction l as [|x l IH]; simpl; [constructor|]. apply place_sorted. exact IH.
Qed.

End OrderBy.

Lemma firstn_add {A : Type} (a b : nat) (l : list A) :
  firstn (a + b) l = (firstn a l ++ firstn b (skipn a l))%list.
Proof.
  revert l. induction a as [|a IH]; intros l; [reflexivity|].
  destruct l as [|x l]; simpl; [rewrite firstn_nil; reflexivity|].
  rewrite IH. reflexivity.
Qed.

(** The chunks of [p] rows, one after the other, are the rows. *)
Lemma chunks_cover {A : Type} (p n : nat) (l : list A) :
  flat_map (fun k => firstn p (skipn ((k - 1) * p) l)) (seq 1 n) = firstn (n * p) l.
Proof.
  induction n as [|n IH]; [reflexivity|].
  rewrite seq_S, flat_map_app, IH. cbn [flat_map]. rewrite app_nil_r.
  replace (1 + n - 1)%nat with n by lia.
  replace (S n * p)%nat with (n * p + p)%nat by lia.
  rewrite firstn_add. reflexivity.
Qed.

(** [get_tags] on a working link, as one equation. *)
Lemma get_tags_run (page_arg per_page_arg : option string) (d : database) :
  let page := arg_int page_arg 1 in
  let per_page := Z.min (arg_int per_page_arg 50) 100 in
  let offset := (page - 1) * per_page in
  get_tags page_arg per_page_arg (connect true d) =
    if (per_page <? 0) || (offset <? 0) || (2 ^ 64 <=? per_page) || (2 ^ 64 <=? offset)
    then Broken
    else if per_page =? 0 then Broken
    else Fetched
           (mk_tags_page
              (firstn (Z.to_nat per_page) (skipn (Z.to_nat offset) (Select.tags d)))
              (mk_pagination page per_page (Select.count_tags d)
                 ((Select.count_tags d + per_page - 1) / per_page))).
Proof.
  cbv zeta. unfold get_tags, fetch, connect, Select.limit_offset. cbn [alive pending].
  destruct (_ || _); reflexivity.
Qed.

Lemma tags_length (d : database) :
  Z.of_nat (List.length (Select.tags d)) = Select.count_tags d.
Proof.
  unfold Select.tags, Select.count_tags. rewrite length_map, order_by_length. reflexivity.
Qed.

(** X6.  [get_tags] answers 200 exactly when the link works, the page
    number is at least 1, the page size asked for is at least 1, and the
    offset fits the server's 64 bits; in every other case it answers 500,
    and never 404.  A parameter that is absent or that [int()] refuses
    counts as its default (page 1, 50 rows).  (For parameters that are
    ASCII text.) *)
Theorem get_tags_accepts (link : bool) (page_arg per_page_arg : option string)
    (d : database) :
  let page := arg_int page_arg 1 in
  let asked := arg_int per_page_arg 50 in
  let answer := get_tags page_arg per_page_arg (connect link d) in
  Py.ascii_text (get page_arg "") = true ->
  Py.ascii_text (get per_page_arg "") = true ->
  (reading_status answer = 200 <->
   link = true /\ 1 <= page /\ 1 <= asked /\ (page - 1) * Z.min asked 100 < 2 ^ 64)
  /\ (reading_status answer <> 200 -> answer = Broken).
Proof.
  cbv zeta. intros _ _. destruct link.
  - rewrite get_tags_run. cbv zeta.
    set (page := arg_int page_arg 1). set (asked := arg_int per_page_arg 50).
    destruct (_ || _) eqn:E; cbn [reading_status].
    + split; [|reflexivity]. split; [discriminate|]. intros (_ & Ha & Hb & Hc). exfalso.
      repeat (apply orb_true_iff in E; destruct E as [E|E]); nia.
    + repeat (apply orb_false_iff in E; destruct E as [E ?]).
      destruct (Z.min asked 100 =? 0) eqn:E0; cbn [reading_status].
      * split; [|reflexivity]. split; [discriminate|]. intros (_ & Ha & Hb & Hc). lia.
      * split; [|intros Hne; exfalso; apply Hne; reflexivity].
        split; [|reflexivity]. intros _. split; [reflexivity|].
        assert (0 < Z.min asked 100) by lia. nia.
  - unfold get_tags, fetch, connect. cbn. split; [|reflexivity].
    split; [discriminate|]. intros (Hl & _). discriminate.
Qed.

Lemma get_tags_accepts_witness :
  reading_status (get_tags (Some " 2") (Some "10") (connect true Demo.three_tags)) = 200
  /\ get_tags (Some "0") None (connect true Demo.three_tags) = Broken.
Proof.
  split.
  - apply (proj1 (get_tags_accepts true (Some " 2") (Some "10") Demo.three_tags
                    eq_refl eq_refl)).
    repeat split; try reflexivity; vm_compute; discriminate.
  - apply (proj2 (get_tags_accepts true (Some "0") None Demo.three_tags eq_refl eq_refl)).
    vm_compute. discriminate.
Defined.

(** X7.  A page that [get_tags] answers never has more rows than the
    page size, and the page size is never above 100, whatever was asked
    for; [total] is the number of tags and [pages] is the least number of
    pages of that size that hold them all.  (For parameters that are ASCII
    text.) *)
Theorem get_tags_page_size (link : bool) (page_arg per_page_arg : option string)
    (d : database) (tp : tags_page) :
  Py.ascii_text (get page_arg "") = true ->
  Py.ascii_text (get per_page_arg "") = true ->
  get_tags page_arg per_page_arg (connect link d) = Fetched tp ->
  let p := paging tp in
  page p = arg_int page_arg 1
  /\ per_page p = Z.min (arg_int per_page_arg 50) 100
  /\ Z.of_nat (List.length (tags tp)) <= per_page p <= 100
  /\ total p = Select.count_tags d
  /\ (pages p - 1) * per_page p < total p <= pages p * per_page p.
Proof.
  intros _ _. destruct link; [|discriminate].
  rewrite get_tags_run. cbv zeta.
  set (page := arg_int page_arg 1). set (asked := arg_int per_page_arg 50).
  destruct (_ || _) eqn:E; [discriminate|].
  repeat (apply orb_false_iff in E; destruct E as [E ?]).
  destruct (Z.min asked 100 =? 0) eqn:E0; [discriminate|].
  intros Heq. injection Heq as <-. cbn [paging tags page per_page total pages].
  assert (Hp : 0 < Z.min asked 100) by lia.
  split; [reflexivity|]. split; [reflexivity|]. split; [|split; [reflexivity|]].
  - split; [|lia]. rewrite length_firstn. lia.
  - set (p := Z.min asked 100) in *. set (t := Select.count_tags d).
    pose proof (Z.div_mod (t + p - 1) p ltac:(lia)) as Hdm.
    pose proof (Z.mod_pos_bound (t + p - 1) p Hp) as Hb.
    nia.
Qed.

Lemma get_tags_page_size_witness :
  exists tp,
    get_tags (Some "1") (Some "500") (connect true Sample.one_tag) = Fetched tp
    /\ per_page (paging tp) = 100
    /\ pages (paging tp) = 1.
Proof.
  eexists. split; [reflexivity|].
  destruct (get_tags_page_size true (Some "1") (Some "500") Sample.one_tag _
              eq_refl eq_refl eq_refl)
    as (_ & H & _). split; [exact H|reflexivity].
Defined.

Lemma flat_map_same {A B : Type} (f g : A -> list B) (l : list A) :
  (forall x, In x l -> f x = g x) -> flat_map f l = flat_map g l.
Proof.
  induction l as [|x l IH]; intros H; [reflexivity|]. simpl.
  rewrite (H x (or_introl eq_refl)), IH; [reflexivity|].
  intros y Hy. apply H. right. exact Hy.
Qed.

(** X8.  The pages of [get_tags], from page 1 to the last one that the
    answer counts, hold every tag once: put one after the other they are
    the tags in descending order of id.  (For a page size of at least 1,
    fewer than 2^64 tags, and parameters that are ASCII text.) *)
Theorem get_tags_pages_cover (d : database) (per_page_arg : option string)
    (page_arg : nat -> option string) :
  let p := Z.min (arg_int per_page_arg 50) 100 in
  let n := (Select.count_tags d + p - 1) / p in
  Py.ascii_text (get per_page_arg "") = true ->
  (forall k, Py.ascii_text (get (page_arg k) "") = true) ->
  0 < p ->
  Select.count_tags d < 2 ^ 64 ->
  (forall k, (1 <= k <= Z.to_nat n)%nat -> arg_int (page_arg k) 1 = Z.of_nat k) ->
  flat_map (fun k => listed (get_tags (page_arg k) per_page_arg (connect true d)))
    (seq 1 (Z.to_nat n))
  = Select.tags d.
Proof.
  cbv zeta. set (p := Z.min (arg_int per_page_arg 50) 100).
  set (t := Select.count_tags d). intros _ _ Hp Ht Hargs.
  pose proof (Z.div_mod (t + p - 1) p ltac:(lia)) as Hdm.
  pose proof (Z.mod_pos_bound (t + p - 1) p Hp) as Hb.
  assert (Ht0 : 0 <= t) by (unfold t, Select.count_tags; lia).
  assert (Hn0 : 0 <= (t + p - 1) / p) by (apply Z.div_pos; lia).
  set (n := (t + p - 1) / p) in *.
  transitivity (firstn (Z.to_nat n * Z.to_nat p) (Select.tags d)).
  - rewrite <- chunks_cover. apply flat_map_same. intros k Hk.
    apply in_seq in Hk.
    rewrite get_tags_run. cbv zeta. rewrite (Hargs k ltac:(lia)). fold p.
    assert (Hoff : 0 <= (Z.of_nat k - 1) * p < 2 ^ 64) by nia.
    destruct (_ || _) eqn:E.
    { exfalso. repeat (apply orb_true_iff in E; destruct E as [E|E]); lia. }
    destruct (p =? 0) eqn:E0; [lia|]. cbn [listed tags].
    f_equal. f_equal. nia.
  - apply firstn_all2. pose proof (tags_length d) as Hlen. fold t in Hlen. nia.
Qed.

Lemma get_tags_pages_cover_witness :
  (listed (get_tags (Some "1") (Some "2") (connect true Demo.three_tags))
   ++ listed (get_tags (Some "2") (Some "2") (connect true Demo.three_tags)))%list
  = Select.tags Demo.three_tags.
Proof.
  pose proof (get_tags_pages_cover Demo.three_tags (Some "2")
                (fun k => match k with 1%nat => Some "1" | _ => Some "2" end)) as H.
  cbv zeta in H.
  assert (Hascii : forall k : nat,
            Py.ascii_text (get (match k with 1%nat => Some "1" | _ => Some "2" end) "")
            = true)
    by (intros [|[|k]]; reflexivity).
  specialize (H eq_refl Hascii eq_refl eq_refl).
  assert (Hargs : forall k, (1 <= k <= 2)%nat ->
            arg_int (match k with 1%nat => Some "1" | _ => Some "2" end) 1 = Z.of_nat k).
  { intros [|[|[|k]]] Hk; [lia|reflexivity|reflexivity|lia]. }
  specialize (H Hargs). cbn [flat_map seq] in H.
  change (Z.to_nat ((Select.count_tags Demo.three_tags + Z.min (arg_int (Some "2") 50) 100 - 1)
                    / Z.min (arg_int (Some "2") 50) 100)) with 2%nat in H.
  cbn [flat_map seq] in H. rewrite app_nil_r in H. exact H.
Defined.

(* ================================================================== *)
(** ** Reading back what was created *)
(* ================================================================== *)

Lemma find_app_fresh {A : Type} (f : A -> bool) (l : list A) (x : A) :
  find f l = None -> f x = true -> find f (l ++ [x]) = Some x.
Proof.
  intros Hl Hx. induction l as [|y l IH]; simpl in *; [rewrite Hx; reflexivity|].
  destruct (f y); [discriminate|]. apply IH. exact Hl.
Qed.

(** X9.  A node that was just created can be read back: after a
    [create_category] answered 201, [get_category] on the id of the answer
    fetches the row the answer describes, with count 0; after a
    [create_tag] answered 201, [get_tag] fetches the tag with an empty
    description and count, order and parent 0.  (The id the table hands
    out next is not yet the id of a row of that kind.) *)
Theorem created_node_read_back (data : Body.t) (d : database) :
  (let answer := category_edit.create_category data (connect true d) in
   status (fst answer) = 201 ->
   Sql.select_meta "category" (next_mid d) d = None ->
   exists node,
     payload (fst answer) = CategoryCreated node
     /\ get_category (v_mid node) (connect true (snd answer)) = Fetched (category_row node))
  /\
  (let answer := tags_edit.create_tag data (connect true d) in
   status (fst answer) = 201 ->
   Sql.select_meta "tag" (next_mid d) d = None ->
   exists node,
     payload (fst answer) = TagCreated node
     /\ get_tag (t_mid node) (connect true (snd answer))
        = Fetched (Select.mk_tag_details (t_mid node) (t_name node) (t_slug node) "" 0 0 0)).
Proof.
  split; cbv zeta; intros H201 Hfresh.
  - destruct (create_category_outcome true data d) as [[Hno _]|H]; [contradiction|].
    destruct H as (_ & _ & _ & _ & _ & _ & Hanswer). cbv zeta in Hanswer.
    rewrite Hanswer. cbn [fst snd payload]. eexists. split; [reflexivity|].
    unfold get_category, fetch, connect, Sql.select_meta, Sql.insert_meta.
    cbn [alive pending snd typecho_metas v_mid].
    rewrite (find_app_fresh _ _ _ Hfresh); [reflexivity|].
    unfold Sql.is_node. cbn. rewrite Z.eqb_refl. reflexivity.
  - destruct (create_tag_outcome true data d) as [[Hno _]|H]; [contradiction|].
    destruct H as (_ & _ & _ & _ & _ & Hanswer). cbv zeta in Hanswer.
    rewrite Hanswer. cbn [fst snd payload]. eexists. split; [reflexivity|].
    unfold get_tag, fetch, connect, Sql.select_meta, Sql.insert_meta.
    cbn [alive pending snd typecho_metas t_mid].
    rewrite (find_app_fresh _ _ _ Hfresh); [reflexivity|].
    unfold Sql.is_node. cbn. rewrite Z.eqb_refl. reflexivity.
Qed.

Lemma created_node_read_back_witness :
  exists node,
    payload (fst (category_edit.create_category Sample.new_under_a
                    (connect true Sample.chain))) = CategoryCreated node
    /\ get_category (v_mid node)
         (connect true (snd (category_edit.create_category Sample.new_under_a
                               (connect true Sample.chain))))
       = Fetched (category_row node).
Proof.
  exact (proj1 (created_node_read_back Sample.new_under_a Sample.chain) eq_refl eq_refl).
Defined.

(* ================================================================== *)
(** ** The place of a new category in the listing *)
(* ================================================================== *)

(** Placing a row into a list that holds [x]: [x] stays, and what comes
    behind it is as before unless [x] precedes the row. *)
Lemma place_behind {A : Type} (precedes : A -> A -> bool) (x y : A) (b a : list A) :
  exists b' a',
    Select.place precedes y (b ++ x :: a) = (b' ++ x :: a')%list
    /\ (a' = a \/ (precedes x y = true /\ forall s, In s a' -> s = y \/ In s a)).
Proof.
  induction b as [|z b IH]; simpl.
  - destruct (precedes x y) eqn:E.
    + exists [], (Select.place precedes y a). split; [reflexivity|]. right.
      split; [reflexivity|]. intros s Hs.
      apply (Permutation_in _ (place_perm precedes y a)) in Hs.
      destruct Hs as [<-|Hs]; [left; reflexivity|right; exact Hs].
    + exists [y], a. split; [reflexivity|]. left. reflexivity.
  - destruct (precedes z y).
    + destruct IH as (b' & a' & Heq & Ha). exists (z :: b'), a'.
      rewrite Heq. split; [reflexivity|exact Ha].
    + exists (y :: z :: b), a. split; [reflexivity|]. left. reflexivity.
Qed.

Lemma order_by_behind {A : Type} (precedes : A -> A -> bool) (x : A) (l : list A) :
  exists b a,
    Select.order_by precedes (l ++ [x]) = (b ++ x :: a)%list
    /\ forall s, In s a -> In s l /\ precedes x s = true.
Proof.
  induction l as [|y l IH]; simpl.
  - exists [], []. split; [reflexivity|]. intros s [].
  - destruct IH as (b & a & Heq & Ha). fold (Select.order_by precedes (l ++ [x])).
    rewrite Heq.
    destruct (place_behind precedes x y b a) as (b' & a' & Heq' & [->|[Hxy Ha']]).
    + exists b', a. split; [exact Heq'|]. intros s Hs.
      destruct (Ha s Hs) as [H1 H2]. split; [right; exact H1|exact H2].
    + exists b', a'. split; [exact Heq'|]. intros s Hs.
      destruct (Ha' s Hs) as [->|Hs'].
      * split; [left; reflexivity|exact Hxy].
      * destruct (Ha s Hs') as [H1 H2]. split; [right; exact H1|exact H2].
Qed.

(** X10.  A category that was just created comes last among its siblings
    in the listing of [get_categories]: the listing holds the new row, and
    no row behind it has the same parent. *)
Theorem created_category_listed_last (data : Body.t) (d : database) :
  let answer := category_edit.create_category data (connect true d) in
  status (fst answer) = 201 ->
  exists node before behind,
    payload (fst answer) = CategoryCreated node
    /\ get_categories (connect true (snd answer))
       = Fetched (before ++ category_row node :: behind)%list
    /\ (forall s, In s behind -> Meta.parent s <> v_parent node).
Proof.
  cbv zeta. intros H201.
  destruct (create_category_outcome true data d) as [[Hno _]|H]; [contradiction|].
  destruct H as (_ & _ & _ & _ & _ & _ & Hanswer). cbv zeta in Hanswer.
  rewrite Hanswer. cbn [fst snd payload].
  set (parent := get (Body.parent data) 0) in *.
  unfold get_categories, fetch, connect, Select.categories, Sql.insert_meta, Meta.set_mid.
  cbn [alive pending snd typecho_metas Meta.name Meta.slug Meta.type
       Meta.description Meta.count Meta.order Meta.parent].
  set (row := Meta.mk (next_mid d) _ _ "category" _ 0 _ parent).
  rewrite filter_app. cbn [filter]. replace (Sql.eqs (Meta.type row) "category") with true
    by reflexivity.
  destruct (order_by_behind Select.by_parent_then_order row
              (filter (fun m => Sql.eqs (Meta.type m) "category") (typecho_metas d)))
    as (b & a & Heq & Ha).
  eexists. exists b, a. split; [reflexivity|]. split.
  - unfold category_row. cbn [v_mid v_name v_slug v_description v_order v_parent].
    fold parent. fold row. rewrite Heq. reflexivity.
  - cbn [v_parent]. intros s Hs Hpar. destruct (Ha s Hs) as [Hin Hlt].
    apply filter_In in Hin. destruct Hin as [Hin Hty].
    unfold Select.by_parent_then_order in Hlt. subst row. cbn [Meta.parent Meta.order] in Hlt.
    assert (Hbucket : In s (Sql.bucket "category" parent d)).
    { unfold Sql.bucket. apply filter_In. split; [exact Hin|].
      rewrite Hty, Hpar, Z.eqb_refl. reflexivity. }
    destruct (max_order_value_spec "category" parent d)
      as [[Hb _]|(top & _ & Hv & Hle)]; cbv zeta in *.
    + rewrite Hb in Hbucket. destruct Hbucket.
    + specialize (Hle s Hbucket). rewrite Hv in Hlt. lia.
Qed.

Lemma created_category_listed_last_witness :
  exists node before behind,
    payload (fst (category_edit.create_category Sample.new_under_a
                    (connect true Sample.chain))) = CategoryCreated node
    /\ get_categories
         (connect true (snd (category_edit.create_category Sample.new_under_a
                               (connect true Sample.chain))))
       = Fetched (before ++ category_row node :: behind)%list
    /\ (forall s, In s behind -> Meta.parent s <> v_parent node).
Proof.
  exact (created_category_listed_last Sample.new_under_a Sample.chain eq_refl).
Defined.

(* ================================================================== *)
(** ** Deleting one tag *)
(* ================================================================== *)

Lemma delete_tag_single_run (mid : Z) (mids : option (list Py.item)) (d : database) :
  mid <> 0 ->
  tags_edit.delete_tag (Some mid) mids (connect true d) =
    if is_not_None (Sql.select_meta "tag" mid d)
    then (mk_response (TagsDeleted 1) 200,
          Sql.delete_relationships_of_meta mid (Sql.delete_meta "tag" mid d))
    else (mk_response NotFound 404, d).
Proof.
  intros Hmid. unfold tags_edit.delete_tag, respond, try_, connect.
  unfold bind at 1. cbn [get]. unfold Py.truthy.
  destruct (mid =? 0) eqn:E; [apply Z.eqb_eq in E; contradiction|]. cbn [negb].
  unfold bind at 1, call. rewrite tag_exists_alive.
  destruct (is_not_None (Sql.select_meta "tag" mid d)); [|reflexivity].
  cbn [negb]. unfold ret at 1. unfold bind at 1. rewrite delete_each_run.
  rewrite bind_commit. unfold ret. cbn [respond saved List.length].
  rewrite <- purged_cons, purged_nil. reflexivity.
Qed.

Lemma select_meta_deleted (ty : string) (mid : Z) (d : database) :
  Sql.select_meta ty mid (Sql.delete_relationships_of_meta mid (Sql.delete_meta ty mid d))
  = None.
Proof.
  unfold Sql.select_meta. cbn. apply find_none_intro.
  intros m Hm. apply filter_In in Hm. destruct Hm as [_ Hm].
  apply negb_true_iff in Hm. exact Hm.
Qed.

(** X11.  The route that deletes one tag, for an id other than 0: if no
    tag has the id the answer is 404 and nothing is written; otherwise the
    answer is 200 with a count of 1, the tag and every link to it are gone
    and nothing else has changed, and [get_tag] on the id then answers 404.
    The body of the request plays no part.  With the id 0 the route falls
    through to the batch deletion. *)
Theorem delete_tag_single (mid : Z) (mids : option (list Py.item)) (d : database) :
  let answer := tags_edit.delete_tag (Some mid) mids (connect true d) in
  (mid <> 0 -> Sql.select_meta "tag" mid d = None ->
   answer = (mk_response NotFound 404, d))
  /\ (mid <> 0 -> Sql.select_meta "tag" mid d <> None ->
      fst answer = mk_response (TagsDeleted 1) 200
      /\ snd answer
         = mk_database
             (filter (fun m => negb (Sql.is_node "tag" mid m)) (typecho_metas d))
             (filter (fun r => negb (Rel.mid r =? mid)) (typecho_relationships d))
             (typecho_contents d) (typecho_comments d) (typecho_fields d)
             (next_mid d) (next_cid d)
      /\ get_tag mid (connect true (snd answer)) = Missing)
  /\ (mid = 0 -> answer = tags_edit.delete_tag None mids (connect true d)).
Proof.
  cbv zeta. split; [|split].
  - intros Hmid Hnone. rewrite (delete_tag_single_run mid mids d Hmid), Hnone. reflexivity.
  - intros Hmid Hsome. rewrite (delete_tag_single_run mid mids d Hmid).
    destruct (Sql.select_meta "tag" mid d) eqn:E; [|contradiction]. cbn [is_not_None fst snd].
    split; [reflexivity|]. split; [reflexivity|].
    unfold get_tag, fetch, connect. cbn [alive pending].
    rewrite select_meta_deleted. reflexivity.
  - intros ->. reflexivity.
Qed.

Lemma delete_tag_single_witness :
  fst (tags_edit.delete_tag (Some 5) None (connect true Sample.one_tag))
  = mk_response (TagsDeleted 1) 200
  /\ get_tag 5 (connect true (snd (tags_edit.delete_tag (Some 5) None
                                      (connect true Sample.one_tag)))) = Missing.
Proof.
  assert (H5 : 5 <> 0) by discriminate.
  assert (Hsome : Sql.select_meta "tag" 5 Sample.one_tag <> None) by discriminate.
  destruct (proj1 (proj2 (delete_tag_single 5 None Sample.one_tag)) H5 Hsome)
    as (H1 & _ & H2).
  split; [exact H1|exact H2].
Defined.

(** X12.  Creating a tag and deleting it again gives the store back: after
    a [create_tag] answered 201, deleting the id of the answer answers 200
    and leaves every table as it was before the creation; only the id the
    table hands out next has moved on.  (No row and no link carries that id
    beforehand.) *)
Theorem create_then_delete_tag (data : Body.t) (d : database) :
  let created := tags_edit.create_tag data (connect true d) in
  status (fst created) = 201 ->
  (forall m, In m (typecho_metas d) -> Meta.mid m <> next_mid d) ->
  (forall r, In r (typecho_relationships d) -> Rel.mid r <> next_mid d) ->
  exists node,
    payload (fst created) = TagCreated node
    /\ tags_edit.delete_tag (Some (t_mid node)) None (connect true (snd created))
       = (mk_response (TagsDeleted 1) 200, with_next_mid (next_mid d + 1) d).
Proof.
  cbv zeta. intros H201 Hmetas Hrels.
  destruct (create_tag_outcome true data d) as [[Hno _]|H]; [contradiction|].
  destruct H as (_ & _ & _ & _ & Hnext & Hanswer). cbv zeta in Hanswer.
  rewrite Hanswer. cbn [fst snd payload]. eexists. split; [reflexivity|].
  cbn [t_mid]. rewrite (delete_tag_single_run _ _ _ Hnext).
  unfold Sql.insert_meta. cbn [snd].
  unfold Sql.select_meta. cbn [typecho_metas].
  rewrite find_app_fresh.
  - cbn [is_not_None]. f_equal.
    apply database_ext; try reflexivity; cbn.
    + rewrite filter_app. cbn. rewrite Z.eqb_refl. cbn. rewrite app_nil_r.
      apply filter_all. intros m Hm. apply negb_true_iff.
      unfold Sql.is_node. apply andb_false_iff. right. apply Z.eqb_neq.
      exact (Hmetas m Hm).
    + apply filter_all. intros r Hr. apply negb_true_iff. apply Z.eqb_neq.
      exact (Hrels r Hr).
  - apply find_none_intro. intros m Hm. unfold Sql.is_node.
    apply andb_false_iff. right. apply Z.eqb_neq. exact (Hmetas m Hm).
  - unfold Sql.is_node. cbn. rewrite Z.eqb_refl. reflexivity.
Qed.

Lemma create_then_delete_tag_witness :
  exists node,
    payload (fst (tags_edit.create_tag Sample.new_tag (connect true Sample.empty)))
    = TagCreated node
    /\ tags_edit.delete_tag (Some (t_mid node)) None
         (connect true (snd (tags_edit.create_tag Sample.new_tag (connect true Sample.empty))))
       = (mk_response (TagsDeleted 1) 200, with_next_mid 2 Sample.empty).
Proof.
  apply (create_then_delete_tag Sample.new_tag Sample.empty eq_refl).
  - intros m [].
  - intros r [].
Defined.

(* ================================================================== *)
(** ** What the tag sweep leaves *)
(* ================================================================== *)

Lemma length_filter_split {A : Type} (f : A -> bool) (l : list A) :
  (List.length (filter f l) + List.length (filter (fun x => negb (f x)) l))%nat
  = List.length l.
Proof.
  induction l as [|x l IH]; [reflexivity|]. simpl.
  destruct (f x); simpl; lia.
Qed.

(** X13.  After [refresh_tags] answered on a working link: every tag that
    is left carries as its count the number of its links from published
    posts, and that number is at least 1; a tag with such links is left,
    with that count; the rows that are not tags, the links and the contents
    are as before; and the number reported is the number of rows that
    went. *)
Theorem refresh_tags_exact (d : database) :
  let answer := tags_edit.refresh_tags (connect true d) in
  let after := snd answer in
  let links := fun m => N.of_nat (List.length (Sql.published_links (Meta.mid m) d)) in
  fst answer
  = mk_response
      (Refreshed (Z.of_nat (List.length (typecho_metas d))
                  - Z.of_nat (List.length (typecho_metas after)))) 200
  /\ (forall m, In m (typecho_metas after) -> Meta.type m = "tag" ->
                Meta.count m = links m /\ (1 <= Meta.count m)%N)
  /\ (forall m, In m (typecho_metas d) -> Meta.type m = "tag" -> (1 <= links m)%N ->
                In (Meta.set_count (links m) m) (typecho_metas after))
  /\ filter (fun m => negb (Sql.eqs (Meta.type m) "tag")) (typecho_metas after)
     = filter (fun m => negb (Sql.eqs (Meta.type m) "tag")) (typecho_metas d)
  /\ typecho_relationships after = typecho_relationships d
  /\ typecho_contents after = typecho_contents d.
Proof.
  cbv zeta. rewrite refresh_tags_run. cbn [fst snd]. rewrite swept_metas.
  split; [|split; [|split; [|split; [|split; reflexivity]]]].
  - do 2 f_equal.
    change (fst (Sql.delete_orphaned (Sql.refresh_count d)))
      with (Z.of_nat (List.length (filter Sql.is_orphaned (map (recount d) (typecho_metas d))))).
    pose proof (length_filter_split Sql.is_orphaned (map (recount d) (typecho_metas d))) as H.
    rewrite length_map in H. lia.
  - intros m Hm Hty. apply filter_In in Hm. destruct Hm as [Hm Horph].
    apply in_map_iff in Hm. destruct Hm as (m0 & <- & _).
    unfold recount in *. destruct (Sql.eqs (Meta.type m0) "tag") eqn:E.
    + cbn [Meta.set_count Meta.count Meta.mid] in *. split; [reflexivity|].
      apply negb_true_iff in Horph. unfold Sql.is_orphaned in Horph.
      cbn [Meta.set_count Meta.type Meta.count] in Horph. rewrite E in Horph.
      cbn [andb] in Horph. apply N.eqb_neq in Horph. lia.
    + apply eqs_true in Hty. congruence.
  - intros m Hm Hty Hlinks. apply filter_In. split.
    + apply in_map_iff. exists m. split; [|exact Hm].
      unfold recount. rewrite Hty. reflexivity.
    + apply negb_true_iff. unfold Sql.is_orphaned. cbn [Meta.set_count Meta.type Meta.count].
      apply andb_false_iff. right. apply N.eqb_neq. lia.
  - rewrite filter_filter.
    induction (typecho_metas d) as [|m l IH]; [reflexivity|]. cbn [map filter].
    assert (Hty : Meta.type (recount d m) = Meta.type m)
      by (unfold recount; destruct (Sql.eqs _ _); reflexivity).
    rewrite Hty. destruct (Sql.eqs (Meta.type m) "tag") eqn:E.
    + rewrite andb_false_r. cbn [negb]. exact IH.
    + cbn [negb]. rewrite andb_true_r.
      assert (Hm : recount d m = m) by (unfold recount; rewrite E; reflexivity).
      rewrite Hm. unfold Sql.is_orphaned at 1. rewrite E. cbn [andb negb].
      rewrite IH. reflexivity.
Qed.

Lemma refresh_tags_exact_witness :
  fst (tags_edit.refresh_tags (connect true Demo.three_tags))
  = mk_response (Refreshed 1) 200
  /\ In (Sample.tag 1 "coq" 1)
       (typecho_metas (snd (tags_edit.refresh_tags (connect true Demo.three_tags)))).
Proof.
  destruct (refresh_tags_exact Demo.three_tags) as (H1 & _ & H3 & _).
  split; [exact H1|].
  apply (H3 (Sample.tag 1 "coq" 1)); [left; reflexivity|reflexivity|].
  vm_compute. discriminate.
Defined.

(* ================================================================== *)
(** ** What creating a post stores *)
(* ================================================================== *)

Lemma set_count_same (m : Meta.t) : Meta.set_count (Meta.count m) m = m.
Proof. destruct m. reflexivity. Qed.

Lemma credited_nil (ty : string) (m : Meta.t) : credited ty [] m = m.
Proof.
  unfold credited, credit. destruct (Sql.eqs _ _); cbn; rewrite N.add_0_r;
    apply set_count_same.
Qed.

(** Whether a node of some kind and id exists does not depend on the
    counts. *)
Lemma find_map_same {A : Type} (f : A -> bool) (g : A -> A) (l : list A) :
  (forall x, f (g x) = f x) ->
  is_not_None (find f (map g l)) = is_not_None (find f l).
Proof.
  intros H. induction l as [|x l IH]; [reflexivity|]. simpl.
  rewrite H. destruct (f x); [reflexivity|exact IH].
Qed.

Lemma existing_add_count (ty ty' : string) (x y k : Z) (d : database) :
  is_not_None (Sql.select_meta ty x (Sql.count_added ty' y k d))
  = is_not_None (Sql.select_meta ty x d).
Proof.
  unfold Sql.select_meta, Sql.count_added. cbn [typecho_metas with_metas].
  apply find_map_same. intros m. destruct (Sql.is_node ty' y m); reflexivity.
Qed.

Lemma existing_link_node (ty ty' : string) (p x y : Z) (d : database) :
  is_not_None (Sql.select_meta ty x (link_node ty' p y d))
  = is_not_None (Sql.select_meta ty x d).
Proof.
  unfold link_node. destruct (is_not_None (Sql.select_meta ty' y d)); [|reflexivity].
  rewrite existing_add_count. reflexivity.
Qed.

Lemma credited_step (ty : string) (x : Z) (l : list Z) (m : Meta.t) :
  credited ty l (if Sql.is_node ty x m
                 then Meta.set_count (Z.to_N (Z.of_N (Meta.count m) + 1)) m else m)
  = credited ty (x :: l) m.
Proof.
  unfold credited, credit, Sql.is_node. rewrite occurrences_cons.
  destruct (Sql.eqs (Meta.type m) ty) eqn:E; cbn [andb].
  - rewrite (Z.eqb_sym (Meta.mid m) x).
    destruct (x =? Meta.mid m); unfold Meta.set_count;
      cbn [Meta.type Meta.count Meta.mid Meta.name Meta.slug Meta.description
           Meta.order Meta.parent];
      rewrite ?E; f_equal; lia.
  - rewrite E. reflexivity.
Qed.

(** A linking loop, as one equation: the links of the ids that exist are
    appended in order, and the counts of their rows are credited. *)
Lemma link_nodes_run (ty : string) (p : Z) (l : list Z) (d : database) :
  fold_left (fun d x => link_node ty p x d) l d
  = mk_database
      (map (credited ty (existing ty d l)) (typecho_metas d))
      (typecho_relationships d ++ map (Rel.mk p) (existing ty d l))
      (typecho_contents d) (typecho_comments d) (typecho_fields d)
      (next_mid d) (next_cid d).
Proof.
  revert d. induction l as [|x l IH]; intros d.
  - cbn. rewrite app_nil_r, (map_ext _ (fun m => m) (credited_nil ty)), map_id.
    destruct d; reflexivity.
  - cbn [fold_left]. rewrite IH.
    assert (Hex : existing ty (link_node ty p x d) l = existing ty d l).
    { unfold existing. apply filter_ext. intros y. apply existing_link_node. }
    rewrite Hex.
    change (existing ty d (x :: l))
      with (if is_not_None (Sql.select_meta ty x d)
            then x :: existing ty d l else existing ty d l).
    unfold link_node.
    destruct (is_not_None (Sql.select_meta ty x d)) eqn:E.
    + apply database_ext; try reflexivity; cbn.
      * rewrite map_map. apply map_ext. intros m. apply credited_step.
      * rewrite <- app_assoc. reflexivity.
    + reflexivity.
Qed.

Lemma existing_same (ty : string) (d d' : database) (l : list Z) :
  (forall x, is_not_None (Sql.select_meta ty x d')
             = is_not_None (Sql.select_meta ty x d)) ->
  existing ty d' l = existing ty d l.
Proof. intros H. unfold existing. apply filter_ext. exact H. Qed.

Lemma created_run (data : post_edit.post_data) (d : database) :
  created data d
  = mk_database
      (map (credited "tag" (existing "tag" d (tag_ids data)))
         (map (credited "category" (existing "category" d (category_ids data)))
            (typecho_metas d)))
      (typecho_relationships d
       ++ map (Rel.mk (next_cid d)) (existing "category" d (category_ids data))
       ++ map (Rel.mk (next_cid d)) (existing "tag" d (tag_ids data)))
      (typecho_contents d
       ++ [Content.mk (next_cid d) (get (post_edit.title data) post_edit.default_title)
             (get (post_edit.slug data) "") (get (post_edit.text data) "")
             "post" (get (post_edit.status data) "publish") 0])
      (typecho_comments d) (typecho_fields d) (next_mid d) (next_cid d + 1).
Proof.
  unfold created. cbv zeta.
  set (row := Content.mk 0 _ _ _ "post" _ 0).
  rewrite (link_nodes_run "category").
  rewrite (existing_same "category" d (snd (Sql.insert_content row d)))
    by reflexivity.
  rewrite (link_nodes_run "tag").
  cbn [Sql.insert_content snd typecho_metas typecho_relationships
       typecho_contents typecho_comments typecho_fields next_mid next_cid].
  match goal with
  | |- context [existing "tag" ?d2 (tag_ids data)] =>
      rewrite (existing_same "tag" d d2)
  end.
  - rewrite <- app_assoc. reflexivity.
  - intros x. unfold Sql.select_meta. cbn [typecho_metas]. apply find_map_same.
    intros m. reflexivity.
Qed.

Lemma occurrences_existing (ty : string) (d : database) (l : list Z) (m : Meta.t) :
  In m (typecho_metas d) -> Sql.eqs (Meta.type m) ty = true ->
  occurrences (Meta.mid m) (existing ty d l) = occurrences (Meta.mid m) l.
Proof.
  intros Hin Hty. unfold occurrences, existing. rewrite filter_filter.
  do 2 f_equal. apply filter_ext. intros y.
  destruct (y =? Meta.mid m) eqn:E; [|apply andb_false_r].
  apply Z.eqb_eq in E. subst y. rewrite andb_true_r.
  destruct (Sql.select_meta ty (Meta.mid m) d) eqn:F; [reflexivity|].
  unfold Sql.select_meta in F. pose proof (find_none _ _ F m Hin) as H.
  unfold Sql.is_node in H. rewrite Hty, Z.eqb_refl in H. discriminate.
Qed.

Lemma has_relationship_added (p x y : Z) (d : database) :
  Sql.has_relationship p y (Sql.relationship_added p x d)
  = Sql.has_relationship p y d || (x =? y).
Proof.
  unfold Sql.has_relationship, Sql.relationship_added, with_relationships.
  cbn [typecho_relationships]. rewrite existsb_app. cbn. rewrite Z.eqb_refl.
  rewrite orb_false_r. reflexivity.
Qed.

Lemma has_relationship_link_node (ty : string) (p x y : Z) (d : database) :
  Sql.has_relationship p y (link_node ty p x d)
  = Sql.has_relationship p y d
    || (is_not_None (Sql.select_meta ty x d) && (x =? y)).
Proof.
  unfold link_node. destruct (is_not_None (Sql.select_meta ty x d)); cbn [andb].
  - change (Sql.has_relationship p y (Sql.count_added ty x 1 (Sql.relationship_added p x d)))
      with (Sql.has_relationship p y (Sql.relationship_added p x d)).
    apply has_relationship_added.
  - rewrite orb_false_r. reflexivity.
Qed.

(** A linking loop that is not refused names no existing node twice,
    and none that the post is linked to already. *)
Lemma links_not_refused (ty : string) (p : Z) (l : list Z) (d : database) :
  refused_in (link_refused ty p) (link_node ty p) l d = false ->
  NoDup (existing ty d l)
  /\ forall x, In x (existing ty d l) -> Sql.has_relationship p x d = false.
Proof.
  revert d. induction l as [|x l IH]; intros d H.
  - split; [constructor|intros x []].
  - cbn [refused_in] in H. apply orb_false_iff in H. destruct H as [Hx Hl].
    destruct (IH _ Hl) as [Hnd Hnew].
    rewrite (existing_same ty d (link_node ty p x d)) in Hnd, Hnew
      by (intros y; apply existing_link_node).
    change (existing ty d (x :: l))
      with (if is_not_None (Sql.select_meta ty x d)
            then x :: existing ty d l else existing ty d l).
    unfold link_refused in Hx.
    assert (Hold : forall y, In y (existing ty d l) ->
              Sql.has_relationship p y d = false
              /\ (is_not_None (Sql.select_meta ty x d) = true -> x <> y)).
    { intros y Hy. specialize (Hnew y Hy). rewrite has_relationship_link_node in Hnew.
      apply orb_false_iff in Hnew. destruct Hnew as [H1 H2]. split; [exact H1|].
      intros Hex ->. rewrite Hex, Z.eqb_refl in H2. discriminate. }
    destruct (is_not_None (Sql.select_meta ty x d)) eqn:E; cbn [andb] in Hx.
    + split.
      * constructor; [|exact Hnd]. intros Hin. exact (proj2 (Hold x Hin) eq_refl eq_refl).
      * intros y [<-|Hy]; [exact Hx|exact (proj1 (Hold y Hy))].
    + split; [exact Hnd|]. intros y Hy. exact (proj1 (Hold y Hy)).
Qed.

(** The links of the post once the categories are linked. *)
Lemma has_relationship_links (ty : string) (p y : Z) (l : list Z) (d : database) :
  Sql.has_relationship p y (fold_left (fun d x => link_node ty p x d) l d)
  = Sql.has_relationship p y d || existsb (Z.eqb y) (existing ty d l).
Proof.
  rewrite link_nodes_run. unfold Sql.has_relationship. cbn [typecho_relationships].
  rewrite existsb_app. f_equal.
  induction (existing ty d l) as [|x l' IH]; [reflexivity|]. cbn.
  rewrite Z.eqb_refl, IH. cbn. rewrite (Z.eqb_sym x y). reflexivity.
Qed.

(** X14.  [create_post] stores all or nothing, and says so.  Whenever the
    answer is not 201, on any link, the store is as it was.  On a working
    link the answer is 400 exactly when the body is empty, or the title
    (the default one when none is given) or the text is empty.  The
    answer is 201 only if the link works, body, title and text are not
    empty, the id handed out is not 0, [int()] takes every entry of the
    tag list that passes the digit test, and no link is asked for twice:
    the entries of the category list and of the tag list that name an
    existing node name different nodes, none of them linked to the new id
    already.  (A link asked for twice is refused by the server, and the
    answer is 500.  The tag list is one whose text entries are ASCII.) *)
Theorem create_post_all_or_nothing (link : bool) (data : post_edit.post_data)
    (d : database) :
  let answer := post_edit.create_post data (connect link d) in
  let linked := (existing "category" d (category_ids data)
                 ++ existing "tag" d (tag_ids data))%list in
  (status (fst answer) <> 201 -> snd answer = d)
  /\ (link = true ->
      (status (fst answer) = 400 <->
       post_edit.is_empty data = true
       \/ get (post_edit.title data) post_edit.default_title = ""
       \/ get (post_edit.text data) "" = ""))
  /\ (forallb Py.ascii_item (post_edit.tag_entries data) = true ->
      status (fst answer) = 201 ->
      link = true
      /\ post_edit.is_empty data = false
      /\ get (post_edit.title data) post_edit.default_title <> ""
      /\ get (post_edit.text data) "" <> ""
      /\ next_cid d <> 0
      /\ tags_unreadable data = false
      /\ NoDup linked
      /\ (forall x, In x linked -> Sql.has_relationship (next_cid d) x d = false)).
Proof.
  cbv zeta. destruct link.
  - rewrite create_post_run.
    destruct (post_edit.is_empty data).
    { split; [reflexivity|]. split; [intros _; split; auto|intros _; discriminate]. }
    destruct (get (post_edit.title data) post_edit.default_title) as [|a t];
      cbn [Py.is_empty orb].
    { split; [reflexivity|]. split; [intros _; split; auto|intros _; discriminate]. }
    destruct (get (post_edit.text data) "") as [|b u]; cbn [Py.is_empty].
    { split; [reflexivity|]. split; [intros _; split; auto|intros _; discriminate]. }
    assert (Hno : ~ (false = true \/ String a t = "" \/ String b u = ""))
      by (intros [H|[H|H]]; discriminate).
    unfold Py.truthy. destruct (next_cid d =? 0) eqn:E; cbn [negb fst snd status].
    { split; [reflexivity|].
      split; [intros _; split; [discriminate|intros H; contradiction]
             |intros _; discriminate]. }
    destruct (create_refused data d) eqn:R; cbn [fst snd status].
    { split; [reflexivity|].
      split; [intros _; split; [discriminate|intros H; contradiction]
             |intros _; discriminate]. }
    split; [intros H; exfalso; apply H; reflexivity|].
    split; [intros _; split; [discriminate|intros H; contradiction]|].
    intros _ _. apply Z.eqb_neq in E.
    split; [reflexivity|]. split; [reflexivity|]. split; [discriminate|].
    split; [discriminate|]. split; [exact E|].
    unfold create_refused in R. cbv zeta in R.
    apply orb_false_iff in R. destruct R as [R Rtag].
    apply orb_false_iff in R. destruct R as [Rcat Rint].
    split; [exact Rint|].
    apply links_not_refused in Rcat. destruct Rcat as [NA HA].
    apply links_not_refused in Rtag. destruct Rtag as [NB HB].
    rewrite (existing_same "category" d) in NA, HA by reflexivity.
    match type of NB with NoDup (existing "tag" ?d2 _) =>
      assert (Hex : forall x, is_not_None (Sql.select_meta "tag" x d2)
                              = is_not_None (Sql.select_meta "tag" x d))
    end.
    { intros x. rewrite link_nodes_run. unfold Sql.select_meta.
      cbn [typecho_metas Sql.insert_content snd]. apply find_map_same.
      intros m. reflexivity. }
    rewrite (existing_same "tag" d _ _ Hex) in NB, HB.
    assert (HB' : forall x, In x (existing "tag" d (tag_ids data)) ->
              Sql.has_relationship (next_cid d) x d = false
              /\ ~ In x (existing "category" d (category_ids data))).
    { intros x Hx. specialize (HB x Hx). rewrite has_relationship_links in HB.
      apply orb_false_iff in HB. destruct HB as [H1 H2].
      rewrite (existing_same "category" d) in H2 by reflexivity.
      split; [exact H1|]. intros Hin. apply not_true_iff_false in H2. apply H2.
      apply existsb_exists. exists x. split; [exact Hin|apply Z.eqb_refl]. }
    split.
    + apply NoDup_app; [exact NA|exact NB|].
      intros x HxA HxB. exact (proj2 (HB' x HxB) HxA).
    + intros x Hx. apply in_app_or in Hx. destruct Hx as [Hx|Hx].
      * apply (HA x Hx).
      * exact (proj1 (HB' x Hx)).
  - split; [intros _; apply create_post_dead|].
    split; [discriminate|]. intros _.
    unfold post_edit.create_post, respond, try_, connect, return_, bind, insert.
    destruct (post_edit.is_empty data); [discriminate|].
    destruct (Py.is_empty _ || Py.is_empty _); discriminate.
Qed.

(** Category 1 asked for twice: the second link is refused, and nothing
    is stored. *)
Lemma create_post_all_or_nothing_witness :
  let data := post_edit.mk_post_data (Some "hello") (Some "text") None (Some [1; 1])
                None None in
  post_edit.create_post data (connect true Sample.chain)
  = (mk_response Failed 500, Sample.chain)
  /\ fst (post_edit.create_post (Sample.filed_post "publish") (connect true Sample.chain))
     = mk_response (PostCreated 1) 201
  /\ Sql.has_relationship 1 1 Sample.chain = false.
Proof.
  cbv zeta. split; [reflexivity|]. split; [reflexivity|].
  destruct (create_post_all_or_nothing true (Sample.filed_post "publish") Sample.chain)
    as (_ & _ & H).
  cbv zeta in H. destruct (H eq_refl eq_refl) as (_ & _ & _ & _ & _ & _ & _ & Hnew).
  apply Hnew. left. reflexivity.
Defined.

(** A creation answered 201: what it stored. *)
Lemma create_post_stored (data : post_edit.post_data) (d : database) :
  status (fst (post_edit.create_post data (connect true d))) = 201 ->
  post_edit.create_post data (connect true d)
  = (mk_response (PostCreated (next_cid d)) 201, created data d).
Proof.
  rewrite create_post_run.
  destruct (post_edit.is_empty data); [discriminate|].
  destruct (Py.is_empty _ || Py.is_empty _); [discriminate|].
  destruct (negb (Py.truthy (next_cid d))); [discriminate|].
  destruct (create_refused data d); [discriminate|]. reflexivity.
Qed.

(** X15.  What a [create_post] answered 201 has stored besides the counts:
    one content row of type post with the id of the answer, the title, slug,
    text and status asked for (defaults: the default title of the source,
    no slug, status publish); and, after the links that were there, one
    link from the post to each entry of the category list (default [[1]])
    that is the id of a category, then one to each entry of the tag list
    that passes the digit test (an integer that is not negative, or text
    of digits between blanks) and is the id of a tag, in the order of the
    lists.  Entries that name no node are passed over.  (For a tag list
    whose text entries are ASCII.) *)
Theorem create_post_links (data : post_edit.post_data) (d : database) :
  let answer := post_edit.create_post data (connect true d) in
  forallb Py.ascii_item (post_edit.tag_entries data) = true ->
  status (fst answer) = 201 ->
  fst answer = mk_response (PostCreated (next_cid d)) 201
  /\ typecho_contents (snd answer)
     = (typecho_contents d
        ++ [Content.mk (next_cid d) (get (post_edit.title data) post_edit.default_title)
              (get (post_edit.slug data) "") (get (post_edit.text data) "")
              "post" (get (post_edit.status data) "publish") 0])%list
  /\ typecho_relationships (snd answer)
     = (typecho_relationships d
        ++ map (Rel.mk (next_cid d)) (existing "category" d (category_ids data))
        ++ map (Rel.mk (next_cid d)) (existing "tag" d (tag_ids data)))%list
  /\ typecho_comments (snd answer) = typecho_comments d
  /\ typecho_fields (snd answer) = typecho_fields d
  /\ next_mid (snd answer) = next_mid d
  /\ next_cid (snd answer) = next_cid d + 1.
Proof.
  cbv zeta. intros _ H. rewrite (create_post_stored data d H).
  cbn [fst snd]. rewrite created_run. repeat split.
Qed.

(** A post without a title, filed under category 1 and category 9 (which
    is not there), with tags given as an integer, as text and as a
    fraction: the title is the default one, and the links are those to
    category 1 and to the tags 5 and 6. *)
Lemma create_post_links_witness :
  let d := mk_database
             [Sample.category 1 "a" 1 0; Sample.tag 5 "rocq" 0; Sample.tag 6 "coq" 0;
              Sample.tag 7 "lean" 0]
             [] [] [] (Some []) 8 1 in
  let data := post_edit.mk_post_data None (Some "text") None (Some [1; 9])
                (Some (post_edit.TagList
                         [Py.Int 5; Py.Str " 6 "; Py.Float (Py.Finite 7 1); Py.Int (-7)]))
                None in
  let answer := post_edit.create_post data (connect true d) in
  fst answer = mk_response (PostCreated 1) 201
  /\ typecho_contents (snd answer)
     = [Content.mk 1 post_edit.default_title "" "text" "post" "publish" 0]
  /\ typecho_relationships (snd answer) = [Rel.mk 1 1; Rel.mk 1 5; Rel.mk 1 6].
Proof.
  cbv zeta.
  match goal with |- context [post_edit.create_post ?data (connect true ?d)] =>
    destruct (create_post_links data d eq_refl eq_refl) as (H1 & H2 & H3 & _)
  end.
  split; [exact H1|]. split; [exact H2|exact H3].
Defined.

(** X16.  What a [create_post] answered 201 does to the counts: the count
    of a category rises by the number of times its id occurs in the
    category list, the count of a tag by the number of times its id occurs
    among the tag ids that are kept, whatever the status of the post; no
    other column of [typecho_metas] changes and no row comes or goes.
    (For a tag list whose text entries are ASCII.) *)
Theorem create_post_counts (data : post_edit.post_data) (d : database) :
  let answer := post_edit.create_post data (connect true d) in
  forallb Py.ascii_item (post_edit.tag_entries data) = true ->
  status (fst answer) = 201 ->
  typecho_metas (snd answer)
  = map (fun m => Meta.set_count
                    (Meta.count m + credit "category" (category_ids data) m
                     + credit "tag" (tag_ids data) m)%N m)
      (typecho_metas d).
Proof.
  cbv zeta. intros _ H. rewrite (create_post_stored data d H).
  cbn [fst snd]. rewrite created_run. cbn [typecho_metas].
  rewrite map_map. apply map_ext_in. intros m Hm.
  unfold credited, credit. unfold Meta.set_count.
  cbn [Meta.type Meta.count Meta.mid Meta.name Meta.slug Meta.description
       Meta.order Meta.parent].
  destruct (Sql.eqs (Meta.type m) "category") eqn:Ec;
    destruct (Sql.eqs (Meta.type m) "tag") eqn:Et;
    rewrite ?(occurrences_existing "category" d _ m Hm Ec),
            ?(occurrences_existing "tag" d _ m Hm Et);
    f_equal; lia.
Qed.

Lemma create_post_counts_witness :
  typecho_metas
    (snd (post_edit.create_post (Sample.tagged_post "draft") (connect true Sample.one_tag)))
  = [Sample.tag 5 "rocq" 1].
Proof.
  exact (create_post_counts (Sample.tagged_post "draft") Sample.one_tag eq_refl eq_refl).
Defined.

(* ================================================================== *)
(** ** What deleting a post removes *)
(* ================================================================== *)

(** An unlinking loop writes the links and the counts, nothing else. *)
Lemma unlink_nodes_run (ty : string) (dec : bool) (p : Z) (l : list Z) (d : database) :
  let d' := fold_left (fun d x => unlink_node ty dec p x d) l d in
  typecho_relationships d'
  = filter (fun r => negb ((Rel.cid r =? p) && is_target l (Rel.mid r)))
      (typecho_relationships d)
  /\ map (Meta.set_count 0) (typecho_metas d') = map (Meta.set_count 0) (typecho_metas d)
  /\ typecho_contents d' = typecho_contents d
  /\ typecho_comments d' = typecho_comments d
  /\ typecho_fields d' = typecho_fields d.
Proof.
  cbv zeta. revert d. induction l as [|x l IH]; intros d.
  - cbn. repeat split. symmetry. apply filter_all. intros r _.
    rewrite andb_false_r. reflexivity.
  - cbn [fold_left]. destruct (IH (unlink_node ty dec p x d)) as (H1 & H2 & H3 & H4 & H5).
    rewrite H1, H2, H3, H4, H5. clear IH H1 H2 H3 H4 H5.
    unfold unlink_node. cbv zeta.
    assert (Hrel : typecho_relationships
                     (if dec then Sql.count_added ty x (-1) (Sql.delete_relationship p x d)
                      else Sql.delete_relationship p x d)
                   = filter (fun r => negb ((Rel.cid r =? p) && (Rel.mid r =? x)))
                       (typecho_relationships d)) by (destruct dec; reflexivity).
    rewrite Hrel. split; [|destruct dec; repeat split].
    + rewrite filter_filter. apply filter_ext. intros r. rewrite is_target_cons.
      destruct (Rel.cid r =? p); [|reflexivity]. cbn [andb].
      destruct (Rel.mid r =? x); reflexivity.
    + cbn. rewrite map_map. apply map_ext. intros m.
      destruct (Sql.is_node ty x m); reflexivity.
Qed.

Lemma is_target_In (l : list Z) (x : Z) : In x l -> is_target l x = true.
Proof.
  intros H. unfold is_target. apply existsb_exists. exists x. split; [exact H|apply Z.eqb_refl].
Qed.

Lemma draft_gone (c : Z) (d : database) :
  let d' := Sql.delete_fields c
              (Sql.delete_relationships_of_content c (Sql.delete_content c d)) in
  (forall r, In r (typecho_relationships d') -> In r (typecho_relationships d))
  /\ (forall row, In row (typecho_contents d') -> In row (typecho_contents d))
  /\ typecho_metas d' = typecho_metas d
  /\ typecho_comments d' = typecho_comments d.
Proof.
  cbv zeta. cbn. repeat split; intros x Hx; apply filter_In in Hx; apply Hx.
Qed.

Lemma unlink_idle_not_refused (ty : string) (p : Z) (l : list Z) (d : database) :
  refused_in (unlink_refused ty false p) (unlink_node ty false p) l d = false.
Proof.
  revert d. induction l as [|x l IH]; intros d; [reflexivity|].
  cbn [refused_in]. rewrite IH. reflexivity.
Qed.

(** X17.  [delete_post] on a working link.  If no post or draft has the
    id, the answer is 404 and nothing is written.  Otherwise the answer is
    200, or it is 500 and nothing is written (the server refused to take a
    count below 0).  It is 200 when the post is not a published post, and
    also when the store is counted: every category count covers the links
    from published posts, the links name ids given out, and no id is shared
    by a category and a tag.  After an answer 200 no content row, no link
    and no comment carries the id; what is left of the links and comments
    was there before; and no row of [typecho_metas] has come, gone, or
    changed in a column other than its count. *)
Theorem delete_post_purges (post_id : Z) (d : database) :
  let answer := post_edit.delete_post post_id (connect true d) in
  let after := snd answer in
  (Sql.select_post post_id d = None -> answer = (mk_response NotFound 404, d))
  /\ (forall post, Sql.select_post post_id d = Some post ->
      (fst answer = mk_response PostDeleted 200
       \/ answer = (mk_response Failed 500, d))
      /\ (post_edit.is_published_post (Content.status post) (Content.type post) = false ->
          fst answer = mk_response PostDeleted 200)
      /\ (counted d -> fst answer = mk_response PostDeleted 200))
  /\ (fst answer = mk_response PostDeleted 200 ->
      (forall row, In row (typecho_contents after) -> Content.cid row <> post_id)
      /\ (forall r, In r (typecho_relationships after) ->
                    In r (typecho_relationships d) /\ Rel.cid r <> post_id)
      /\ (forall i, In i (typecho_comments after) <->
                    In i (typecho_comments d) /\ i <> post_id)
      /\ map (Meta.set_count 0) (typecho_metas after)
         = map (Meta.set_count 0) (typecho_metas d)).
Proof.
  cbv zeta. rewrite delete_post_run.
  destruct (Sql.select_post post_id d) as [post|] eqn:Hsel.
  2:{ split; [reflexivity|]. split; [discriminate|]. discriminate. }
  split; [discriminate|]. split.
  { intros post' Hpost'. injection Hpost' as <-. split; [|split].
    - destruct (delete_refused post_id post d); [right|left]; reflexivity.
    - intros Hdec. unfold delete_refused. cbv zeta. rewrite Hdec.
      rewrite !unlink_idle_not_refused. reflexivity.
    - intros Hd. rewrite (delete_not_refused post_id post d Hsel Hd). reflexivity. }
  destruct (delete_refused post_id post d); [discriminate|].
  intros _. cbn [fst snd].
  unfold deleted. cbv zeta.
  set (dec := post_edit.is_published_post (Content.status post) (Content.type post)).
  set (d1 := Sql.delete_content post_id d).
  set (l1 := Sql.select_relationships post_id d1).
  set (d2 := fold_left (fun d x => unlink_node "category" dec post_id x d) l1 d1).
  set (l2 := Sql.select_relationships post_id d2).
  set (d3 := fold_left (fun d x => unlink_node "tag" dec post_id x d) l2 d2).
  set (d4 := Sql.delete_fields post_id
               (Sql.unattach post_id (Sql.delete_comments post_id d3))).
  destruct (unlink_nodes_run "category" dec post_id l1 d1) as (R2 & M2 & C2 & K2 & _).
  destruct (unlink_nodes_run "tag" dec post_id l2 d2) as (R3 & M3 & C3 & K3 & _).
  fold d2 in R2, M2, C2, K2. fold d3 in R3, M3, C3, K3.
  assert (Hcontents : forall row, In row (typecho_contents d4) -> Content.cid row <> post_id).
  { intros row Hrow. unfold d4 in Hrow. cbn in Hrow. rewrite C3, C2 in Hrow.
    apply in_map_iff in Hrow. destruct Hrow as (row0 & Heq & Hin).
    unfold d1 in Hin. cbn in Hin. apply filter_In in Hin. destruct Hin as [_ Hin].
    apply negb_true_iff, Z.eqb_neq in Hin.
    destruct (_ && _) in Heq; subst row; exact Hin. }
  assert (Hrels : forall r, In r (typecho_relationships d4) ->
                            In r (typecho_relationships d) /\ Rel.cid r <> post_id).
  { intros r Hr. unfold d4 in Hr. cbn in Hr. rewrite R3 in Hr.
    apply filter_In in Hr. destruct Hr as [Hr _]. rewrite R2 in Hr.
    apply filter_In in Hr. destruct Hr as [Hr Hkeep]. split; [exact Hr|].
    intros Hcid. apply negb_true_iff in Hkeep. rewrite Hcid, Z.eqb_refl in Hkeep.
    cbn [andb] in Hkeep. rewrite is_target_In in Hkeep; [discriminate|].
    unfold l1, Sql.select_relationships. apply in_map. apply filter_In.
    split; [exact Hr|]. rewrite Hcid. apply Z.eqb_refl. }
  assert (Hcomments : forall i, In i (typecho_comments d4) <->
                                In i (typecho_comments d) /\ i <> post_id).
  { intros i. unfold d4. cbn. rewrite K3, K2. unfold d1. cbn.
    rewrite filter_In, negb_true_iff, Z.eqb_neq. reflexivity. }
  assert (Hmetas : map (Meta.set_count 0) (typecho_metas d4)
                   = map (Meta.set_count 0) (typecho_metas d)).
  { unfold d4. cbn. rewrite M3, M2. reflexivity. }
  destruct (Sql.select_draft post_id d4) as [draft|].
  - destruct (draft_gone (Content.cid draft) d4) as (Dr & Dc & Dm & Dk). cbv zeta in *.
    split; [intros row Hrow; apply Hcontents, Dc, Hrow|].
    split; [intros r Hr; apply Hrels, Dr, Hr|].
    split; [intros i; rewrite Dk; apply Hcomments|].
    rewrite Dm. exact Hmetas.
  - split; [exact Hcontents|]. split; [exact Hrels|]. split; [exact Hcomments|exact Hmetas].
Qed.

(** The published post 1 of [Demo.three_tags] carries two tags: its
    deletion is answered 200 and takes its links. *)
Lemma delete_post_purges_witness :
  fst (post_edit.delete_post 1 (connect true Demo.three_tags))
  = mk_response PostDeleted 200
  /\ typecho_relationships (snd (post_edit.delete_post 1 (connect true Demo.three_tags)))
     = [].
Proof.
  assert (H : fst (post_edit.delete_post 1 (connect true Demo.three_tags))
              = mk_response PostDeleted 200) by reflexivity.
  split; [exact H|].
  destruct (proj2 (proj2 (delete_post_purges 1 Demo.three_tags)) H) as (_ & H3 & _).
  destruct (typecho_relationships
              (snd (post_edit.delete_post 1 (connect true Demo.three_tags))))
    as [|r l] eqn:E; [reflexivity|].
  exfalso. destruct (H3 r (or_introl eq_refl)) as [Hin Hcid].
  destruct Hin as [<-|[<-|[]]]; apply Hcid; reflexivity.
Defined.

(* ================================================================== *)
(** ** Creating a post and deleting it again *)
(* ================================================================== *)

Lemma occurrences_app (x : Z) (l1 l2 : list Z) :
  occurrences x (l1 ++ l2) = (occurrences x l1 + occurrences x l2)%N.
Proof. unfold occurrences. rewrite filter_app, length_app. lia. Qed.

Lemma occurrences_absent (x : Z) (l : list Z) : ~ In x l -> occurrences x l = 0%N.
Proof.
  intros H. unfold occurrences. rewrite filter_none; [reflexivity|].
  intros y Hy. apply Z.eqb_neq. intros ->. contradiction.
Qed.

(** The counts after an unlinking loop that decrements. *)
Lemma unlink_nodes_metas (ty : string) (p : Z) (l : list Z) (d : database) :
  typecho_metas (fold_left (fun d x => unlink_node ty true p x d) l d)
  = map (fun m => Meta.set_count (Meta.count m - credit ty l m)%N m) (typecho_metas d).
Proof.
  revert d. induction l as [|x l IH]; intros d.
  - cbn [fold_left]. rewrite <- (map_id (typecho_metas d)) at 1. apply map_ext.
    intros m. unfold credit. destruct (Sql.eqs _ _); cbn; rewrite N.sub_0_r;
      symmetry; apply set_count_same.
  - cbn [fold_left]. rewrite IH. unfold unlink_node. cbn. rewrite map_map.
    apply map_ext. intros m. unfold credit, Sql.is_node. rewrite occurrences_cons.
    destruct (Sql.eqs (Meta.type m) ty) eqn:E; cbn [andb].
    + rewrite (Z.eqb_sym (Meta.mid m) x).
      destruct (x =? Meta.mid m); unfold Meta.set_count;
        cbn [Meta.type Meta.count Meta.mid Meta.name Meta.slug Meta.description
             Meta.order Meta.parent];
        rewrite ?E; f_equal; lia.
    + rewrite E. reflexivity.
Qed.

Lemma unlink_nodes_idle (ty : string) (p : Z) (l : list Z) (d : database) :
  typecho_metas (fold_left (fun d x => unlink_node ty false p x d) l d) = typecho_metas d.
Proof.
  revert d. induction l as [|x l IH]; intros d; [reflexivity|].
  cbn [fold_left]. rewrite IH. reflexivity.
Qed.

Lemma existing_In (ty : string) (d : database) (l : list Z) (x : Z) :
  In x (existing ty d l) ->
  exists m, In m (typecho_metas d) /\ Meta.type m = ty /\ Meta.mid m = x.
Proof.
  intros H. unfold existing in H. apply filter_In in H. destruct H as [_ H].
  destruct (Sql.select_meta ty x d) as [m|] eqn:E; [|discriminate].
  exists m. apply find_is_node. exact E.
Qed.

Lemma unlink_nodes_counters (ty : string) (dec : bool) (p : Z) (l : list Z) (d : database) :
  next_mid (fold_left (fun d x => unlink_node ty dec p x d) l d) = next_mid d
  /\ next_cid (fold_left (fun d x => unlink_node ty dec p x d) l d) = next_cid d.
Proof.
  revert d. induction l as [|x l IH]; intros d; [split; reflexivity|].
  cbn [fold_left]. destruct (IH (unlink_node ty dec p x d)) as [H1 H2].
  rewrite H1, H2. unfold unlink_node. destruct dec; split; reflexivity.
Qed.

(** The links of a fresh id, once the creation has added its own. *)
Lemma links_of_new (p : Z) (rels : list Rel.t) (l : list Z) :
  (forall r, In r rels -> Rel.cid r <> p) ->
  map Rel.mid (filter (fun r => Rel.cid r =? p) (rels ++ map (Rel.mk p) l)) = l.
Proof.
  intros H. rewrite filter_app, filter_none, filter_all.
  - cbn [app]. rewrite map_map. cbn. apply map_id.
  - intros r Hr. apply in_map_iff in Hr. destruct Hr as (x & <- & _). apply Z.eqb_refl.
  - intros r Hr. apply Z.eqb_neq. exact (H r Hr).
Qed.

Lemma links_without_new (p : Z) (rels : list Rel.t) (l : list Z) :
  (forall r, In r rels -> Rel.cid r <> p) ->
  filter (fun r => negb ((Rel.cid r =? p) && is_target l (Rel.mid r)))
    (rels ++ map (Rel.mk p) l)
  = rels.
Proof.
  intros H. rewrite filter_app, filter_all, filter_none.
  - apply app_nil_r.
  - intros r Hr. apply in_map_iff in Hr. destruct Hr as (x & <- & Hx). cbn.
    rewrite Z.eqb_refl, (is_target_In l x Hx). reflexivity.
  - intros r Hr. apply negb_true_iff, andb_false_iff. left. apply Z.eqb_neq.
    exact (H r Hr).
Qed.

(** An unlinking loop that decrements is not refused when the count of
    every category covers the turns on its id. *)
Lemma unlink_covered (p : Z) (l : list Z) (d : database) :
  (forall m, In m (typecho_metas d) -> is_category m = true ->
             (occurrences (Meta.mid m) l <= Meta.count m)%N) ->
  refused_in (unlink_refused "category" true p) (unlink_node "category" true p) l d = false.
Proof.
  revert d. induction l as [|x l IH]; intros d H; [reflexivity|].
  cbn [refused_in]. apply orb_false_iff. split.
  - unfold unlink_refused, Sql.count_below_zero. cbn [andb].
    change (typecho_metas (Sql.delete_relationship p x d)) with (typecho_metas d).
    apply not_true_iff_false. intros E. apply existsb_exists in E.
    destruct E as (m & Hin & E). apply andb_true_iff in E. destruct E as [Hnode Hlow].
    apply Z.ltb_lt in Hlow. unfold Sql.is_node in Hnode.
    apply andb_true_iff in Hnode. destruct Hnode as [Hty Hmid].
    specialize (H m Hin Hty). rewrite occurrences_cons in H.
    apply Z.eqb_eq in Hmid.
    replace (x =? Meta.mid m) with true in H by (symmetry; apply Z.eqb_eq; lia).
    lia.
  - apply IH. intros m' Hin' Hcat'. unfold unlink_node in Hin'. cbn in Hin'.
    apply in_map_iff in Hin'. destruct Hin' as (m & <- & Hin).
    unfold Sql.is_node in *.
    destruct (Sql.eqs (Meta.type m) "category" && (Meta.mid m =? x)) eqn:E.
    + apply andb_true_iff in E. destruct E as [Hty Hmid].
      specialize (H m Hin Hty). rewrite occurrences_cons in H.
      apply Z.eqb_eq in Hmid.
      replace (x =? Meta.mid m) with true in H by (symmetry; apply Z.eqb_eq; lia).
      cbn [Meta.set_count Meta.mid Meta.count]. lia.
    + specialize (H m Hin Hcat'). rewrite occurrences_cons in H.
      unfold is_category in Hcat'. rewrite Hcat' in E. cbn [andb] in E.
      rewrite (Z.eqb_sym x (Meta.mid m)), E in H. lia.
Qed.

(** X18.  A post that is created and deleted right away.  The deletion
    answers 200 and the links, contents, comments and custom fields are
    back as before the creation.  The counts are not all back: when the
    post was published, every category has its count back, but a tag keeps
    the credit the creation gave it; when the post was not published, the
    categories keep their credit as well.  (For a store whose next content
    id is not in use, and in which no id is shared by a category and a
    tag; and for a tag list whose text entries are ASCII.) *)
Theorem create_then_delete_post (data : post_edit.post_data) (d : database) :
  let created := post_edit.create_post data (connect true d) in
  let deleted := post_edit.delete_post (next_cid d) (connect true (snd created)) in
  let published := Sql.eqs (get (post_edit.status data) "publish") "publish" in
  forallb Py.ascii_item (post_edit.tag_entries data) = true ->
  status (fst created) = 201 ->
  fresh_cid d ->
  kinds_apart d ->
  fst deleted = mk_response PostDeleted 200
  /\ snd deleted
     = mk_database
         (map (fun m => Meta.set_count
                          (Meta.count m
                           + (if published then 0
                              else credit "category" (category_ids data) m)
                           + credit "tag" (tag_ids data) m) m)
            (typecho_metas d))
         (typecho_relationships d) (typecho_contents d) (typecho_comments d)
         (typecho_fields d) (next_mid d) (next_cid d + 1).
Proof.
  cbv zeta. intros _ H201 (Hcontents & Hrels & Hcomments & Hfields) Hkinds.
  rewrite (create_post_stored data d H201). cbn [fst snd].
  rewrite delete_post_run, created_run.
  set (p := next_cid d).
  set (A := existing "category" d (category_ids data)).
  set (B := existing "tag" d (tag_ids data)).
  set (metas1 := map (credited "tag" B) (map (credited "category" A) (typecho_metas d))).
  set (row := Content.mk p _ _ _ "post" _ 0).
  assert (Hpost : Sql.select_post p
                    (mk_database metas1
                       (typecho_relationships d ++ map (Rel.mk p) A ++ map (Rel.mk p) B)
                       (typecho_contents d ++ [row]) (typecho_comments d)
                       (typecho_fields d) (next_mid d) (p + 1))
                  = Some row).
  { unfold Sql.select_post. cbn [typecho_contents]. apply find_app_fresh.
    - apply find_none_intro. intros c Hc. apply andb_false_iff. left.
      apply Z.eqb_neq. exact (proj1 (Hcontents c Hc)).
    - cbn. rewrite Z.eqb_refl. reflexivity. }
  rewrite Hpost.
  assert (Hm : forall m, In m (typecho_metas d) ->
            (Sql.eqs (Meta.type m) "category" = true ->
             occurrences (Meta.mid m) A = occurrences (Meta.mid m) (category_ids data)
             /\ occurrences (Meta.mid m) B = 0%N
             /\ Sql.eqs (Meta.type m) "tag" = false)
            /\ (Sql.eqs (Meta.type m) "tag" = true ->
                occurrences (Meta.mid m) B = occurrences (Meta.mid m) (tag_ids data))).
  { intros m Hin. split; intros Hty.
    - split; [apply occurrences_existing; assumption|].
      apply eqs_true in Hty. split.
      + apply occurrences_absent. intros HB.
        destruct (existing_In _ _ _ _ HB) as (m' & Hin' & Hty' & Hmid').
        exact (Hkinds m m' Hin Hin' Hty Hty' (eq_sym Hmid')).
      + rewrite Hty. reflexivity.
    - apply occurrences_existing; assumption. }
  unfold deleted, delete_refused. cbv zeta.
  set (dec := post_edit.is_published_post (Content.status row) (Content.type row)).
  (* the post row goes *)
  set (d1 := Sql.delete_content p _).
  assert (Hd1 : d1 = mk_database metas1
                       (typecho_relationships d ++ map (Rel.mk p) (A ++ B))
                       (typecho_contents d) (typecho_comments d)
                       (typecho_fields d) (next_mid d) (p + 1)).
  { unfold d1. apply database_ext; try reflexivity; cbn.
    - rewrite map_app. reflexivity.
    - rewrite filter_app. cbn. rewrite Z.eqb_refl. cbn. rewrite app_nil_r.
      apply filter_all. intros c Hc. apply negb_true_iff, Z.eqb_neq.
      exact (proj1 (Hcontents c Hc)). }
  clearbody d1. subst d1.
  (* the first loop takes the links of the post *)
  match goal with |- context [Sql.select_relationships p ?x] =>
    assert (Hl1 : Sql.select_relationships p x = (A ++ B)%list)
      by (apply links_of_new; exact Hrels)
  end.
  rewrite Hl1.
  match goal with |- context [fold_left ?f (A ++ B)%list ?x] =>
    set (d2 := fold_left f (A ++ B)%list x);
    destruct (unlink_nodes_run "category" dec p (A ++ B) x) as (R2 & _ & C2 & K2 & F2);
    destruct (unlink_nodes_counters "category" dec p (A ++ B) x) as (N2 & N2');
    pose proof (unlink_nodes_metas "category" p (A ++ B) x) as M2;
    pose proof (unlink_nodes_idle "category" p (A ++ B) x) as M2';
    assert (Hfirst : refused_in (unlink_refused "category" dec p)
                       (unlink_node "category" dec p) (A ++ B) x = false)
  end.
  { destruct dec; [|apply unlink_idle_not_refused].
    apply unlink_covered. cbn [typecho_metas]. intros m' Hin' Hcat'.
    unfold metas1 in Hin'. rewrite map_map in Hin'.
    apply in_map_iff in Hin'. destruct Hin' as (m & <- & Hin).
    unfold is_category, credited, Meta.set_count in Hcat'. cbn [Meta.type] in Hcat'.
    destruct (Hm m Hin) as [Hc _]. destruct (Hc Hcat') as (_ & HB0 & Et).
    unfold credited, credit.
    cbn [Meta.set_count Meta.type Meta.count Meta.mid].
    rewrite Hcat', Et, occurrences_app, HB0. lia. }
  rewrite Hfirst. cbn [orb].
  cbv zeta in R2, C2, K2, F2. fold d2 in R2, C2, K2, F2, N2, N2'.
  cbn [typecho_relationships typecho_contents typecho_comments typecho_fields
       typecho_metas next_mid next_cid] in R2, C2, K2, F2, N2, N2', M2, M2'.
  rewrite (links_without_new p _ _ Hrels) in R2.
  (* the second loop finds nothing *)
  assert (Hl2 : Sql.select_relationships p d2 = []).
  { unfold Sql.select_relationships. rewrite R2, filter_none; [reflexivity|].
    intros r Hr. apply Z.eqb_neq. exact (Hrels r Hr). }
  rewrite Hl2. cbn [fold_left refused_in].
  split; [reflexivity|]. cbn [snd].
  (* nothing else belongs to the post *)
  set (d4 := Sql.delete_fields p (Sql.unattach p (Sql.delete_comments p d2))).
  assert (Hdraft : Sql.select_draft p d4 = None).
  { unfold Sql.select_draft, d4. cbn. rewrite C2. apply find_none_intro.
    intros c Hc. apply in_map_iff in Hc. destruct Hc as (c0 & <- & Hc0).
    destruct (Hcontents c0 Hc0) as [_ Hpar]. apply Z.eqb_neq in Hpar.
    fold p in Hpar. rewrite Hpar. cbn. rewrite Hpar. reflexivity. }
  rewrite Hdraft. unfold d4.
  apply database_ext; cbn; rewrite ?R2, ?C2, ?K2, ?F2, ?N2, ?N2'; try reflexivity.
  - (* the counts *)
    unfold d2, dec, post_edit.is_published_post, row. cbn [Content.status Content.type].
    replace (Sql.eqs "post" "post") with true by reflexivity. rewrite andb_true_r.
    destruct (Sql.eqs (get (post_edit.status data) "publish") "publish").
    + rewrite M2. unfold metas1. rewrite !map_map. apply map_ext_in. intros m Hin.
      destruct (Hm m Hin) as [Hc Ht].
      unfold credited, credit, Meta.set_count.
      cbn [Meta.type Meta.count Meta.mid Meta.name Meta.slug Meta.description
           Meta.order Meta.parent].
      rewrite occurrences_app.
      destruct (Sql.eqs (Meta.type m) "category") eqn:Ec.
      * destruct (Hc eq_refl) as (HA & HB0 & Et). rewrite Et, HB0. f_equal; lia.
      * destruct (Sql.eqs (Meta.type m) "tag") eqn:Et;
          [rewrite (Ht eq_refl)|]; f_equal; lia.
    + rewrite M2'. unfold metas1. rewrite !map_map. apply map_ext_in. intros m Hin.
      destruct (Hm m Hin) as [Hc Ht].
      unfold credited, credit, Meta.set_count.
      cbn [Meta.type Meta.count Meta.mid Meta.name Meta.slug Meta.description
           Meta.order Meta.parent].
      destruct (Sql.eqs (Meta.type m) "category") eqn:Ec.
      * destruct (Hc eq_refl) as (HA & HB0 & Et). rewrite Et, HA. f_equal; lia.
      * destruct (Sql.eqs (Meta.type m) "tag") eqn:Et;
          [rewrite (Ht eq_refl)|]; f_equal; lia.
  - apply map_id_on. intros c Hc. destruct (Hcontents c Hc) as [_ Hpar].
    apply Z.eqb_neq in Hpar. fold p in Hpar. rewrite Hpar. reflexivity.
  - apply filter_all. intros i Hi. apply negb_true_iff, Z.eqb_neq. exact (Hcomments i Hi).
  - destruct (typecho_fields d) as [l|] eqn:E; [|reflexivity]. cbn. f_equal.
    apply filter_all. intros i Hi. apply negb_true_iff, Z.eqb_neq.
    exact (Hfields l eq_refl i Hi).
Qed.

Lemma create_then_delete_post_witness :
  snd (post_edit.delete_post 1
         (connect true (snd (post_edit.create_post (Sample.tagged_post "publish")
                               (connect true Sample.one_tag)))))
  = mk_database [Sample.tag 5 "rocq" 1] [] [] [] (Some []) 6 2.
Proof.
  assert (Hfresh : fresh_cid Sample.one_tag).
  { unfold fresh_cid. cbn. split; [intros row []|]. split; [intros r []|].
    split; [intros i []|]. intros l Hl. injection Hl as <-. intros i []. }
  assert (Hkinds : kinds_apart Sample.one_tag).
  { intros m1 m2 [<-|[]] _ H. discriminate H. }
  exact (proj2 (create_then_delete_post (Sample.tagged_post "publish") Sample.one_tag
                  eq_refl eq_refl Hfresh Hkinds)).
Defined.

(* ================================================================== *)
(** ** Updates and the uniqueness of names *)
(* ================================================================== *)







(* ================================================================== *)
(** ** Moving a category under another parent *)
(* ================================================================== *)




(* ================================================================== *)
(** ** When the link to the server is down *)
(* ================================================================== *)

Lemma valid_mids_down (mids_input : list Py.item) (acc : list Z) (d s : database) :
  tags_edit.valid_mids mids_input acc (mk_connection d s false)
  = if existsb is_infinite mids_input
    then Raised Py.OverflowError (mk_connection d s false)
    else Next acc (mk_connection d s false).
Proof.
  revert acc. induction mids_input as [|x l IH]; intros acc; [reflexivity|].
  cbn [tags_edit.valid_mids existsb]. pose proof (int_entry x) as Hx.
  destruct (Py.int x) as [z|e] eqn:E.
  - replace (is_infinite x) with false
      by (destruct x as [|[| |]| | | |]; simpl in *; congruence).
    unfold bind, call. destruct (helpers_dead d s) as (_ & _ & _ & _ & H & _).
    rewrite H. apply IH.
  - destruct Hx as [_ Hx]. destruct (is_infinite x).
    + subst e. reflexivity.
    + destruct Hx as [-> | ->]; apply IH.
Qed.

(** X21.  When the link to the server is down, no route writes and none
    reports success.  The routes that look their node up first (update and
    deletion of a category or a tag) answer 404, "does not exist", since
    the lookup counts its own failure as "no"; a batch deletion answers 400
    without a list, 500 when an entry of the list is an infinite number
    (the conversion of the entries comes before any statement), and 404
    otherwise; the creations answer 400 or 500; deleting a post and the
    sweep answer 500, as do the reading routes. *)
Theorem link_down (d : database) (mid post_id : Z) (data : Body.t)
    (post : post_edit.post_data) (route_mid : option Z) (mids : option (list Py.item))
    (page_arg per_page_arg : option string) :
  let c := connect false d in
  let refused := fun a : response * database =>
    (status (fst a) = 400 \/ status (fst a) = 500) /\ snd a = d in
  category_edit.update_category mid data c = (mk_response NotFound 404, d)
  /\ category_edit.delete_category mid c = (mk_response NotFound 404, d)
  /\ tags_edit.update_tag mid data c = (mk_response NotFound 404, d)
  /\ tags_edit.delete_tag route_mid mids c
     = (if Py.truthy (get route_mid 0) then mk_response NotFound 404
        else match mids with
             | None => mk_response MissingMids 400
             | Some mids_input =>
                 if existsb is_infinite mids_input then mk_response Failed 500
                 else mk_response NoValidTags 404
             end, d)
  /\ refused (category_edit.create_category data c)
  /\ refused (tags_edit.create_tag data c)
  /\ refused (post_edit.create_post post c)
  /\ post_edit.delete_post post_id c = (mk_response Failed 500, d)
  /\ tags_edit.refresh_tags c = (mk_response Failed 500, d)
  /\ get_categories c = Broken
  /\ get_category mid c = Broken
  /\ get_tags page_arg per_page_arg c = Broken
  /\ get_tag mid c = Broken
  /\ get_post post_id c = Broken.
Proof.
  cbv zeta. destruct (helpers_dead d d) as (H1 & H2 & H3 & H4 & H5 & H6 & H7).
  split; [apply update_category_missing; left; reflexivity|].
  split.
  { unfold category_edit.delete_category, respond, connect. unfold bind at 1, call.
    rewrite H1. reflexivity. }
  split; [apply update_tag_missing; left; reflexivity|].
  split.
  { unfold tags_edit.delete_tag, respond, try_, connect. unfold bind at 1.
    destruct (Py.truthy (get route_mid 0)).
    - unfold bind at 1, call. rewrite H5. reflexivity.
    - destruct mids as [l|]; [|reflexivity].
      unfold bind. rewrite valid_mids_down.
      destruct (existsb is_infinite l); reflexivity. }
  split.
  { unfold category_edit.create_category.
    unfold respond, try_, bind, call, return_, ret, connect, insert, commit.
    simpl. rewrite ?H1, ?H2, ?H3, ?H4.
    branch; rewrite ?H1, ?H2, ?H3, ?H4; simpl; split;
      first [reflexivity | left; reflexivity | right; reflexivity]. }
  split.
  { unfold tags_edit.create_tag.
    unfold respond, try_, bind, call, return_, ret, connect, insert, commit.
    simpl. rewrite ?H5, ?H6, ?H7.
    branch; rewrite ?H5, ?H6, ?H7; simpl; split;
      first [reflexivity | left; reflexivity | right; reflexivity]. }
  split.
  { unfold post_edit.create_post, respond, try_, connect, return_, bind, insert.
    destruct (post_edit.is_empty post); [split; [left|]; reflexivity|].
    destruct (Py.is_empty _ || Py.is_empty _); split; first [reflexivity | left; reflexivity | right; reflexivity]. }
  repeat split.
Qed.

(* ================================================================== *)
(** ** Who gets past the authentication *)
(* ================================================================== *)





Lemma lstrip_blanks (s : string) : every Py.is_space s = true -> Py.lstrip s = "".
Proof.
  induction s as [|a s IH]; [reflexivity|]. cbn. intros H.
  apply andb_true_iff in H. destruct H as [Ha Hs]. rewrite Ha. exact (IH Hs).
Qed.

(** X23.  Requests the decorator turns away, and one it does not answer.
    Without the two headers, or with empty ones, the answer is 401.  When
    the standard header starts with "Basic " the custom header plays no
    part, even if the standard one cannot be decoded.  A standard header
    that has only blanks behind "Basic " is not answered 401: taking the
    second piece of the header raises [IndexError] outside every [try]. *)
Theorem require_api_auth_rejects {A : Type} (decode : string -> option string)
    (md5_hexdigest : string -> string) (f : A) (link : verify_user.users_link)
    (authorization x_api_auth : option string) :
  (get authorization "" = "" -> get x_api_auth "" = "" ->
   verify_user.require_api_auth decode md5_hexdigest f link authorization x_api_auth
   = verify_user.Unauthorized)
  /\ (verify_user.startswith (get authorization "") "Basic " = true ->
      verify_user.require_api_auth decode md5_hexdigest f link authorization x_api_auth
      = verify_user.require_api_auth decode md5_hexdigest f link authorization None)
  /\ (forall blanks, every Py.is_space blanks = true ->
      authorization = Some ("Basic " ++ blanks)%string ->
      verify_user.require_api_auth decode md5_hexdigest f link authorization x_api_auth
      = verify_user.Crashed).
Proof.
  split; [|split].
  - intros H1 H2. unfold verify_user.require_api_auth, verify_user.credentials.
    rewrite H1, H2. reflexivity.
  - intros H. unfold verify_user.require_api_auth, verify_user.credentials.
    rewrite H. destruct (get authorization "") as [|a s]; [discriminate|]. reflexivity.
  - intros blanks Hb ->. unfold verify_user.require_api_auth, verify_user.credentials.
    cbn [get]. unfold verify_user.split_blank_once. cbn.
    rewrite (lstrip_blanks blanks Hb). reflexivity.
Qed.

Lemma require_api_auth_rejects_witness :
  verify_user.require_api_auth Some (fun s => s) 200 verify_user.NoConnection
    (Some "Basic  ") (Some "ann:secret")
  = verify_user.Crashed.
Proof.
  exact (proj2 (proj2 (require_api_auth_rejects Some (fun s => s) 200
                         verify_user.NoConnection (Some "Basic  ") (Some "ann:secret")))
           " " eq_refl eq_refl).
Defined.

(* ================================================================== *)
(** ** Reading back a post *)
(* ================================================================== *)

(** The ids of the nodes of kind [ty] that [get_post] lists for the post
    just created. *)
Lemma nodes_of_created (ty : string) (data : post_edit.post_data) (d : database) (x : Z) :
  (forall r, In r (typecho_relationships d) -> Rel.cid r <> next_cid d) ->
  In x (map Meta.mid (Select.nodes_of ty (next_cid d) (created data d)))
  <-> (exists m, In m (typecho_metas d) /\ Meta.type m = ty /\ Meta.mid m = x)
      /\ (In x (existing "category" d (category_ids data))
          \/ In x (existing "tag" d (tag_ids data))).
Proof.
  intros Hrels. rewrite created_run. unfold Select.nodes_of.
  cbn [typecho_metas typecho_relationships].
  set (A := existing "category" d (category_ids data)).
  set (B := existing "tag" d (tag_ids data)).
  rewrite in_map_iff. split.
  - intros (m & Hmid & Hin). apply in_flat_map in Hin. destruct Hin as (m' & Hm' & Hin).
    apply in_map_iff in Hin. destruct Hin as (r & -> & Hr).
    apply filter_In in Hm'. destruct Hm' as [Hm' Hty]. apply eqs_true in Hty.
    apply in_map_iff in Hm'. destruct Hm' as (m1 & <- & Hm1).
    apply in_map_iff in Hm1. destruct Hm1 as (m0 & <- & Hm0).
    apply filter_In in Hr. destruct Hr as [Hr Hjoin].
    apply andb_true_iff in Hjoin. destruct Hjoin as [Hj1 Hj2].
    apply Z.eqb_eq in Hj1, Hj2. cbn in Hj1, Hty, Hmid. split.
    + exists m0. split; [exact Hm0|]. split; [exact Hty|exact Hmid].
    + rewrite <- Hmid, Hj1.
      apply in_app_or in Hr. destruct Hr as [Hr|Hr]; [exfalso; exact (Hrels r Hr Hj2)|].
      apply in_app_or in Hr. destruct Hr as [Hr|Hr];
        apply in_map_iff in Hr; destruct Hr as (y & <- & Hy); [left|right]; exact Hy.
  - intros ((m0 & Hm0 & Hty & Hmid) & Hx).
    exists (credited "tag" B (credited "category" A m0)). split; [exact Hmid|].
    apply in_flat_map. exists (credited "tag" B (credited "category" A m0)). split.
    + apply filter_In. split; [do 2 apply in_map; exact Hm0|].
      cbn. rewrite Hty. apply eqs_refl.
    + apply in_map_iff. exists (Rel.mk (next_cid d) x). split; [reflexivity|].
      apply filter_In. split.
      * apply in_or_app. right. apply in_or_app.
        destruct Hx as [Hx|Hx]; [left|right]; apply in_map; exact Hx.
      * cbn. rewrite Hmid, !Z.eqb_refl. reflexivity.
Qed.

(** X24.  A post that was just created can be read back: after a
    [create_post] answered 201, [get_post] on the id of the answer fetches
    the content row that was stored (with the default title of the source
    when the request gave none), and lists as its categories the
    categories whose id is in the category list of the request, and as its
    tags the tags whose id is that of an entry of the tag list that passes
    the digit test.  (For a store whose next content id is not in use, and
    in which no id is shared by a category and a tag; and for a tag list
    whose text entries are ASCII.) *)
Theorem created_post_read_back (data : post_edit.post_data) (d : database) :
  let created := post_edit.create_post data (connect true d) in
  forallb Py.ascii_item (post_edit.tag_entries data) = true ->
  status (fst created) = 201 ->
  fresh_cid d ->
  kinds_apart d ->
  exists view,
    get_post (next_cid d) (connect true (snd created)) = Fetched view
    /\ p_post view
       = Content.mk (next_cid d) (get (post_edit.title data) post_edit.default_title)
           (get (post_edit.slug data) "") (get (post_edit.text data) "")
           "post" (get (post_edit.status data) "publish") 0
    /\ (forall x, In x (map Meta.mid (p_categories view)) <->
                  In x (category_ids data)
                  /\ exists m, In m (typecho_metas d)
                               /\ Meta.type m = "category" /\ Meta.mid m = x)
    /\ (forall x, In x (map Meta.mid (p_tags view)) <->
                  In x (tag_ids data)
                  /\ exists m, In m (typecho_metas d)
                               /\ Meta.type m = "tag" /\ Meta.mid m = x).
Proof.
  cbv zeta. intros _ H201 (Hcontents & Hrels & _) Hkinds.
  rewrite (create_post_stored data d H201). cbn [fst snd].
  unfold get_post, fetch, connect. cbn [alive pending].
  assert (Hpost : Select.post (next_cid d) (created data d)
                  = Some (Content.mk (next_cid d)
                            (get (post_edit.title data) post_edit.default_title)
                            (get (post_edit.slug data) "") (get (post_edit.text data) "")
                            "post" (get (post_edit.status data) "publish") 0)).
  { rewrite created_run. unfold Select.post. cbn [typecho_contents]. apply find_app_fresh.
    - apply find_none_intro. intros c Hc. apply andb_false_iff. left.
      apply Z.eqb_neq. exact (proj1 (Hcontents c Hc)).
    - cbn. rewrite Z.eqb_refl. reflexivity. }
  rewrite Hpost. eexists. split; [reflexivity|]. cbn [p_post p_categories p_tags].
  split; [reflexivity|].
  assert (Hex : forall ty l x,
            In x (existing ty d l) <->
            In x l /\ exists m, In m (typecho_metas d) /\ Meta.type m = ty /\ Meta.mid m = x).
  { intros ty l x. split.
    - intros H. split; [apply filter_In in H; apply H|]. exact (existing_In _ _ _ _ H).
    - intros (Hl & m & Hm & Hty & Hmid). apply filter_In. split; [exact Hl|].
      destruct (Sql.select_meta ty x d) eqn:E; [reflexivity|].
      pose proof (find_none _ _ E m Hm) as Hn. unfold Sql.is_node in Hn.
      rewrite Hty, Hmid, eqs_refl, Z.eqb_refl in Hn. discriminate. }
  split; intros x; rewrite (nodes_of_created _ data d x Hrels), <- Hex; split.
  - intros ((m & Hm & Hty & Hmid) & [Hx|Hx]); [exact Hx|exfalso].
    destruct (existing_In _ _ _ _ Hx) as (m' & Hm' & Hty' & Hmid').
    exact (Hkinds m m' Hm Hm' Hty Hty' (eq_trans Hmid (eq_sym Hmid'))).
  - intros Hx. split; [exact (existing_In _ _ _ _ Hx)|left; exact Hx].
  - intros ((m & Hm & Hty & Hmid) & [Hx|Hx]); [exfalso|exact Hx].
    destruct (existing_In _ _ _ _ Hx) as (m' & Hm' & Hty' & Hmid').
    exact (Hkinds m' m Hm' Hm Hty' Hty (eq_trans Hmid' (eq_sym Hmid))).
  - intros Hx. split; [exact (existing_In _ _ _ _ Hx)|right; exact Hx].
Qed.

Lemma created_post_read_back_witness :
  exists view,
    get_post 1 (connect true (snd (post_edit.create_post (Sample.filed_post "publish")
                                     (connect true Sample.chain)))) = Fetched view
    /\ Content.title (p_post view) = "hello"
    /\ map Meta.mid (p_categories view) = [1]
    /\ p_tags view = [].
Proof.
  assert (Hfresh : fresh_cid Sample.chain).
  { unfold fresh_cid. cbn. split; [intros row []|]. split; [intros r []|].
    split; [intros i []|]. intros l Hl. injection Hl as <-. intros i []. }
  assert (Hkinds : kinds_apart Sample.chain).
  { intros m1 m2 _ [<-|[<-|[<-|[]]]] _ H; discriminate H. }
  destruct (created_post_read_back (Sample.filed_post "publish") Sample.chain
              eq_refl eq_refl Hfresh Hkinds) as (view & Hview & _).
  exists view. split; [exact Hview|].
  cbv in Hview. injection Hview as <-. repeat split.
Defined.

(* ================================================================== *)
(** ** The order of the listings *)
(* ================================================================== *)

Lemma sorted_weaken {A : Type} (R R' : A -> A -> Prop) (l : list A) :
  (forall a b, R a b -> R' a b) -> StronglySorted R l -> StronglySorted R' l.
Proof.
  intros H. induction 1 as [|x l Hl IH Hx]; constructor; [exact IH|].
  eapply Forall_impl; [|exact Hx]. intros b. apply H.
Qed.

(** X25.  [get_categories] on a working link lists the categories, each
    row once and no other row, ordered by parent and, under one parent, by
    order; the rows that [get_tags] pages through are the tags, each once,
    in descending order of id. *)
Theorem listings_ordered (d : database) :
  (exists categories,
     get_categories (connect true d) = Fetched categories
     /\ Permutation categories
          (filter (fun m => Sql.eqs (Meta.type m) "category") (typecho_metas d))
     /\ StronglySorted
          (fun a b => Meta.parent a < Meta.parent b
                      \/ (Meta.parent a = Meta.parent b /\ Meta.order a <= Meta.order b))
          categories)
  /\ (exists rows,
        Select.tags d = map Select.entry rows
        /\ Permutation rows (filter (fun m => Sql.eqs (Meta.type m) "tag") (typecho_metas d))
        /\ StronglySorted (fun a b => Meta.mid b <= Meta.mid a) rows).
Proof.
  split.
  - eexists. split; [reflexivity|]. split; [apply order_by_perm|].
    eapply sorted_weaken; [|apply order_by_sorted].
    + intros a b H. unfold Select.by_parent_then_order in H. cbv beta in H. lia.
    + intros x y H. unfold Select.by_parent_then_order in *. lia.
    + intros x y z H1 H2. unfold Select.by_parent_then_order in *. lia.
  - eexists. split; [reflexivity|]. split; [apply order_by_perm|].
    eapply sorted_weaken; [|apply order_by_sorted].
    + intros a b H. unfold Select.by_mid_desc in H. cbv beta in H. lia.
    + intros x y H. unfold Select.by_mid_desc in *. lia.
    + intros x y z H1 H2. unfold Select.by_mid_desc in *. lia.
Qed.

(* ================================================================== *)
(** ** The slug of a creation that gives none *)
(* ================================================================== *)

(** A creation with a body, on a working link: the answer is [Invalid]
    with the complaints when there are some. *)
Lemma create_category_refused (data : Body.t) (d : database) :
  Body.is_empty data = false ->
  match create_errors "category" d data with
  | [] => status (fst (category_edit.create_category data (connect true d))) <> 400
  | (_ :: _) as errors =>
      category_edit.create_category data (connect true d)
      = (mk_response (Invalid errors) 400, d)
  end.
Proof.
  intros Hdata. unfold category_edit.create_category, create_errors.
  unfold respond, try_, bind, call, return_, ret, connect, insert, commit.
  rewrite Hdata.
  set (name := Py.strip (get (Body.name data) "")).
  set (slug0 := Py.strip (get (Body.slug data) "")).
  set (slug := if Py.is_empty slug0 then slugify name else slug0).
  set (parent := get (Body.parent data) 0).
  replace (Sql.eqs "category" "category") with true by reflexivity. cbn [andb].
  run_helpers.
  destruct (Py.is_empty name); destruct (slug_format slug); run_helpers;
    destruct (Py.truthy parent); run_helpers;
    try destruct (parent <? 0); run_helpers;
    try destruct (parent >? 0); run_helpers;
    try destruct (is_not_None (Sql.select_meta_by_name "category" name d)); run_helpers;
    try destruct (is_not_None (Sql.select_meta_by_slug "category" slug d)); run_helpers;
    try destruct (is_not_None (Sql.select_meta "category" parent d)); run_helpers;
    try reflexivity;
    destruct (negb (Py.truthy (next_mid d))); simpl; discriminate.
Qed.

Lemma create_tag_refused (data : Body.t) (d : database) :
  Body.is_empty data = false ->
  match create_errors "tag" d data with
  | [] => status (fst (tags_edit.create_tag data (connect true d))) <> 400
  | (_ :: _) as errors =>
      tags_edit.create_tag data (connect true d) = (mk_response (Invalid errors) 400, d)
  end.
Proof.
  intros Hdata. unfold tags_edit.create_tag, create_errors.
  unfold respond, try_, bind, call, return_, ret, connect, insert, commit.
  rewrite Hdata.
  set (name := Py.strip (get (Body.name data) "")).
  set (slug0 := Py.strip (get (Body.slug data) "")).
  set (slug := if Py.is_empty slug0 then slugify name else slug0).
  replace (Sql.eqs "tag" "category") with false by reflexivity. cbn [andb].
  run_helpers.
  destruct (Py.is_empty name); destruct (slug_format slug); run_helpers;
    try destruct (is_not_None (Sql.select_meta_by_name "tag" name d)); run_helpers;
    try destruct (is_not_None (Sql.select_meta_by_slug "tag" slug d)); run_helpers;
    try reflexivity;
    destruct (negb (Py.truthy (next_mid d))); simpl; discriminate.
Qed.

(** The slug is complained about exactly when it fails the format
    check. *)
Lemma create_errors_slug_format (ty : string) (d : database) (data : Body.t) :
  let name := Py.strip (get (Body.name data) "") in
  let slug := Py.strip (get (Body.slug data) "") in
  let slug := if Py.is_empty slug then slugify name else slug in
  In SlugFormat (create_errors ty d data) <-> slug_format slug = false.
Proof.
  cbv zeta. unfold create_errors.
  set (name := Py.strip (get (Body.name data) "")).
  set (slug0 := Py.strip (get (Body.slug data) "")).
  set (slug := if Py.is_empty slug0 then slugify name else slug0).
  rewrite !in_app_iff.
  destruct (slug_format slug); cbn [negb].
  - split; [|discriminate]. intros [H|[H|H]]; exfalso.
    + destruct (Py.is_empty name); [|destruct (is_not_None _)];
        cbn in H; intuition discriminate.
    + destruct (is_not_None _); cbn in H; intuition discriminate.
    + destruct (_ && _); [|destruct H].
      destruct (_ <? _); [|destruct (_ && _)]; cbn in H; intuition discriminate.
  - split; [reflexivity|]. intros _. right. left. left. reflexivity.
Qed.

(** X26.  A creation with an ASCII name that gives no slug (or a blank
    one) takes the slug made from its name.  If that slug is empty, as for
    a name without any letter, digit, underscore, hyphen or inner blank,
    the creation is answered 400 with the complaint about the slug format;
    otherwise a 400 answer never carries that complaint, and a node that is
    created carries the slug made from the name.  This holds of categories
    and of tags. *)
Theorem create_slug_from_name (data : Body.t) (d : database) :
  Body.is_empty data = false ->
  Py.ascii_text (get (Body.name data) "") = true ->
  Py.strip (get (Body.slug data) "") = "" ->
  let made := slugify (Py.strip (get (Body.name data) "")) in
  (let answer := category_edit.create_category data (connect true d) in
   (made = "" ->
    exists errors, answer = (mk_response (Invalid errors) 400, d) /\ In SlugFormat errors)
   /\ (made <> "" ->
       (forall errors, fst answer = mk_response (Invalid errors) 400 ->
                       ~ In SlugFormat errors)
       /\ (forall node, fst answer = mk_response (CategoryCreated node) 201 ->
                        v_slug node = made)))
  /\ (let answer := tags_edit.create_tag data (connect true d) in
      (made = "" ->
       exists errors, answer = (mk_response (Invalid errors) 400, d) /\ In SlugFormat errors)
      /\ (made <> "" ->
          (forall errors, fst answer = mk_response (Invalid errors) 400 ->
                          ~ In SlugFormat errors)
          /\ (forall node, fst answer = mk_response (TagCreated node) 201 ->
                           t_slug node = made))).
Proof.
  intros Hdata _ Hslug. cbv zeta.
  set (made := slugify (Py.strip (get (Body.name data) ""))).
  assert (Hformat : slug_format made = negb (Py.is_empty made)) by apply slugify_format.
  split.
  - pose proof (create_category_refused data d Hdata) as Hrun.
    pose proof (create_errors_slug_format "category" d data) as Hin.
    cbv zeta in Hin. rewrite Hslug in Hin. cbn [Py.is_empty] in Hin. fold made in Hin.
    split.
    + intros Hempty. rewrite Hempty in Hformat.
      destruct (create_errors "category" d data) as [|e errors] eqn:E.
      * exfalso. rewrite Hempty in Hin. destruct (proj2 Hin Hformat).
      * exists (e :: errors). split; [exact Hrun|]. apply Hin. rewrite Hempty. exact Hformat.
    + intros Hmade. assert (Hok : slug_format made = true).
      { rewrite Hformat. destruct made; [contradiction|reflexivity]. }
      split.
      * intros errors Hans Hbad.
        destruct (create_errors "category" d data) as [|e errs] eqn:E.
        -- rewrite Hans in Hrun. apply Hrun. reflexivity.
        -- rewrite Hrun in Hans. cbn [fst] in Hans. injection Hans as <-.
           apply Hin in Hbad. congruence.
      * intros node Hans.
        destruct (create_category_outcome true data d) as [[Hno _]|H].
        -- rewrite Hans in Hno. exfalso. apply Hno. reflexivity.
        -- destruct H as (_ & _ & _ & _ & _ & _ & Hanswer). cbv zeta in Hanswer.
           rewrite Hanswer in Hans. cbn [fst] in Hans. injection Hans as <-.
           cbn [v_slug]. rewrite Hslug. reflexivity.
  - pose proof (create_tag_refused data d Hdata) as Hrun.
    pose proof (create_errors_slug_format "tag" d data) as Hin.
    cbv zeta in Hin. rewrite Hslug in Hin. cbn [Py.is_empty] in Hin. fold made in Hin.
    split.
    + intros Hempty. rewrite Hempty in Hformat.
      destruct (create_errors "tag" d data) as [|e errors] eqn:E.
      * exfalso. rewrite Hempty in Hin. destruct (proj2 Hin Hformat).
      * exists (e :: errors). split; [exact Hrun|]. apply Hin. rewrite Hempty. exact Hformat.
    + intros Hmade. assert (Hok : slug_format made = true).
      { rewrite Hformat. destruct made; [contradiction|reflexivity]. }
      split.
      * intros errors Hans Hbad.
        destruct (create_errors "tag" d data) as [|e errs] eqn:E.
        -- rewrite Hans in Hrun. apply Hrun. reflexivity.
        -- rewrite Hrun in Hans. cbn [fst] in Hans. injection Hans as <-.
           apply Hin in Hbad. congruence.
      * intros node Hans.
        destruct (create_tag_outcome true data d) as [[Hno _]|H].
        -- rewrite Hans in Hno. exfalso. apply Hno. reflexivity.
        -- destruct H as (_ & _ & _ & _ & _ & Hanswer). cbv zeta in Hanswer.
           rewrite Hanswer in Hans. cbn [fst] in Hans. injection Hans as <-.
           cbn [t_slug]. rewrite Hslug. reflexivity.
Qed.

Lemma create_slug_from_name_witness :
  (exists errors,
     tags_edit.create_tag (Body.mk (Some "!?") None None None) (connect true Sample.empty)
     = (mk_response (Invalid errors) 400, Sample.empty)
     /\ In SlugFormat errors)
  /\ (forall node,
        fst (category_edit.create_category Sample.new_under_a (connect true Sample.chain))
        = mk_response (CategoryCreated node) 201 ->
        v_slug node = "news-items").
Proof.
  split.
  - exact (proj1 (proj2 (create_slug_from_name (Body.mk (Some "!?") None None None)
                           Sample.empty eq_refl eq_refl eq_refl)) eq_refl).
  - assert (Hne : slugify (Py.strip (get (Body.name Sample.new_under_a) "")) <> "")
      by discriminate.
    exact (proj2 (proj2 (proj1 (create_slug_from_name Sample.new_under_a Sample.chain
                                  eq_refl eq_refl eq_refl)) Hne)).
Defined.
